(** * Simulacion Montecarlo distribuida: productor, consumidor, colector, dashboard

    A shallow embedding of the four Python programs of the repository
    ([productor.py], [consumidor.py], [colector.py], [dashboard.py]) and the
    properties of the specification that can be settled on it.

    Conventions.
    - Python objects that travel as JSON are values of [pyval]; a [dict] is an
      insertion-ordered association list with unique keys, as in CPython.
    - Text is a Rocq [string]; one character stands for one code point below
      256.
    - A Python [float] is an IEEE-754 binary64 number, [spec_float] with
      precision 53 and maximal exponent 1024, computed with the Standard
      Library's executable operations.
    - A call that may raise returns a [result]; code that also changes objects
      threads the state explicitly.
    - Libraries outside the repository (the JSON decoder, the built-in [eval],
      [numpy.random]) are interfaces ([Runtime], [Sampler]); reference
      instances for small fragments are given to run the code on examples. *)

From Stdlib Require Import ZArith Ascii String List Bool Lia.
From Stdlib Require Import SpecFloat.
From stdpp Require Import base option list gmap strings.

Set Warnings "-register-all".
Local Open Scope Z_scope.

(** ** The Python side: exceptions, values, dictionaries *)

Module Py.

(** The exception classes the four programs can meet. [JSONDecodeError] is a
    subclass of [ValueError]; [SystemExit] and [KeyboardInterrupt] are not
    subclasses of [Exception]. *)
Inductive exn : Type :=
  | ValueError
  | JSONDecodeError
  | TypeError
  | IndexError
  | KeyError
  | AttributeError
  | NameError
  | ZeroDivisionError
  | SyntaxError
  | OverflowError
  | FileNotFoundError
  | OSError
  | AMQPError
  | SystemExit
  | KeyboardInterrupt.

(** [except Exception] *)
Definition is_Exception (e : exn) : bool :=
  match e with
  | SystemExit | KeyboardInterrupt => false
  | _ => true
  end.

(** [except ValueError] *)
Definition is_ValueError (e : exn) : bool :=
  match e with
  | ValueError | JSONDecodeError => true
  | _ => false
  end.

(** [except json.JSONDecodeError] *)
Definition is_JSONDecodeError (e : exn) : bool :=
  match e with
  | JSONDecodeError => true
  | _ => false
  end.

Inductive result (A : Type) : Type :=
  | Ok (a : A)
  | Raise (e : exn).
Global Arguments Ok {A} a.
Global Arguments Raise {A} e.

Global Instance result_ret : MRet result := fun _ a => Ok a.
Global Instance result_bind : MBind result := fun _ _ f m =>
  match m with
  | Ok a => f a
  | Raise e => Raise e
  end.
Global Instance result_fmap : FMap result := fun _ _ f m =>
  match m with
  | Ok a => Ok (f a)
  | Raise e => Raise e
  end.

Definition is_Ok {A} (m : result A) : bool :=
  match m with Ok _ => true | Raise _ => false end.

(** binary64 *)
Definition float64 : Type := spec_float.
Definition prec : Z := 53.
Definition emax : Z := 1024.

(** Python objects that JSON can carry. *)
Inductive pyval : Type :=
  | VNone
  | VBool (b : bool)
  | VInt (z : Z)
  | VFloat (f : float64)
  | VStr (s : string)
  | VList (l : list pyval)
  | VDict (d : list (string * pyval)).

Definition dict : Type := list (string * pyval).

(** [d.get(k)] / [k in d] *)
Fixpoint dict_get (k : string) (d : dict) : option pyval :=
  match d with
  | [] => None
  | (k', v) :: d' => if String.eqb k k' then Some v else dict_get k d'
  end.

(** [d[k] = v]: an existing key keeps its place, a new one goes last. *)
Fixpoint dict_set (k : string) (v : pyval) (d : dict) : dict :=
  match d with
  | [] => [(k, v)]
  | (k', v') :: d' =>
      if String.eqb k k' then (k', v) :: d' else (k', v') :: dict_set k v d'
  end.

(** [d.update(other)] for a dictionary [other] *)
Definition dict_update (d other : dict) : dict :=
  fold_left (fun acc kv => dict_set (fst kv) (snd kv) acc) other d.

Definition dict_keys (d : dict) : list string := map fst d.

(** [v == s] for a string literal [s] *)
Definition eq_str (v : pyval) (s : string) : bool :=
  match v with
  | VStr t => String.eqb t s
  | _ => false
  end.

(** [m.get(k, default)] on an arbitrary object: only dictionaries have [get]. *)
Definition py_get (m : pyval) (k : string) (dflt : pyval) : result pyval :=
  match m with
  | VDict d => Ok (default dflt (dict_get k d))
  | _ => Raise AttributeError
  end.

(** [m[k]] for a string [k]: a missing key, or an object that is not a
    dictionary. *)
Definition py_getitem (m : pyval) (k : string) : result pyval :=
  match m with
  | VDict d =>
      match dict_get k d with
      | Some v => Ok v
      | None => Raise KeyError
      end
  | _ => Raise TypeError
  end.

(** One element of the sequence given to [dict.update]: it must itself be a
    sequence of exactly two objects, the key and the value. *)
Definition par_de (x : pyval) : result (pyval * pyval) :=
  match x with
  | VList [k; v] => Ok (k, v)
  | VStr (String a (String b EmptyString)) =>
      Ok (VStr (String a EmptyString), VStr (String b EmptyString))
  | VDict [(k1, _); (k2, _)] => Ok (VStr k1, VStr k2)
  | VList _ | VStr _ | VDict _ => Raise ValueError
  | VNone | VBool _ | VInt _ | VFloat _ => Raise TypeError
  end.

(** [d.update(x)] for an arbitrary object [x]: a dictionary is merged; any
    other iterable must yield pairs; lists and dictionaries cannot be keys.
    A key that is not a string can never be the value of a name, so such an
    entry is left out of the (string-keyed) result. *)
Fixpoint update_pares (d : dict) (l : list pyval) : result dict :=
  match l with
  | [] => Ok d
  | x :: l' =>
      kv ← par_de x;
      match fst kv with
      | VStr k => update_pares (dict_set k (snd kv) d) l'
      | VList _ | VDict _ => Raise TypeError
      | _ => update_pares d l'
      end
  end.

Definition py_update (d : dict) (x : pyval) : result dict :=
  match x with
  | VDict other => Ok (dict_update d other)
  | VList l => update_pares d l
  | VStr EmptyString => Ok d
  | VStr _ => Raise ValueError
  | VNone | VBool _ | VInt _ | VFloat _ => Raise TypeError
  end.

(** *** Text *)

(** [str.isspace] on one character: the white space of [str.strip] and of
    the pattern class [\s]. *)
Definition isspace (c : ascii) : bool :=
  let n := Z.of_N (N_of_ascii c) in
  ((9 <=? n) && (n <=? 13)) || ((28 <=? n) && (n <=? 32))
  || (n =? 133) || (n =? 160).

(** The white space that [float] and [int] pass over at both ends of a
    string: the separators 28 to 31 are not part of it. *)
Definition isspace_num (c : ascii) : bool :=
  let n := Z.of_N (N_of_ascii c) in
  ((9 <=? n) && (n <=? 13)) || (n =? 32) || (n =? 133) || (n =? 160).

Fixpoint lstrip_by (p : ascii -> bool) (s : string) : string :=
  match s with
  | EmptyString => EmptyString
  | String c s' => if p c then lstrip_by p s' else s
  end.

Fixpoint rstrip_by (p : ascii -> bool) (s : string) : string :=
  match s with
  | EmptyString => EmptyString
  | String c s' =>
      match rstrip_by p s' with
      | EmptyString => if p c then EmptyString else String c EmptyString
      | r => String c r
      end
  end.

(** [s.strip()] *)
Definition strip (s : string) : string :=
  rstrip_by isspace (lstrip_by isspace s).

(** The same at the hands of [float] and [int]. *)
Definition strip_num (s : string) : string :=
  rstrip_by isspace_num (lstrip_by isspace_num s).

(** [s.startswith(p)] *)
Definition startswith (s p : string) : bool := String.prefix p s.

(** [c in s] for a one-character [c] *)
Fixpoint contains (c : ascii) (s : string) : bool :=
  match s with
  | EmptyString => false
  | String c' s' => Ascii.eqb c c' || contains c s'
  end.

(** [s.split(sep)] for a one-character separator *)
Fixpoint split (sep : ascii) (s : string) : list string :=
  match s with
  | EmptyString => [EmptyString]
  | String c s' =>
      if Ascii.eqb c sep then EmptyString :: split sep s'
      else match split sep s' with
           | [] => [String c EmptyString]
           | w :: ws => String c w :: ws
           end
  end.

Fixpoint drop_chars (n : nat) (s : string) : string :=
  match n, s with
  | S n', String _ s' => drop_chars n' s'
  | _, _ => s
  end.

Fixpoint take_chars (n : nat) (s : string) : string :=
  match n, s with
  | S n', String c s' => String c (take_chars n' s')
  | _, _ => EmptyString
  end.

(** [s.replace(old, new)] for a non-empty [old]: occurrences are replaced
    from the left and do not overlap. [skip] counts the characters of a
    matched occurrence that are still to be passed over. *)
Fixpoint replace_from (old new : string) (skip : nat) (s : string) : string :=
  match s with
  | EmptyString => EmptyString
  | String c s' =>
      match skip with
      | S n => replace_from old new n s'
      | O =>
          if String.prefix old s
          then new +:+ replace_from old new (Nat.pred (String.length old)) s'
          else String c (replace_from old new O s')
      end
  end.

Definition replace (s old new : string) : string := replace_from old new O s.

(** The line boundaries of [str.splitlines] below code point 256. *)
Definition is_linebreak (c : ascii) : bool :=
  let n := Z.of_N (N_of_ascii c) in
  ((10 <=? n) && (n <=? 13)) || ((28 <=? n) && (n <=? 30)) || (n =? 133).

(** [s.splitlines()]: a carriage return followed by a line feed is one
    boundary, and a final boundary opens no further line. *)
Fixpoint splitlines (s : string) : list string :=
  match s with
  | EmptyString => []
  | String c s' =>
      if is_linebreak c then
        match s' with
        | String c' s'' =>
            if Ascii.eqb c "013" && Ascii.eqb c' "010"
            then EmptyString :: splitlines s''
            else EmptyString :: splitlines s'
        | EmptyString => [EmptyString]
        end
      else
        match splitlines s' with
        | [] => [String c EmptyString]
        | l :: ls => String c l :: ls
        end
  end.

(** *** Numbers *)

Definition digit (c : ascii) : option Z :=
  let n := Z.of_N (N_of_ascii c) in
  if (48 <=? n) && (n <=? 57) then Some (n - 48) else None.

(** What the scanner of digits saw last. *)
Inductive seen : Type := SeenNothing | SeenDigit | SeenUnderscore.

(** A run of decimal digits in which single underscores may stand between
    two digits; the result is the value read after [acc] and the number of
    digits. *)
Fixpoint digitpart (acc : Z) (n : nat) (p : seen) (s : string)
  : option (Z * nat) :=
  match s with
  | EmptyString =>
      match p with SeenDigit => Some (acc, n) | _ => None end
  | String c s' =>
      match digit c with
      | Some d => digitpart (10 * acc + d) (S n) SeenDigit s'
      | None =>
          if Ascii.eqb c "_" then
            match p with
            | SeenDigit => digitpart acc n SeenUnderscore s'
            | _ => None
            end
          else None
      end
  end.

(** An optional sign: [true] for minus. *)
Definition sign (s : string) : bool * string :=
  match s with
  | String "-" s' => (true, s')
  | String "+" s' => (false, s')
  | _ => (false, s)
  end.

(** The bound that CPython puts on the number of decimal digits of an
    integer that is read from a text or written as one
    ([sys.int_max_str_digits]). *)
Definition MAX_STR_DIGITS : nat := 4300.

(** [int(s)] in base ten, on digits below code point 256: a numeral of
    more than [MAX_STR_DIGITS] digits, leading zeros counted and the sign
    and the underscores not, is refused. *)
Definition py_int (s : string) : result Z :=
  let (neg, body) := sign (strip_num s) in
  match digitpart 0 0 SeenNothing body with
  | Some (v, n) =>
      if (MAX_STR_DIGITS <? n)%nat then Raise ValueError
      else Ok (if neg then - v else v)
  | None => Raise ValueError
  end.

(** The binary64 number nearest to [a / b] (ties to even) for positive
    integers [a] and [b], with sign [neg]. *)
Definition float_of_ratio (neg : bool) (a b : Z) : float64 :=
  let '(q, e, l) := SFdiv_core_binary prec emax a 0 b 0 in
  binary_round_aux prec emax neg q e l.

(** The binary64 number nearest to [m * 10 ^ e] (ties to even), [m] being
    non-negative and [neg] its sign. *)
Definition float_of_decimal (neg : bool) (m e : Z) : float64 :=
  match m with
  | Zpos _ =>
      if 0 <=? e then float_of_ratio neg (m * 10 ^ e) 1
      else float_of_ratio neg m (10 ^ (- e))
  | _ => S754_zero neg
  end.

(** [int.__float__]: an integer too large for binary64 raises. *)
Definition float_of_int (z : Z) : result float64 :=
  match binary_normalize prec emax z 0 false with
  | S754_infinity _ => Raise OverflowError
  | f => Ok f
  end.

Definition lower (c : ascii) : ascii :=
  let n := N_of_ascii c in
  if ((65 <=? n) && (n <=? 90))%N then ascii_of_N (n + 32) else c.

Fixpoint lowercase (s : string) : string :=
  match s with
  | EmptyString => EmptyString
  | String c s' => String (lower c) (lowercase s')
  end.

(** The text before and after the first character satisfying [p]. *)
Fixpoint break_at (p : ascii -> bool) (s : string) : string * option string :=
  match s with
  | EmptyString => (EmptyString, None)
  | String c s' =>
      if p c then (EmptyString, Some s')
      else let (a, b) := break_at p s' in (String c a, b)
  end.

(** A run of digits that may be empty. *)
Definition digits_opt (s : string) : option (Z * nat) :=
  match s with
  | EmptyString => Some (0, O)
  | _ => digitpart 0 0 SeenNothing s
  end.

(** The decimal numeral [int.frac] as an integer and the number of digits
    after the point; one of the two runs may be empty, not both. *)
Definition mantissa (s : string) : option (Z * nat) :=
  let (ip, rest) := break_at (Ascii.eqb ".") s in
  match rest with
  | None =>
      match digitpart 0 0 SeenNothing ip with
      | Some (i, _) => Some (i, O)
      | None => None
      end
  | Some fp =>
      match ip, fp with
      | EmptyString, EmptyString => None
      | _, _ =>
          match digits_opt ip, digits_opt fp with
          | Some (i, _), Some (f, n) => Some (i * 10 ^ Z.of_nat n + f, n)
          | _, _ => None
          end
      end
  end.

(** [float(s)] for a string. *)
Definition py_float (s : string) : result float64 :=
  let (neg, body) := sign (strip_num s) in
  let low := lowercase body in
  if String.eqb low "inf" || String.eqb low "infinity" then Ok (S754_infinity neg)
  else if String.eqb low "nan" then Ok S754_nan
  else
    let (ms, es) := break_at (fun c => Ascii.eqb (lower c) "e") body in
    match mantissa ms with
    | None => Raise ValueError
    | Some (m, nfrac) =>
        match es with
        | None => Ok (float_of_decimal neg m (- Z.of_nat nfrac))
        | Some et =>
            let (eneg, ebody) := sign et in
            match digitpart 0 0 SeenNothing ebody with
            | None => Raise ValueError
            | Some (e, _) =>
                Ok (float_of_decimal neg m
                      ((if eneg then - e else e) - Z.of_nat nfrac))
            end
        end
    end.

(** [float(v)] for an object. *)
Definition float_of (v : pyval) : result float64 :=
  match v with
  | VFloat f => Ok f
  | VInt z => float_of_int z
  | VBool b => Ok (if b then float_of_decimal false 1 0 else S754_zero false)
  | VStr s => py_float s
  | VNone | VList _ | VDict _ => Raise TypeError
  end.

(** The format [{v:.4f}] of an f-string: whether it can be produced. The
    digits themselves are not modelled. *)
Definition formato_4f (v : pyval) : result unit :=
  match v with
  | VFloat _ | VBool _ => Ok tt
  | VInt z => _ ← float_of_int z; Ok tt
  | VStr _ => Raise ValueError
  | VNone | VList _ | VDict _ => Raise TypeError
  end.

(** An object in which no integer has more than [MAX_STR_DIGITS] decimal
    digits. *)
Fixpoint escribible (v : pyval) : bool :=
  match v with
  | VInt z => Z.abs z <? 10 ^ Z.of_nat MAX_STR_DIGITS
  | VList l => forallb escribible l
  | VDict d => forallb (fun kv => escribible (snd kv)) d
  | VNone | VBool _ | VFloat _ | VStr _ => true
  end.

(** [json.dumps(v)]: whether the text can be produced; the text itself is
    not modelled. Every object of [pyval] has a JSON text, [NaN] and the
    infinities included, unless an integer in it is too long to be
    written. *)
Definition json_dumps (v : pyval) : result unit :=
  if escribible v then Ok tt else Raise ValueError.

Global Arguments json_dumps : simpl never.

(** [v.replace(old, new)]: only strings have the method. *)
Definition py_replace (v : pyval) (old new : string) : result string :=
  match v with
  | VStr s => Ok (replace s old new)
  | _ => Raise AttributeError
  end.

(** A binary64 constant written in decimal, for examples. *)
Definition flt (s : string) : float64 :=
  match py_float s with Ok f => f | Raise _ => S754_nan end.

End Py.

Import Py.

(** ** The four patterns of [re.match] in the producer *)

Module Re.

(** A set of characters: every character but one, or white space. *)
Inductive cls : Type :=
  | Not (c : ascii)
  | Space.

Definition cls_matches (k : cls) (c : ascii) : bool :=
  match k with
  | Not x => negb (Ascii.eqb c x)
  | Space => isspace c
  end.

(** The pieces the patterns are made of: a literal text, a greedy [k*], and
    a capturing group around a greedy [k+]. *)
Inductive item : Type :=
  | Lit (s : string)
  | Star (k : cls)
  | Group (k : cls).

Definition pattern : Type := list item.

(** Length of the longest prefix of [s] made of characters of [k]. *)
Fixpoint span (k : cls) (s : string) : nat :=
  match s with
  | EmptyString => O
  | String c s' => if cls_matches k c then S (span k s') else O
  end.

(** Backtracking of a greedy repetition: try to continue after [n]
    characters, then after [n - 1], down to [lo]. *)
Fixpoint first_down {A} (f : nat -> option A) (lo n : nat) : option A :=
  if (n <? lo)%nat then None
  else
    match f n with
    | Some r => Some r
    | None =>
        match n with
        | O => None
        | S n' => first_down f lo n'
        end
    end.

(** Match at the start of [s]; the groups are collected in reverse. *)
Fixpoint match_items (p : pattern) (s : string) (groups : list string)
  : option (list string) :=
  match p with
  | [] => Some (rev groups)
  | Lit l :: p' =>
      if String.prefix l s
      then match_items p' (drop_chars (String.length l) s) groups
      else None
  | Star k :: p' =>
      first_down (fun n => match_items p' (drop_chars n s) groups)
        0 (span k s)
  | Group k :: p' =>
      first_down
        (fun n => match_items p' (drop_chars n s) (take_chars n s :: groups))
        1 (span k s)
  end.

(** [re.match(p, s)]: [None] when there is no match, else [m.groups()]. *)
Definition re_match (p : pattern) (s : string) : option (list string) :=
  match_items p s [].

(** The pattern [uniform\(([^,]+),\s*([^)]+)\)]. *)
Definition p_uniform : pattern :=
  [Lit "uniform("; Group (Not ","); Lit ","; Star Space; Group (Not ")");
   Lit ")"].

(** The pattern [normal\(([^,]+),\s*([^)]+)\)]. *)
Definition p_normal : pattern :=
  [Lit "normal("; Group (Not ","); Lit ","; Star Space; Group (Not ")");
   Lit ")"].

(** The pattern [triangular\(([^,]+),\s*([^,]+),\s*([^)]+)\)]. *)
Definition p_triangular : pattern :=
  [Lit "triangular("; Group (Not ","); Lit ","; Star Space; Group (Not ",");
   Lit ","; Star Space; Group (Not ")"); Lit ")"].

(** The pattern [constante\(([^)]+)\)]. *)
Definition p_constante : pattern :=
  [Lit "constante("; Group (Not ")"); Lit ")"].

End Re.

(** ** Libraries outside the repository *)

(** [json.loads] and the built-in [eval(text, {}, locals)]. *)
Class Runtime : Type := {
  json_loads : string -> result pyval;
  py_eval : string -> dict -> result pyval
}.

(** [numpy.random]: each draw may raise and moves the generator on. *)
Class Sampler (R : Type) : Type := {
  np_uniform : float64 -> float64 -> R -> result float64 * R;
  np_normal : float64 -> float64 -> R -> result float64 * R;
  np_triangular : float64 -> float64 -> float64 -> R -> result float64 * R
}.

(** ** productor.py *)

Module Productor.
Import Re.

(** The part of a [MonteCarloProductor] object the methods below read and
    write. *)
Record productor : Type := { modelo : pyval }.

(** [__init__]: [self.modelo = {}] *)
Definition nuevo : productor := {| modelo := VDict [] |}.

(** The dictionary [secciones] of [_parsear_modelo], whose three keys are
    fixed, and [seccion_actual]. *)
Record secciones : Type := {
  model : option string;
  constants : dict;
  distributions : dict
}.

Inductive seccion : Type := SecModel | SecConstants | SecDistributions.

Definition es_constants (a : option seccion) : bool :=
  match a with Some SecConstants => true | _ => false end.

Definition es_distributions (a : option seccion) : bool :=
  match a with Some SecDistributions => true | _ => false end.

(** The dictionary that [_parsear_modelo] returns. *)
Definition secciones_dict (s : secciones) : pyval :=
  VDict [("model", match model s with Some f => VStr f | None => VNone end);
         ("constants", VDict (constants s));
         ("distributions", VDict (distributions s))].

(** One turn of the loop over the lines of the text. *)
Definition parsear_linea (st : secciones * option seccion) (linea0 : string)
  : result (secciones * option seccion) :=
  let (secs, actual) := st in
  let linea := strip linea0 in
  if String.eqb linea EmptyString || startswith linea "#" then Ok st
  else if startswith linea "model:" then
    Ok ({| model := Some (strip (replace linea "model:" EmptyString));
           constants := constants secs;
           distributions := distributions secs |}, Some SecModel)
  else if startswith linea "constants:" then Ok (secs, Some SecConstants)
  else if startswith linea "distributions:" then
    Ok (secs, Some SecDistributions)
  else if es_constants actual && contains "=" linea then
    match split "=" linea with
    | [k; v] =>
        f ← py_float (strip v);
        Ok ({| model := model secs;
               constants := dict_set (strip k) (VFloat f) (constants secs);
               distributions := distributions secs |}, actual)
    | _ => Raise ValueError
    end
  else if es_distributions actual && contains "~" linea then
    match split "~" linea with
    | [var; expr] =>
        Ok ({| model := model secs;
               constants := constants secs;
               distributions :=
                 dict_set (strip var) (VStr (strip expr)) (distributions secs) |},
            actual)
    | _ => Raise ValueError
    end
  else Ok st.

Global Arguments parsear_linea : simpl never.

Fixpoint parsear_lineas (st : secciones * option seccion) (lineas : list string)
  : result (secciones * option seccion) :=
  match lineas with
  | [] => Ok st
  | l :: ls => st' ← parsear_linea st l; parsear_lineas st' ls
  end.

Definition _parsear_modelo (texto : string) : result pyval :=
  st ← parsear_lineas
         ({| model := None; constants := []; distributions := [] |}, None)
         (splitlines texto);
  Ok (secciones_dict (fst st)).

(** [leer_modelo]: [archivo] is the text of the model file, [None] when the
    file does not exist. The object is changed only when a model was read. *)
Definition leer_modelo {rt : Runtime} (archivo : option string) (self : productor)
  : result pyval * productor :=
  match archivo with
  | None => (Raise FileNotFoundError, self)
  | Some texto =>
      let contenido := strip texto in
      match json_loads contenido with
      | Ok m => (Ok m, {| modelo := m |})
      | Raise e =>
          if is_JSONDecodeError e then
            match _parsear_modelo contenido with
            | Ok m => (Ok m, {| modelo := m |})
            | Raise e' => (Raise e', self)
            end
          else (Raise e, self)
      end
  end.

Section Muestreo.
Context {R : Type} {np : Sampler R}.

(** The branch [isinstance(expresion, list)]: [Some r] when the function
    leaves there with [r], [None] when control falls through to the
    patterns. *)
Definition forma_lista (expresion : pyval) : option (result float64) :=
  match expresion with
  | VList l =>
      match l with
      | [] => Some (Raise IndexError)
      | x :: _ =>
          if eq_str x "constante" then
            Some (match nth_error l 1 with
                  | Some v => float_of v
                  | None => Raise IndexError
                  end)
          else None
      end
  | _ => None
  end.

(** The chain of [re.match] tests, which needs a string. *)
Definition forma_texto (expresion : pyval) (g : R) : result float64 * R :=
  match expresion with
  | VStr s =>
      match re_match p_uniform s with
      | Some [ta; tb] =>
          match (a ← py_float ta; b ← py_float tb; Ok (a, b)) with
          | Ok (a, b) => np_uniform a b g
          | Raise e => (Raise e, g)
          end
      | Some _ => (Raise ValueError, g)
      | None =>
      match re_match p_normal s with
      | Some [tmu; tsigma] =>
          match (mu ← py_float tmu; sigma ← py_float tsigma; Ok (mu, sigma)) with
          | Ok (mu, sigma) => np_normal mu sigma g
          | Raise e => (Raise e, g)
          end
      | Some _ => (Raise ValueError, g)
      | None =>
      match re_match p_triangular s with
      | Some [t1; t2; t3] =>
          match (izq ← py_float t1; pico ← py_float t2; der ← py_float t3;
                 Ok (izq, pico, der)) with
          | Ok (izq, pico, der) => np_triangular izq pico der g
          | Raise e => (Raise e, g)
          end
      | Some _ => (Raise ValueError, g)
      | None =>
      match re_match p_constante s with
      | Some (t :: _) => (py_float t, g)
      | Some [] => (Raise IndexError, g)
      | None => (Raise ValueError, g)
      end end end end
  | _ => (Raise TypeError, g)
  end.

Definition _evaluar_distribucion (expresion : pyval) (g : R)
  : result float64 * R :=
  match forma_lista expresion with
  | Some r => (r, g)
  | None => forma_texto expresion g
  end.

(** The inner loop: one scenario, a draw for every entry of [distros] in
    the order of the dictionary. *)
Fixpoint un_escenario (items : dict) (escenario : dict) (g : R)
  : result dict * R :=
  match items with
  | [] => (Ok escenario, g)
  | (var, expr) :: rest =>
      match _evaluar_distribucion expr g with
      | (Ok v, g') => un_escenario rest (dict_set var (VFloat v) escenario) g'
      | (Raise e, g') => (Raise e, g')
      end
  end.

(** The outer loop over [range(cantidad)]; [distros.items()] is evaluated
    in each turn and needs a dictionary. *)
Fixpoint escenarios_desde (n : nat) (distros : pyval) (escenarios : list dict)
  (g : R) : result (list dict) * R :=
  match n with
  | O => (Ok escenarios, g)
  | S n' =>
      match distros with
      | VDict items =>
          match un_escenario items [] g with
          | (Ok escenario, g') =>
              escenarios_desde n' distros (escenarios ++ [escenario]) g'
          | (Raise e, g') => (Raise e, g')
          end
      | _ => (Raise AttributeError, g)
      end
  end.

(** [self.modelo.get("variables", self.modelo.get("distributions", {}))] *)
Definition distros_de (m : pyval) : result pyval :=
  d ← py_get m "distributions" (VDict []);
  py_get m "variables" d.

Definition generar_escenarios (self : productor) (cantidad : Z) (g : R)
  : result (list dict) * R :=
  match distros_de (modelo self) with
  | Ok distros => escenarios_desde (Z.to_nat cantidad) distros [] g
  | Raise e => (Raise e, g)
  end.

End Muestreo.

(** The main program's reading of the number of scenarios: [entrada] is
    the line typed at the prompt. *)
Definition leer_cantidad (entrada : string) : result Z :=
  if String.eqb (strip entrada) EmptyString then Ok 100
  else
    match py_int entrada with
    | Ok n => Ok n
    | Raise e => if is_ValueError e then Ok 100 else Raise e
    end.

(** What the producer has sent to the broker, the objects whose JSON
    texts are the bodies, and the progress lines it has printed, as the
    two numbers of [Escenarios enviados: i/n]. The broker is taken as
    available: its calls do not raise. *)
Record canal : Type := {
  model_queue : list pyval;
  scenario_queue : list dict;
  avances : list (Z * Z)
}.

(** Nothing sent yet, as after [conectar]. *)
Definition canal_vacio : canal :=
  {| model_queue := []; scenario_queue := []; avances := [] |}.

(** [publicar_modelo]: the model is what [json.loads] or the line
    parser returned, which [json.dumps] writes. *)
Definition publicar_modelo (self : productor) (c : canal) : canal :=
  {| model_queue := model_queue c ++ [modelo self];
     scenario_queue := scenario_queue c;
     avances := avances c |}.

(** The loop of [publicar_escenarios] from the index [i] on; [total] is
    [len(escenarios)]. *)
Fixpoint publicar_desde (i total : Z) (escenarios : list dict) (c : canal)
  : canal :=
  match escenarios with
  | [] => c
  | esc :: resto =>
      publicar_desde (i + 1) total resto
        {| model_queue := model_queue c;
           scenario_queue := scenario_queue c ++ [esc];
           avances :=
             if (i mod 10 =? 0) || (i =? total)
             then avances c ++ [(i, total)]
             else avances c |}
  end.

Definition publicar_escenarios (escenarios : list dict) (c : canal) : canal :=
  publicar_desde 1 (Z.of_nat (length escenarios)) escenarios c.

(** The main program after [conectar]: [archivo] is the text of the
    model file, [None] when there is none, and [entrada] the answer to
    the prompt for the number of scenarios. *)
Definition principal {rt : Runtime} {R : Type} {np : Sampler R}
  (archivo : option string) (entrada : string) (g : R)
  : result unit * canal * R :=
  match leer_modelo archivo nuevo with
  | (Raise e, _) => (Raise e, canal_vacio, g)
  | (Ok _, self) =>
      let c := publicar_modelo self canal_vacio in
      match leer_cantidad entrada with
      | Raise e => (Raise e, c, g)
      | Ok cantidad =>
          match generar_escenarios self cantidad g with
          | (Raise e, g') => (Raise e, c, g')
          | (Ok escenarios, g') =>
              (Ok tt, publicar_escenarios escenarios c, g')
          end
      end
  end.

End Productor.

(** ** consumidor.py *)

Module Consumidor.

(** A [ConsumidorMontecarlo] object together with what it has sent to the
    broker: the messages published on [result_queue] and the delivery tags
    acknowledged on [scenario_queue]. The broker is taken as the
    specification takes it, available and correct: its calls do not raise. *)
Record consumidor : Type := {
  worker_id : string;
  modelo : pyval;
  resultados_publicados : Z;
  result_queue : list pyval;
  acks : list Z
}.

Section Trabajo.
Context {rt : Runtime}.

(** [obtener_modelo]: [cuerpo] is the body that [basic_get] returned, [None]
    for an empty queue; an empty body is as good as none. *)
Definition obtener_modelo (cuerpo : option string) (self : consumidor)
  : result unit * consumidor :=
  match cuerpo with
  | None | Some EmptyString => (Raise SystemExit, self)
  | Some texto =>
      match json_loads texto with
      | Ok m =>
          (Ok tt, {| worker_id := worker_id self; modelo := m;
                     resultados_publicados := resultados_publicados self;
                     result_queue := result_queue self; acks := acks self |})
      | Raise e => (Raise e, self)
      end
  end.

(** The text given to [eval], computed before the [try]. *)
Definition expresion_de (m : pyval) : result string :=
  f ← py_getitem m "model";
  t ← py_replace f "resultado =" EmptyString;
  Ok (strip t).

(** [entorno] as the [try] block builds it. *)
Definition entorno_de (m escenario : pyval) : result dict :=
  e1 ← py_update [] escenario;
  c ← py_get m "constants" (VDict []);
  py_update e1 c.

(** The body of the [try] block. *)
Definition evaluar (m : pyval) (expresion : string) (escenario : pyval)
  : result pyval :=
  entorno ← entorno_de m escenario;
  py_eval expresion entorno.

Definition ejecutar_modelo (self : consumidor) (escenario : pyval)
  : result pyval :=
  expresion ← expresion_de (modelo self);
  match evaluar (modelo self) expresion escenario with
  | Ok resultado => Ok resultado
  | Raise e => if is_Exception e then Ok VNone else Raise e
  end.

Definition mensaje_resultado (self : consumidor) (escenario resultado : pyval)
  (ahora : float64) : pyval :=
  VDict [("worker_id", VStr (worker_id self));
         ("escenario", escenario);
         ("resultado", resultado);
         ("timestamp", VFloat ahora)].

Definition basic_ack (tag : Z) (self : consumidor) : consumidor :=
  {| worker_id := worker_id self; modelo := modelo self;
     resultados_publicados := resultados_publicados self;
     result_queue := result_queue self; acks := acks self ++ [tag] |}.

(** [basic_publish] on [result_queue] followed by the increment of the
    counter. *)
Definition publicar (msg : pyval) (self : consumidor) : consumidor :=
  {| worker_id := worker_id self; modelo := modelo self;
     resultados_publicados := resultados_publicados self + 1;
     result_queue := result_queue self ++ [msg]; acks := acks self |}.

(** [procesar_escenario]: [tag] is [metodo.delivery_tag], [cuerpo] the
    decoded body and [ahora] the reading of [time.time()]. The body of the
    result message is computed by [json.dumps] before [basic_publish] is
    called. *)
Definition procesar_escenario (ahora : float64) (tag : Z) (cuerpo : string)
  (self : consumidor) : result unit * consumidor :=
  match json_loads cuerpo with
  | Raise e => (Raise e, self)
  | Ok escenario =>
      match ejecutar_modelo self escenario with
      | Raise e => (Raise e, self)
      | Ok VNone => (Ok tt, basic_ack tag self)
      | Ok resultado =>
          let msg := mensaje_resultado self escenario resultado ahora in
          match json_dumps msg with
          | Raise e => (Raise e, self)
          | Ok _ =>
              let self1 := publicar msg self in
              match formato_4f resultado with
              | Raise e => (Raise e, self1)
              | Ok _ => (Ok tt, basic_ack tag self1)
              end
          end
      end
  end.

(** [start_consuming]: the callback runs on each delivery in turn, and an
    exception that leaves it ends the loop. *)
Fixpoint consumir (entregas : list (float64 * Z * string)) (self : consumidor)
  : result unit * consumidor :=
  match entregas with
  | [] => (Ok tt, self)
  | (ahora, tag, cuerpo) :: resto =>
      match procesar_escenario ahora tag cuerpo self with
      | (Ok _, self') => consumir resto self'
      | (Raise e, self') => (Raise e, self')
      end
  end.

(** [iniciar]: the model is fetched from [model_queue], then the
    scenarios are consumed. *)
Definition iniciar (cuerpo_modelo : option string)
  (entregas : list (float64 * Z * string)) (self : consumidor)
  : result unit * consumidor :=
  match obtener_modelo cuerpo_modelo self with
  | (Ok _, self') => consumir entregas self'
  | (Raise e, self') => (Raise e, self')
  end.

End Trabajo.
End Consumidor.

(** ** colector.py *)

Module Colector.

(** The line written to the results file, field by field; its rendering
    as text is not modelled. *)
Record linea : Type := {
  l_timestamp : string;
  l_worker : pyval;
  l_escenario : pyval;
  l_resultado : pyval
}.

(** A [ResultCollector] object and what it has done outside itself: the
    lines handed to the file object and still buffered, the lines flushed
    to the file, the messages published on [dashboard_queue], and the
    delivery tags acknowledged and rejected on [result_queue]. *)
Record colector : Type := {
  buffer : list linea;
  archivo : list linea;
  resultados : list pyval;
  dashboard_queue : list pyval;
  acks : list Z;
  nacks : list Z
}.

(** Which of the calls that leave the process raise during one delivery;
    a call that raises has no effect. *)
Record fallos : Type := {
  falla_write : bool;
  falla_flush : bool;
  falla_publish : bool;
  falla_ack : bool;
  falla_nack : bool
}.

Definition sin_fallos : fallos :=
  {| falla_write := false; falla_flush := false; falla_publish := false;
     falla_ack := false; falla_nack := false |}.

(** Statements that may raise and that change the collector. *)
Definition M (A : Type) : Type := colector -> result A * colector.

Global Instance M_ret : MRet M := fun _ a st => (Ok a, st).
Global Instance M_bind : MBind M := fun _ _ k m st =>
  match m st with
  | (Ok a, st') => k a st'
  | (Raise e, st') => (Raise e, st')
  end.
Definition lift {A} (r : result A) : M A := fun st => (r, st).

(** [try: m except Exception: h] *)
Definition try_except {A} (m : M A) (h : M A) : M A :=
  fun st =>
    match m st with
    | (Ok a, st') => (Ok a, st')
    | (Raise e, st') => if is_Exception e then h st' else (Raise e, st')
    end.

Definition write (f : fallos) (l : linea) : M unit :=
  fun st =>
    if falla_write f then (Raise OSError, st)
    else (Ok tt, {| buffer := buffer st ++ [l]; archivo := archivo st;
                    resultados := resultados st;
                    dashboard_queue := dashboard_queue st;
                    acks := acks st; nacks := nacks st |}).

Definition flush (f : fallos) : M unit :=
  fun st =>
    if falla_flush f then (Raise OSError, st)
    else (Ok tt, {| buffer := []; archivo := archivo st ++ buffer st;
                    resultados := resultados st;
                    dashboard_queue := dashboard_queue st;
                    acks := acks st; nacks := nacks st |}).

(** [self.resultados.append(resultado)] *)
Definition append (r : pyval) : M unit :=
  fun st =>
    (Ok tt, {| buffer := buffer st; archivo := archivo st;
               resultados := resultados st ++ [r];
               dashboard_queue := dashboard_queue st;
               acks := acks st; nacks := nacks st |}).

Definition basic_publish (f : fallos) (msg : pyval) : M unit :=
  fun st =>
    if falla_publish f then (Raise AMQPError, st)
    else (Ok tt, {| buffer := buffer st; archivo := archivo st;
                    resultados := resultados st;
                    dashboard_queue := dashboard_queue st ++ [msg];
                    acks := acks st; nacks := nacks st |}).

Definition basic_ack (f : fallos) (tag : Z) : M unit :=
  fun st =>
    if falla_ack f then (Raise AMQPError, st)
    else (Ok tt, {| buffer := buffer st; archivo := archivo st;
                    resultados := resultados st;
                    dashboard_queue := dashboard_queue st;
                    acks := acks st ++ [tag]; nacks := nacks st |}).

Definition basic_nack (f : fallos) (tag : Z) : M unit :=
  fun st =>
    if falla_nack f then (Raise AMQPError, st)
    else (Ok tt, {| buffer := buffer st; archivo := archivo st;
                    resultados := resultados st;
                    dashboard_queue := dashboard_queue st;
                    acks := acks st; nacks := nacks st ++ [tag] |}).

Definition msg_dashboard (worker resultado : pyval) (timestamp : string)
  : pyval :=
  VDict [("worker_id", worker); ("resultado", resultado);
         ("timestamp", VStr timestamp)].

Section Recoleccion.
Context {rt : Runtime}.

(** What the [try] block computes before it touches the file: the fields
    of the message and the formatted line. *)
Definition leer_mensaje (timestamp cuerpo : string)
  : result (pyval * pyval * linea) :=
  msg ← json_loads cuerpo;
  resultado ← py_get msg "resultado" VNone;
  escenario ← py_get msg "escenario" (VDict []);
  worker ← py_get msg "worker_id" (VStr "desconocido");
  _ ← formato_4f resultado;
  Ok (worker, resultado,
      {| l_timestamp := timestamp; l_worker := worker;
         l_escenario := escenario; l_resultado := resultado |}).

(** The [try] block of [_procesar_resultado]. *)
Definition cuerpo_try (f : fallos) (timestamp : string) (tag : Z)
  (cuerpo : string) : M unit :=
  m ← lift (leer_mensaje timestamp cuerpo);
  write f (snd m);;
  flush f;;
  append (snd (fst m));;
  basic_publish f (msg_dashboard (fst (fst m)) (snd (fst m)) timestamp);;
  basic_ack f tag.

(** [_procesar_resultado]: [timestamp] is the clock reading formatted as
    text, [tag] is [metodo.delivery_tag] and [cuerpo] the decoded body. *)
Definition _procesar_resultado (f : fallos) (timestamp : string) (tag : Z)
  (cuerpo : string) : M unit :=
  try_except (cuerpo_try f timestamp tag cuerpo) (basic_nack f tag).

(** One delivery on [result_queue]: the calls that raise while it is
    handled, the reading of the clock, the delivery tag and the body. *)
Record entrega : Type := {
  e_fallos : fallos;
  e_timestamp : string;
  e_tag : Z;
  e_cuerpo : string
}.

(** [start_consuming] in [iniciar]: the callback runs on each delivery in
    turn, and an exception that leaves it ends the loop. *)
Fixpoint recolectar (entregas : list entrega) : M unit :=
  fun st =>
    match entregas with
    | [] => (Ok tt, st)
    | e :: resto =>
        match _procesar_resultado (e_fallos e) (e_timestamp e) (e_tag e)
                (e_cuerpo e) st with
        | (Ok _, st') => recolectar resto st'
        | (Raise x, st') => (Raise x, st')
        end
    end.

End Recoleccion.
End Colector.

(** ** dashboard.py *)

Module Dashboard.

Definition COLOR_LINEAS : list (Z * Z * Z) :=
  [(70, 90, 60); (80, 100, 70); (90, 110, 80);
   (100, 120, 90); (110, 130, 100); (120, 140, 110)].

(** The entry of one worker in [AlmacenDatos.datos]. *)
Record info : Type := {
  color : Z * Z * Z;
  historial : list pyval;
  conteo : Z;
  ultimo : pyval
}.

(** [len(d["historial"]) > 200] then [pop(0)] *)
Definition recortar (h : list pyval) : list pyval :=
  if (200 <? length h)%nat then drop 1 h else h.

(** [agregar_resultado] on [self.datos]; the lock makes each call one
    step. *)
Definition agregar_resultado (worker_id : string) (resultado : pyval)
  (datos : gmap string info) : gmap string info :=
  let datos1 :=
    match datos !! worker_id with
    | None =>
        <[worker_id :=
            {| color :=
                 default (0, 0, 0)
                   (COLOR_LINEAS !! (size datos mod length COLOR_LINEAS)%nat);
               historial := [];
               conteo := 0;
               ultimo := resultado |}]> datos
    | Some _ => datos
    end in
  match datos1 !! worker_id with
  | Some d =>
      <[worker_id :=
          {| color := color d;
             historial := recortar (historial d ++ [resultado]);
             conteo := conteo d + 1;
             ultimo := resultado |}]> datos1
  | None => datos1
  end.

(** The store after the listener has handed over a sequence of results,
    oldest first. *)
Definition recibir (rs : list (string * pyval)) (datos : gmap string info)
  : gmap string info :=
  fold_left (fun acc r => agregar_resultado (fst r) (snd r) acc) rs datos.

End Dashboard.

(** ** Reference instances of the outside libraries

    They let the programs above run on examples. The theorems further down
    are stated for every [Runtime] and every [Sampler] unless they name one
    of these instances. *)

(** *** The legacy generator of [numpy.random]

    [uniform], [normal] and [triangular] of [numpy.random.RandomState] over
    a source of variates: the checks on the arguments and the arithmetic
    that follows them. *)

Module Numpy.

(** The source of variates: a double in [[0, 1)] and a standard normal
    deviate. *)
Class BitGen (R : Type) : Type := {
  next_double : R -> float64 * R;
  legacy_gauss : R -> float64 * R
}.

Definition fadd : float64 -> float64 -> float64 := SFadd prec emax.
Definition fsub : float64 -> float64 -> float64 := SFsub prec emax.
Definition fmul : float64 -> float64 -> float64 := SFmul prec emax.
Definition fdiv : float64 -> float64 -> float64 := SFdiv prec emax.
Definition fsqrt : float64 -> float64 := SFsqrt prec emax.

Definition isfinite (f : float64) : bool :=
  match f with
  | S754_zero _ | S754_finite _ _ _ => true
  | S754_infinity _ | S754_nan => false
  end.

(** [not isnan(x) and signbit(x)] *)
Definition negativo (f : float64) : bool :=
  match f with
  | S754_zero s | S754_infinity s | S754_finite s _ _ => s
  | S754_nan => false
  end.

Section Legacy.
Context {R : Type} {bg : BitGen R}.

Definition uniform (low high : float64) (g : R) : result float64 * R :=
  let rango := fsub high low in
  if isfinite rango then
    let (u, g') := next_double g in (Ok (fadd low (fmul rango u)), g')
  else (Raise OverflowError, g).

Definition normal (loc scale : float64) (g : R) : result float64 * R :=
  if negativo scale then (Raise ValueError, g)
  else let (x, g') := legacy_gauss g in (Ok (fadd loc (fmul scale x)), g').

Definition triangular (left mode right : float64) (g : R)
  : result float64 * R :=
  if SFltb mode left then (Raise ValueError, g)
  else if SFltb right mode then (Raise ValueError, g)
  else if SFeqb left right then (Raise ValueError, g)
  else
    let base := fsub right left in
    let leftbase := fsub mode left in
    let ratio := fdiv leftbase base in
    let leftprod := fmul leftbase base in
    let rightprod := fmul (fsub right mode) base in
    let (u, g') := next_double g in
    if SFleb u ratio then (Ok (fadd left (fsqrt (fmul u leftprod))), g')
    else
      (Ok (fsub right (fsqrt (fmul (fsub (flt "1.0") u) rightprod))), g').

Global Instance legacy : Sampler R := {|
  np_uniform := uniform;
  np_normal := normal;
  np_triangular := triangular
|}.

End Legacy.

(** A source that replays a recorded list of variates, and hands out zero
    once the list is used up. *)
Definition siguiente (g : list float64) : float64 * list float64 :=
  match g with
  | [] => (S754_zero false, [])
  | x :: g' => (x, g')
  end.

Global Instance grabado : BitGen (list float64) := {|
  next_double := siguiente;
  legacy_gauss := siguiente
|}.

End Numpy.

(** *** Arithmetic expressions

    The built-in [eval] on the fragment of Python expressions made of
    numerals, names, [True], [False], [None], the unary and binary [+] and
    [-], [*], [/] and parentheses, over numbers. The other expressions of
    Python are outside this evaluator: it answers [SyntaxError] to a text
    it cannot read and [TypeError] to an operand that is not a number. *)

Module Arith.

Inductive token : Type :=
  | TNum (v : pyval)
  | TName (s : string)
  | TSym (c : ascii).

Inductive expr : Type :=
  | Num (v : pyval)
  | Name (x : string)
  | Neg (e : expr)
  | Pos (e : expr)
  | Bin (op : ascii) (l r : expr).

Definition is_digit (c : ascii) : bool :=
  match digit c with Some _ => true | None => false end.

Definition is_alpha (c : ascii) : bool :=
  let n := Z.of_N (N_of_ascii c) in
  ((65 <=? n) && (n <=? 90)) || ((97 <=? n) && (n <=? 122)) || (n =? 95).

Definition is_alnum (c : ascii) : bool := is_alpha c || is_digit c.

Definition is_sym (c : ascii) : bool :=
  contains c "+-*/()".

Definition is_blank (c : ascii) : bool :=
  let n := Z.of_N (N_of_ascii c) in (n =? 32) || (n =? 9) || (n =? 12).

Fixpoint run (p : ascii -> bool) (s : string) : nat :=
  match s with
  | EmptyString => O
  | String c s' => if p c then S (run p s') else O
  end.

(** Length of the numeral at the start of [s]: digits, underscores and
    points, then an exponent if one is complete. *)
Definition numeral_len (s : string) : nat :=
  let n := run (fun c => is_digit c || Ascii.eqb c "_" || Ascii.eqb c ".") s in
  match drop_chars n s with
  | String e (String d r) =>
      if Ascii.eqb (lower e) "e" then
        if is_digit d then
          (n + 1 + run (fun c => is_digit c || Ascii.eqb c "_") (String d r))%nat
        else if Ascii.eqb d "+" || Ascii.eqb d "-" then
          match r with
          | String d' _ =>
              if is_digit d'
              then (n + 2 + run (fun c => is_digit c || Ascii.eqb c "_") r)%nat
              else n
          | EmptyString => n
          end
        else n
      else n
  | _ => n
  end.

(** The value of a numeral: a float when it has a point or an exponent,
    else an integer, which must not start with a zero unless it is zero,
    nor have more than [MAX_STR_DIGITS] digits. *)
Definition numeral (t : string) : option pyval :=
  if contains "." t || contains "e" (lowercase t) then
    match py_float t with
    | Ok f => Some (VFloat f)
    | Raise _ => None
    end
  else
    match digitpart 0 0 SeenNothing t with
    | Some (v, n) =>
        if startswith t "0" && negb (v =? 0) then None
        else if (MAX_STR_DIGITS <? n)%nat && negb (v =? 0) then None
        else Some (VInt v)
    | None => None
    end.

Definition keywords : list string :=
  ["and"; "as"; "assert"; "async"; "await"; "break"; "class"; "continue";
   "def"; "del"; "elif"; "else"; "except"; "finally"; "for"; "from";
   "global"; "if"; "import"; "in"; "is"; "lambda"; "nonlocal"; "not"; "or";
   "pass"; "raise"; "return"; "try"; "while"; "with"; "yield"].

Definition word (w : string) : option token :=
  if String.eqb w "True" then Some (TNum (VBool true))
  else if String.eqb w "False" then Some (TNum (VBool false))
  else if String.eqb w "None" then Some (TNum VNone)
  else if existsb (String.eqb w) keywords then None
  else Some (TName w).

Fixpoint tokenize (fuel : nat) (s : string) : option (list token) :=
  match fuel with
  | O => None
  | S fuel' =>
      match s with
      | EmptyString => Some []
      | String c s' =>
          if is_blank c then tokenize fuel' s'
          else if is_sym c then
            ts ← tokenize fuel' s'; Some (TSym c :: ts)
          else if is_alpha c then
            let n := run is_alnum s in
            t ← word (take_chars n s);
            ts ← tokenize fuel' (drop_chars n s);
            Some (t :: ts)
          else if is_digit c || Ascii.eqb c "." then
            let n := numeral_len s in
            v ← numeral (take_chars n s);
            ts ← tokenize fuel' (drop_chars n s);
            Some (TNum v :: ts)
          else None
      end
  end.

(** Recursive descent: sums of products of signed atoms, each operator
    associating to the left. *)
Fixpoint p_expr (n : nat) (ts : list token) : option (expr * list token) :=
  match n with
  | O => None
  | S n' =>
      match p_term n' ts with
      | Some (e, ts') => p_expr_rest n' e ts'
      | None => None
      end
  end
with p_expr_rest (n : nat) (acc : expr) (ts : list token)
  : option (expr * list token) :=
  match n with
  | O => None
  | S n' =>
      match ts with
      | TSym c :: ts' =>
          if Ascii.eqb c "+" || Ascii.eqb c "-" then
            match p_term n' ts' with
            | Some (e, ts'') => p_expr_rest n' (Bin c acc e) ts''
            | None => None
            end
          else Some (acc, ts)
      | _ => Some (acc, ts)
      end
  end
with p_term (n : nat) (ts : list token) : option (expr * list token) :=
  match n with
  | O => None
  | S n' =>
      match p_factor n' ts with
      | Some (e, ts') => p_term_rest n' e ts'
      | None => None
      end
  end
with p_term_rest (n : nat) (acc : expr) (ts : list token)
  : option (expr * list token) :=
  match n with
  | O => None
  | S n' =>
      match ts with
      | TSym c :: ts' =>
          if Ascii.eqb c "*" || Ascii.eqb c "/" then
            match p_factor n' ts' with
            | Some (e, ts'') => p_term_rest n' (Bin c acc e) ts''
            | None => None
            end
          else Some (acc, ts)
      | _ => Some (acc, ts)
      end
  end
with p_factor (n : nat) (ts : list token) : option (expr * list token) :=
  match n with
  | O => None
  | S n' =>
      match ts with
      | TNum v :: ts' => Some (Num v, ts')
      | TName x :: ts' => Some (Name x, ts')
      | TSym c :: ts' =>
          if Ascii.eqb c "-" then
            match p_factor n' ts' with
            | Some (e, ts'') => Some (Neg e, ts'')
            | None => None
            end
          else if Ascii.eqb c "+" then
            match p_factor n' ts' with
            | Some (e, ts'') => Some (Pos e, ts'')
            | None => None
            end
          else if Ascii.eqb c "(" then
            match p_expr n' ts' with
            | Some (e, TSym d :: ts'') =>
                if Ascii.eqb d ")" then Some (e, ts'') else None
            | _ => None
            end
          else None
      | [] => None
      end
  end.

Definition parse (s : string) : option expr :=
  match tokenize (S (String.length s)) s with
  | Some ts =>
      match p_expr (4 * length ts + 4) ts with
      | Some (e, []) => Some e
      | _ => None
      end
  | None => None
  end.

(** A number: an integer ([bool] is a subclass of [int]) or a float. *)
Definition as_num (v : pyval) : result (Z + float64) :=
  match v with
  | VInt z => Ok (inl z)
  | VBool b => Ok (inl (if b then 1 else 0))
  | VFloat f => Ok (inr f)
  | _ => Raise TypeError
  end.

Definition to_float (x : Z + float64) : result float64 :=
  match x with
  | inl z => float_of_int z
  | inr f => Ok f
  end.

Definition is_zero (f : float64) : bool :=
  match f with S754_zero _ => true | _ => false end.

(** [i / j] on integers: the quotient correctly rounded. *)
Definition int_truediv (i j : Z) : result float64 :=
  if j =? 0 then Raise ZeroDivisionError
  else
    let neg := xorb (i <? 0) (j <? 0) in
    if i =? 0 then Ok (S754_zero neg)
    else
      match float_of_ratio neg (Z.abs i) (Z.abs j) with
      | S754_infinity _ => Raise OverflowError
      | f => Ok f
      end.

Definition arith (op : ascii) (a b : pyval) : result pyval :=
  x ← as_num a;
  y ← as_num b;
  match x, y with
  | inl i, inl j =>
      if Ascii.eqb op "+" then Ok (VInt (i + j))
      else if Ascii.eqb op "-" then Ok (VInt (i - j))
      else if Ascii.eqb op "*" then Ok (VInt (i * j))
      else f ← int_truediv i j; Ok (VFloat f)
  | _, _ =>
      fx ← to_float x;
      fy ← to_float y;
      if Ascii.eqb op "+" then Ok (VFloat (SFadd prec emax fx fy))
      else if Ascii.eqb op "-" then Ok (VFloat (SFsub prec emax fx fy))
      else if Ascii.eqb op "*" then Ok (VFloat (SFmul prec emax fx fy))
      else if is_zero fy then Raise ZeroDivisionError
      else Ok (VFloat (SFdiv prec emax fx fy))
  end.

Definition negate (v : pyval) : result pyval :=
  x ← as_num v;
  match x with
  | inl i => Ok (VInt (- i))
  | inr f => Ok (VFloat (SFopp f))
  end.

Definition positive (v : pyval) : result pyval :=
  x ← as_num v;
  match x with
  | inl i => Ok (VInt i)
  | inr f => Ok (VFloat f)
  end.

Fixpoint eval (e : expr) (env : dict) : result pyval :=
  match e with
  | Num v => Ok v
  | Name x =>
      match dict_get x env with
      | Some v => Ok v
      | None => Raise NameError
      end
  | Neg e1 => v ← eval e1 env; negate v
  | Pos e1 => v ← eval e1 env; positive v
  | Bin op l r => a ← eval l env; b ← eval r env; arith op a b
  end.

Definition eval_text (s : string) (env : dict) : result pyval :=
  match parse s with
  | Some e => eval e env
  | None => Raise SyntaxError
  end.

End Arith.

(** *** JSON texts

    [json.loads] on texts whose characters, escapes included, stay below
    code point 256. *)

Module Json.

Definition is_ws (c : ascii) : bool :=
  let n := Z.of_N (N_of_ascii c) in
  (n =? 32) || (n =? 9) || (n =? 10) || (n =? 13).

Fixpoint skip_ws (s : string) : string :=
  match s with
  | String c s' => if is_ws c then skip_ws s' else s
  | EmptyString => s
  end.

Definition hex (c : ascii) : option Z :=
  let n := Z.of_N (N_of_ascii c) in
  if (48 <=? n) && (n <=? 57) then Some (n - 48)
  else if (97 <=? n) && (n <=? 102) then Some (n - 87)
  else if (65 <=? n) && (n <=? 70) then Some (n - 55)
  else None.

(** The character an escape letter stands for. *)
Definition comillas : ascii := "034".

Definition escape (c : ascii) : option ascii :=
  if Ascii.eqb c comillas then Some comillas
  else if Ascii.eqb c "\" then Some "\"%char
  else if Ascii.eqb c "/" then Some "/"%char
  else if Ascii.eqb c "b" then Some "008"%char
  else if Ascii.eqb c "f" then Some "012"%char
  else if Ascii.eqb c "n" then Some "010"%char
  else if Ascii.eqb c "r" then Some "013"%char
  else if Ascii.eqb c "t" then Some "009"%char
  else None.

(** The rest of a string literal after its opening quote: the text it
    denotes and what follows the closing quote. *)
Fixpoint str_body (s : string) : option (string * string) :=
  match s with
  | EmptyString => None
  | String c s' =>
      if Ascii.eqb c comillas then Some (EmptyString, s')
      else if Ascii.eqb c "\" then
        match s' with
        | String e s'' =>
            if Ascii.eqb e "u" then
              match s'' with
              | String h1 (String h2 (String h3 (String h4 r))) =>
                  match hex h1, hex h2, hex h3, hex h4 with
                  | Some 0, Some 0, Some a, Some b =>
                      match str_body r with
                      | Some (t, rest) =>
                          Some (String (ascii_of_N (Z.to_N (16 * a + b))) t,
                                rest)
                      | None => None
                      end
                  | _, _, _, _ => None
                  end
              | _ => None
              end
            else
              match escape e, str_body s'' with
              | Some x, Some (t, rest) => Some (String x t, rest)
              | _, _ => None
              end
        | EmptyString => None
        end
      else if Z.of_N (N_of_ascii c) <? 32 then None
      else
        match str_body s' with
        | Some (t, rest) => Some (String c t, rest)
        | None => None
        end
  end.

Definition is_digit (c : ascii) : bool :=
  match digit c with Some _ => true | None => false end.

(** Length of the number at the start of [s], after an optional minus:
    the integer part, then a fraction and an exponent when complete. *)
Definition number_len (s : string) : option (nat * bool) :=
  let ni :=
    match s with
    | String "0" _ => 1%nat
    | _ => Arith.run is_digit s
    end in
  match ni with
  | O => None
  | _ =>
      let nf :=
        match drop_chars ni s with
        | String "." r =>
            match Arith.run is_digit r with
            | O => O
            | k => S k
            end
        | _ => O
        end in
      let ne :=
        match drop_chars (ni + nf) s with
        | String e r =>
            if Ascii.eqb (lower e) "e" then
              match r with
              | String d r' =>
                  if Ascii.eqb d "+" || Ascii.eqb d "-" then
                    match Arith.run is_digit r' with
                    | O => O
                    | k => S (S k)
                    end
                  else
                    match Arith.run is_digit r with
                    | O => O
                    | k => S k
                    end
              | EmptyString => O
              end
            else O
        | EmptyString => O
        end in
      Some ((ni + nf + ne)%nat, negb ((nf + ne =? 0)%nat))
  end.

(** The number at the start of [s]. An integer of more than
    [MAX_STR_DIGITS] digits raises the [ValueError] of [int]. *)
Definition number (s : string) : result (pyval * string) :=
  let (neg, body) :=
    match s with
    | String "-" r => (true, r)
    | _ => (false, s)
    end in
  match number_len body with
  | None => Raise JSONDecodeError
  | Some (n, is_float) =>
      let t := take_chars n body in
      let rest := drop_chars n body in
      if is_float then
        match py_float (if neg then String "-" t else t) with
        | Ok f => Ok (VFloat f, rest)
        | Raise _ => Raise JSONDecodeError
        end
      else
        match digitpart 0 0 SeenNothing t with
        | Some (v, k) =>
            if (MAX_STR_DIGITS <? k)%nat then Raise ValueError
            else Ok (VInt (if neg then - v else v), rest)
        | None => Raise JSONDecodeError
        end
  end.

(** A word of the language at the start of [s]. *)
Definition literal (w : string) (v : pyval) (s : string)
  : option (pyval * string) :=
  if String.prefix w s then Some (v, drop_chars (String.length w) s)
  else None.

Definition literals (s : string) : option (pyval * string) :=
  match literal "null" VNone s with
  | Some r => Some r
  | None =>
  match literal "true" (VBool true) s with
  | Some r => Some r
  | None =>
  match literal "false" (VBool false) s with
  | Some r => Some r
  | None =>
  match literal "NaN" (VFloat S754_nan) s with
  | Some r => Some r
  | None =>
  match literal "Infinity" (VFloat (S754_infinity false)) s with
  | Some r => Some r
  | None => literal "-Infinity" (VFloat (S754_infinity true)) s
  end end end end end.

(** A value at the start of [s] (no white space before it), the members
    of an object after its first key's opening quote was found, and the
    elements of an array. The text is read from left to right, and the
    first error met is the one raised. *)
Fixpoint value (n : nat) (s : string) : result (pyval * string) :=
  match n with
  | O => Raise JSONDecodeError
  | S n' =>
      match s with
      | String c r =>
          if Ascii.eqb c comillas then
            match str_body r with
            | Some (t, rest) => Ok (VStr t, rest)
            | None => Raise JSONDecodeError
            end
          else if Ascii.eqb c "{" then
            match skip_ws r with
            | String d r' =>
                if Ascii.eqb d "}" then Ok (VDict [], r')
                else members n' [] (String d r')
            | EmptyString => Raise JSONDecodeError
            end
          else if Ascii.eqb c "[" then
            match skip_ws r with
            | String d r' =>
                if Ascii.eqb d "]" then Ok (VList [], r')
                else elements n' [] (String d r')
            | EmptyString => Raise JSONDecodeError
            end
          else
            match literals s with
            | Some x => Ok x
            | None => number s
            end
      | EmptyString => Raise JSONDecodeError
      end
  end
with members (n : nat) (acc : dict) (s : string) : result (pyval * string) :=
  match n with
  | O => Raise JSONDecodeError
  | S n' =>
      match s with
      | String c r =>
          if negb (Ascii.eqb c comillas) then Raise JSONDecodeError
          else
          match str_body r with
          | Some (k, rest) =>
              match skip_ws rest with
              | String ":" rest' =>
                  match value n' (skip_ws rest') with
                  | Ok (v, rest'') =>
                      match skip_ws rest'' with
                      | String "}" r' => Ok (VDict (dict_set k v acc), r')
                      | String "," r' =>
                          members n' (dict_set k v acc) (skip_ws r')
                      | _ => Raise JSONDecodeError
                      end
                  | Raise e => Raise e
                  end
              | _ => Raise JSONDecodeError
              end
          | None => Raise JSONDecodeError
          end
      | EmptyString => Raise JSONDecodeError
      end
  end
with elements (n : nat) (acc : list pyval) (s : string)
  : result (pyval * string) :=
  match n with
  | O => Raise JSONDecodeError
  | S n' =>
      match value n' s with
      | Ok (v, rest) =>
          match skip_ws rest with
          | String "]" r' => Ok (VList (acc ++ [v]), r')
          | String "," r' => elements n' (acc ++ [v]) (skip_ws r')
          | _ => Raise JSONDecodeError
          end
      | Raise e => Raise e
      end
  end.

Definition loads (s : string) : result pyval :=
  match value (S (String.length s)) (skip_ws s) with
  | Ok (v, rest) =>
      match skip_ws rest with
      | EmptyString => Ok v
      | _ => Raise JSONDecodeError
      end
  | Raise e => Raise e
  end.

End Json.

(** The reference runtime. *)
Definition referencia : Runtime := {|
  json_loads := Json.loads;
  py_eval := Arith.eval_text
|}.

(** JSON texts in the examples are written with apostrophes where the
    text has quotation marks. *)
Fixpoint js (s : string) : string :=
  match s with
  | EmptyString => EmptyString
  | String c s' => String (if Ascii.eqb c "'" then Json.comillas else c) (js s')
  end.

(** ** Inputs of the examples *)

(** A model whose constant [x] is 1, and a scenario that gives [x] the
    value 2. *)
Definition modelo_x : pyval :=
  VDict [("model", VStr "resultado = x");
         ("constants", VDict [("x", VFloat (flt "1.0"))])].

Definition trabajador (m : pyval) : Consumidor.consumidor :=
  {| Consumidor.worker_id := "VM1"; Consumidor.modelo := m;
     Consumidor.resultados_publicados := 0;
     Consumidor.result_queue := []; Consumidor.acks := [] |}.

(** A model that divides, a model that names a variable no scenario
    binds, and a model whose formula is cut short. *)
Definition modelo_division : pyval :=
  VDict [("model", VStr "resultado = a / b"); ("constants", VDict [])].

Definition modelo_sin_ligar : pyval :=
  VDict [("model", VStr "resultado = a + z"); ("constants", VDict [])].

Definition modelo_truncado : pyval :=
  VDict [("model", VStr "resultado = a +"); ("constants", VDict [])].

Definition cuerpo_ab : string := js "{'a': 1, 'b': 0}".

Definition escenario_ab : pyval := VDict [("a", VInt 1); ("b", VInt 0)].

(** A collector that has received nothing yet, a result message, and a
    delivery during which the publication on [dashboard_queue] raises. *)
Definition colector_inicial : Colector.colector :=
  {| Colector.buffer := []; Colector.archivo := [];
     Colector.resultados := []; Colector.dashboard_queue := [];
     Colector.acks := []; Colector.nacks := [] |}.

Definition cuerpo_resultado : string :=
  js "{'worker_id': 'VM1', 'escenario': {'a': 2.0, 'b': 3.5}, 'resultado': 5.5, 'timestamp': 1.0}".

Definition linea_resultado : Colector.linea :=
  {| Colector.l_timestamp := "12:00:00";
     Colector.l_worker := VStr "VM1";
     Colector.l_escenario :=
       VDict [("a", VFloat (flt "2.0")); ("b", VFloat (flt "3.5"))];
     Colector.l_resultado := VFloat (flt "5.5") |}.

Definition falla_al_publicar : Colector.fallos :=
  {| Colector.falla_write := false; Colector.falla_flush := false;
     Colector.falla_publish := true; Colector.falla_ack := false;
     Colector.falla_nack := false |}.

(** The vocabulary of the bounded history: the results that a sequence
    of deliveries holds for one worker, oldest first, and the last [n]
    elements of a list. *)
Fixpoint valores_de (w : string) (rs : list (string * pyval)) : list pyval :=
  match rs with
  | [] => []
  | (w', r) :: rs' =>
      if String.eqb w' w then r :: valores_de w rs' else valores_de w rs'
  end.

Definition ultimos {A} (n : nat) (l : list A) : list A :=
  drop (length l - n) l.

(** 201 results of one worker, numbered from 0, and that worker's entry
    once the dashboard has received them. *)
Definition resultados_201 : list (string * pyval) :=
  map (fun i => ("VM1", VInt (Z.of_nat i))) (seq 0 201).

Definition info_201 : Dashboard.info :=
  {| Dashboard.color := (70, 90, 60);
     Dashboard.historial := map (fun i => VInt (Z.of_nat i)) (seq 1 200);
     Dashboard.conteo := 201;
     Dashboard.ultimo := VInt 200 |}.

(** A model in the line-oriented form and the same model as JSON. *)
Definition nl : string := String "010" EmptyString.

Definition texto_dsl : string :=
  "# demo" +:+ nl +:+
  "model: resultado = a + b * c" +:+ nl +:+
  "constants:" +:+ nl +:+
  "  c = 2.5" +:+ nl +:+ nl +:+
  "distributions:" +:+ nl +:+
  "a ~ uniform(0, 1)" +:+ nl +:+
  "b ~ constante(3)" +:+ nl.

Definition texto_json : string :=
  js "{'model': 'resultado = a + b * c', 'constants': {'c': 2.5}, 'distributions': {'a': 'uniform(0, 1)', 'b': 'constante(3)'}}".

Definition modelo_abc : pyval :=
  VDict [("model", VStr "resultado = a + b * c");
         ("constants", VDict [("c", VFloat (flt "2.5"))]);
         ("distributions",
          VDict [("a", VStr "uniform(0, 1)"); ("b", VStr "constante(3)")])].

(** The vocabulary of the statements on the line-oriented form: a text
    has a [model:] line; a line is neither blank, nor a comment, nor the
    header of a section; a line has the shape [key=value] with a numeral
    for value. *)
Definition tiene_model (texto : string) : bool :=
  existsb (fun l => startswith (strip l) "model:") (splitlines texto).

Definition es_dato (linea : string) : bool :=
  let l := strip linea in
  negb (String.eqb l EmptyString || startswith l "#"
        || startswith l "model:" || startswith l "constants:"
        || startswith l "distributions:").

Definition constante_bien_formada (linea : string) : bool :=
  match split "=" (strip linea) with
  | [_; v] => is_Ok (py_float (strip v))
  | _ => false
  end.

(** A line that the parser accepts in whatever section it stands: if it
    has an equals sign it is a well-formed constant, and if it has a tilde
    it has one only. *)
Definition linea_admisible (linea : string) : bool :=
  (negb (contains "=" (strip linea)) || constante_bien_formada linea)
  && (negb (contains "~" (strip linea))
      || (length (split "~" (strip linea)) =? 2)%nat).

Definition secciones_vacias : Productor.secciones * option Productor.seccion :=
  ({| Productor.model := None; Productor.constants := [];
      Productor.distributions := [] |}, None).

(** Texts without a [model:] line, and with constants lines that are not
    of the shape [key=value]. *)
Definition texto_sin_model : string := "constants:" +:+ nl +:+ "c = 2".

Definition texto_constante_mala : string := "constants:" +:+ nl +:+ "c = dos".

Definition texto_constante_doble : string := "constants:" +:+ nl +:+ "c = 2 = 3".

Definition texto_constante_suelta : string :=
  "constants:" +:+ nl +:+ "c 2" +:+ nl +:+ "d = 4".

Definition texto_constante_d : string := "constants:" +:+ nl +:+ "d = 4".

(** Every entry of a table of distributions can be sampled, whatever the
    state of the generator. *)
Definition evaluable {R : Type} {np : Sampler R} (items : dict) : Prop :=
  ∀ var expr (g : R),
    (var, expr) ∈ items →
    is_Ok (fst (Productor._evaluar_distribucion expr g)) = true.

(** A model that declares [y] under [distributions] and nothing under
    [variables], and a model with a distribution of an unknown kind. *)
Definition modelo_dos_tablas : pyval :=
  VDict [("model", VStr "resultado = y");
         ("variables", VDict []);
         ("distributions", VDict [("y", VStr "constante(1)")])].

Definition modelo_gamma : pyval :=
  VDict [("model", VStr "resultado = y");
         ("distributions", VDict [("y", VStr "gamma(1, 2)")])].

(** A model whose second distribution is a list that does not name the
    constant kind. *)
Definition modelo_lista : pyval :=
  VDict [("model", VStr "resultado = a + b");
         ("distributions",
          VDict [("a", VStr "constante(1)");
                 ("b", VList [VStr "uniform"; VInt 3])])].

(** A model that adds two variables, and a delivery for it. *)
Definition modelo_suma : pyval :=
  VDict [("model", VStr "resultado = a + b"); ("constants", VDict [])].

Definition cuerpo_suma : string := js "{'a': 2.0, 'b': 3.5}".

(** ** Inputs of the further examples *)

(** Results of three workers as they reach the dashboard. *)
Definition llegadas : list (string * pyval) :=
  [("VM1", VInt 1); ("VM2", VInt 2); ("VM1", VInt 3)].

(** ** dashboard.py, with the objects of the store

    [AlmacenDatos.datos] is a dictionary whose values are dictionaries
    that [agregar_resultado] changes in place and that [instantanea]
    hands out without copying them. Here the entries live at addresses:
    [datos] maps a worker to the address of its entry, [objetos] holds the
    entries. *)

Module Memoria.
Import Dashboard.

Record almacen : Type := {
  objetos : gmap nat info;
  datos : gmap string nat
}.

(** [__init__]: [self.datos = {}] *)
Definition vacio : almacen := {| objetos := ∅; datos := ∅ |}.

Definition agregar_resultado (worker_id : string) (resultado : pyval)
  (a : almacen) : almacen :=
  let a1 :=
    match datos a !! worker_id with
    | None =>
        let l := fresh (dom (objetos a)) in
        {| objetos :=
             <[l := {| color :=
                         default (0, 0, 0)
                           (COLOR_LINEAS
                              !! (size (datos a) mod length COLOR_LINEAS)%nat);
                       historial := [];
                       conteo := 0;
                       ultimo := resultado |}]> (objetos a);
           datos := <[worker_id := l]> (datos a) |}
    | Some _ => a
    end in
  match datos a1 !! worker_id with
  | Some l =>
      match objetos a1 !! l with
      | Some d =>
          {| objetos :=
               <[l := {| color := color d;
                         historial := recortar (historial d ++ [resultado]);
                         conteo := conteo d + 1;
                         ultimo := resultado |}]> (objetos a1);
             datos := datos a1 |}
      | None => a1
      end
  | None => a1
  end.

(** [instantanea]: [dict(self.datos)], a new dictionary with the same
    entries. *)
Definition instantanea (a : almacen) : gmap string nat := datos a.

(** What the holder of the dictionary [d] reads for a worker when the
    store is [a]. *)
Definition leer (d : gmap string nat) (a : almacen) (w : string)
  : option info :=
  d !! w ≫= λ l, objetos a !! l.

Definition recibir (rs : list (string * pyval)) (a : almacen) : almacen :=
  fold_left (fun acc r => agregar_resultado (fst r) (snd r) acc) rs a.

(** The store as its owner reads it. *)
Definition vista (a : almacen) : gmap string info :=
  omap (λ l, objetos a !! l) (datos a).

(** Every worker has an entry of its own. *)
Definition bien_formado (a : almacen) : Prop :=
  (∀ w l, datos a !! w = Some l → is_Some (objetos a !! l))
  ∧ (∀ w1 w2 l, datos a !! w1 = Some l → datos a !! w2 = Some l → w1 = w2).

End Memoria.

(** The text made of [n] times the character [c]. *)
Fixpoint repetir (n : nat) (c : ascii) : string :=
  match n with
  | O => EmptyString
  | S n' => String c (repetir n' c)
  end.

(** A text that is one integer of 4301 digits. *)
Definition texto_entero_largo : string := repetir 4301 "1".

(** A model that squares, and a scenario whose square has 4401 digits. *)
Definition modelo_cuadrado : pyval :=
  VDict [("model", VStr "resultado = a * a"); ("constants", VDict [])].

Definition cuerpo_grande : string :=
  js "{'a': 1" +:+ repetir 2200 "0" +:+ "}".

(** A model whose formula is one name, and a scenario that binds the
    name to a text. *)
Definition modelo_a : pyval :=
  VDict [("model", VStr "resultado = a"); ("constants", VDict [])].

Definition cuerpo_hola : string := js "{'a': 'hola'}".

(** The model that the line parser returns for [texto_sin_model], as it
    travels on [model_queue]. *)
Definition cuerpo_modelo_sin_formula : string :=
  js "{'model': null, 'constants': {'c': 2.0}, 'distributions': {}}".

(** The vocabulary of a run of the collector: what can be read from a
    delivery, the deliveries that can be read, with what was read, and the
    deliveries that cannot. *)
Section Lecturas.
Context {rt : Runtime}.
Import Colector.

Definition lectura (e : entrega) : result (pyval * pyval * linea) :=
  leer_mensaje (e_timestamp e) (e_cuerpo e).

Definition legibles (entregas : list entrega)
  : list (entrega * (pyval * pyval * linea)) :=
  omap (fun e => match lectura e with
                 | Ok m => Some (e, m)
                 | Raise _ => None
                 end) entregas.

Definition ilegibles (entregas : list entrega) : list entrega :=
  filter (fun e => is_Ok (lectura e) = false) entregas.

End Lecturas.

(** Two deliveries to the collector, the second without a result, and a
    message that is not an object. *)
Definition cuerpo_sin_resultado : string := js "{'worker_id': 'VM2'}".

Definition dos_entregas : list Colector.entrega :=
  [ {| Colector.e_fallos := Colector.sin_fallos;
       Colector.e_timestamp := "12:00:00";
       Colector.e_tag := 1;
       Colector.e_cuerpo := cuerpo_resultado |};
    {| Colector.e_fallos := Colector.sin_fallos;
       Colector.e_timestamp := "12:00:01";
       Colector.e_tag := 2;
       Colector.e_cuerpo := cuerpo_sin_resultado |} ].

(** The vocabulary of the statements on the patterns: a text without a
    given character, a text made of white space, and a text that starts
    with a character that is not white space. *)
Definition blancos (ws : string) : bool :=
  (Re.span Re.Space ws =? String.length ws)%nat.

Definition empieza_sin_blanco (t : string) : bool :=
  match t with
  | String c _ => negb (isspace c)
  | EmptyString => false
  end.

(** The number of groups of a pattern. *)
Fixpoint grupos (p : Re.pattern) : nat :=
  match p with
  | [] => O
  | Re.Group _ :: p' => S (grupos p')
  | _ :: p' => grupos p'
  end.

(** A line that changes nothing when it is read in the section [a]: a
    blank line or a comment; or a line that is not a header and stands
    before the first header or in the section of the formula, or in the
    section of constants without an equals sign, or in the section of
    distributions without a tilde. *)
Definition sin_efecto (a : option Productor.seccion) (linea : string) : bool :=
  let l := strip linea in
  String.eqb l EmptyString || startswith l "#"
  || es_dato linea
     && match a with
        | None | Some Productor.SecModel => true
        | Some Productor.SecConstants => negb (contains "=" l)
        | Some Productor.SecDistributions => negb (contains "~" l)
        end.

(** A text whose second distribution is of an unknown kind. *)
Definition texto_gamma : string :=
  "model: resultado = a + b" +:+ nl +:+
  "distributions:" +:+ nl +:+
  "a ~ uniform(0, 1)" +:+ nl +:+
  "b ~ gamma(1, 2)".

(** A text with a line that stands before the first header and a line
    under the formula, and the text without them. *)
Definition texto_con_sobras : string :=
  "a ~ uniform(0, 1)" +:+ nl +:+
  "model: resultado = a" +:+ nl +:+
  "  + 1" +:+ nl +:+
  "distributions:" +:+ nl +:+
  "a ~ constante(3)".

Definition texto_sin_sobras : string :=
  "model: resultado = a" +:+ nl +:+
  "  + 1" +:+ nl +:+
  "distributions:" +:+ nl +:+
  "a ~ constante(3)".

(** The indices at which [publicar_escenarios] reports its progress when
    it publishes [n] scenarios. *)
Definition con_avance (n : Z) (i : Z) : bool := (i mod 10 =? 0) || (i =? n).

(** The result message that a worker makes for a delivery, if it makes
    one: the scenario must be decoded and the formula must evaluate to a
    value that is not [None]. *)
Definition mensaje_de {rt : Runtime} (self : Consumidor.consumidor)
  (e : float64 * Z * string) : option pyval :=
  match json_loads (snd e) with
  | Ok escenario =>
      match Consumidor.ejecutar_modelo self escenario with
      | Ok VNone | Raise _ => None
      | Ok resultado =>
          Some (Consumidor.mensaje_resultado self escenario resultado
                  (fst (fst e)))
      end
  | Raise _ => None
  end.

(** Two deliveries for a model that divides: the first divides by zero. *)
Definition entregas_division : list (float64 * Z * string) :=
  [(flt "0", 7, cuerpo_ab); (flt "1", 8, cuerpo_suma)].

(** * Properties *)

(** ** Runs of the embedding on small inputs *)

Section Ejemplos.
Import Re Productor.

Example ej_strip : strip "  a b  " = "a b".
Proof. reflexivity. Qed.

Example ej_split : split "=" "a=b=c" = ["a"; "b"; "c"].
Proof. reflexivity. Qed.

Example ej_split_solo : split "=" "=" = [EmptyString; EmptyString].
Proof. reflexivity. Qed.

Example ej_replace :
  replace "model: x + model:y" "model:" EmptyString = " x + y".
Proof. reflexivity. Qed.

Example ej_splitlines :
  splitlines ("a" +:+ String "013" nl +:+ "b" +:+ nl +:+ nl +:+ "c" +:+ nl)
  = ["a"; "b"; EmptyString; "c"].
Proof. reflexivity. Qed.

Example ej_float_decimal :
  py_float "0.1" = Ok (S754_finite false 7205759403792794 (-56)).
Proof. by vm_compute. Qed.

Example ej_float_subnormal :
  py_float "5e-324" = Ok (S754_finite false 1 (-1074)).
Proof. by vm_compute. Qed.

Example ej_float_redondeo :
  py_float "9007199254740993" = Ok (S754_finite false 4503599627370496 1).
Proof. by vm_compute. Qed.

Example ej_float_maximo :
  py_float "1.7976931348623157e308"
  = Ok (S754_finite false 9007199254740991 971)
  ∧ py_float "1.7976931348623159e308" = Ok (S754_infinity false).
Proof. split; by vm_compute. Qed.

Example ej_float_formas :
  py_float " -1_0.2_5e+1 " = Ok (flt "-102.5")
  ∧ py_float "1." = Ok (flt "1")
  ∧ py_float ".5" = Ok (flt "0.5")
  ∧ py_float "-Infinity" = Ok (S754_infinity true)
  ∧ py_float "." = Raise ValueError
  ∧ py_float "1_" = Raise ValueError
  ∧ py_float "1e" = Raise ValueError
  ∧ py_float "dos" = Raise ValueError.
Proof. repeat split; by vm_compute. Qed.

Example ej_int :
  py_int " -0_12 " = Ok (-12)
  ∧ py_int "1.5" = Raise ValueError
  ∧ py_int EmptyString = Raise ValueError.
Proof. repeat split; by vm_compute. Qed.

Example ej_re_uniform :
  re_match p_uniform "uniform(1, 2)" = Some ["1"; "2"]
  ∧ re_match p_uniform "uniform(1, )" = Some ["1"; " "]
  ∧ re_match p_uniform "uniform(1,)" = None
  ∧ re_match p_uniform "uniform(1,2,3)" = Some ["1"; "2,3"]
  ∧ re_match p_uniform " uniform(1,2)" = None
  ∧ re_match p_uniform "uniform((1,2),3)" = Some ["(1"; "2"].
Proof. repeat split; reflexivity. Qed.

Example ej_re_otros :
  re_match p_triangular "triangular(1, 2,3)x" = Some ["1"; "2"; "3"]
  ∧ re_match p_constante "constante(a(b)c)" = Some ["a(b"].
Proof. split; reflexivity. Qed.

Example ej_parsear_modelo : _parsear_modelo texto_dsl = Ok modelo_abc.
Proof. by vm_compute. Qed.

Example ej_json : Json.loads texto_json = Ok modelo_abc.
Proof. by vm_compute. Qed.

Example ej_json_malos :
  Json.loads "[1,]" = Raise JSONDecodeError
  ∧ Json.loads "01" = Raise JSONDecodeError
  ∧ Json.loads "1." = Raise JSONDecodeError
  ∧ Json.loads texto_dsl = Raise JSONDecodeError.
Proof. repeat split; by vm_compute. Qed.

Example ej_json_repetida :
  Json.loads (js "{'a': 1, 'b': [true, null, 'x'], 'a': 3e2}")
  = Ok (VDict [("a", VFloat (flt "300"));
               ("b", VList [VBool true; VNone; VStr "x"])]).
Proof. by vm_compute. Qed.

Example ej_eval :
  Arith.eval_text "2 * (3 + 4) - -1 / 2" [] = Ok (VFloat (flt "14.5"))
  ∧ Arith.eval_text "0.1 + 0.2" [] = Ok (VFloat (flt "0.30000000000000004"))
  ∧ Arith.eval_text "1 / 3" [] = Ok (VFloat (flt "0.3333333333333333"))
  ∧ Arith.eval_text "7 - 2 - 1" [] = Ok (VInt 4).
Proof. repeat split; by vm_compute. Qed.

Example ej_generar :
  generar_escenarios (np:=Numpy.legacy) {| modelo := modelo_abc |} 2
    [flt "0.5"; flt "0.25"]
  = (Ok [[("a", VFloat (flt "0.5")); ("b", VFloat (flt "3"))];
         [("a", VFloat (flt "0.25")); ("b", VFloat (flt "3"))]], []).
Proof. by vm_compute. Qed.

Example ej_triangular :
  _evaluar_distribucion (np:=Numpy.legacy) (VStr "triangular(0, 1, 2)")
    [flt "0.5"] = (Ok (flt "1"), [])
  ∧ _evaluar_distribucion (np:=Numpy.legacy) (VStr "triangular(3, 2, 5)")
      [flt "0.5"] = (Raise ValueError, [flt "0.5"])
  ∧ _evaluar_distribucion (np:=Numpy.legacy) (VStr "normal(1, -1)")
      [flt "0.5"] = (Raise ValueError, [flt "0.5"]).
Proof. repeat split; by vm_compute. Qed.

(** The formula [a + b] on the scenario [a = 2.0], [b = 3.5] gives 5.5,
    and the worker publishes it and acknowledges the delivery. *)
Example ej_suma :
  Consumidor.procesar_escenario (rt:=referencia) (flt "1.0") 1 cuerpo_suma
    (trabajador modelo_suma)
  = (Ok tt,
     {| Consumidor.worker_id := "VM1";
        Consumidor.modelo := modelo_suma;
        Consumidor.resultados_publicados := 1;
        Consumidor.result_queue :=
          [VDict [("worker_id", VStr "VM1");
                  ("escenario",
                   VDict [("a", VFloat (flt "2.0")); ("b", VFloat (flt "3.5"))]);
                  ("resultado", VFloat (flt "5.5"));
                  ("timestamp", VFloat (flt "1.0"))]];
        Consumidor.acks := [1] |}).
Proof. by vm_compute. Qed.

(** A delivery that goes through in the collector. *)
Example ej_colector :
  Colector._procesar_resultado (rt:=referencia) Colector.sin_fallos
    "12:00:00" 1 cuerpo_resultado colector_inicial
  = (Ok tt,
     {| Colector.buffer := [];
        Colector.archivo := [linea_resultado];
        Colector.resultados := [VFloat (flt "5.5")];
        Colector.dashboard_queue :=
          [Colector.msg_dashboard (VStr "VM1") (VFloat (flt "5.5"))
             "12:00:00"];
        Colector.acks := [1];
        Colector.nacks := [] |}).
Proof. by vm_compute. Qed.

End Ejemplos.


(** ** Dictionaries *)

Section Diccionarios.

Lemma dict_get_set_eq (k : string) (v : pyval) (d : dict) :
  dict_get k (dict_set k v d) = Some v.
Proof.
  induction d as [|[k' v'] d IH]; simpl.
  - by rewrite String.eqb_refl.
  - destruct (String.eqb k k') eqn:E; simpl; rewrite E; [done|apply IH].
Qed.

Lemma dict_get_set_ne (k k' : string) (v : pyval) (d : dict) :
  k ≠ k' → dict_get k (dict_set k' v d) = dict_get k d.
Proof.
  intros Hne. induction d as [|[k1 v1] d IH]; simpl.
  - by apply String.eqb_neq in Hne as ->.
  - destruct (String.eqb k' k1) eqn:E; simpl.
    + apply String.eqb_eq in E as ->. by apply String.eqb_neq in Hne as ->.
    + by rewrite IH.
Qed.

Lemma dict_get_None (k : string) (d : dict) :
  dict_get k d = None ↔ k ∉ dict_keys d.
Proof.
  induction d as [|[k' v'] d IH]; simpl.
  - split; [intros _; apply not_elem_of_nil|done].
  - rewrite not_elem_of_cons. destruct (String.eqb k k') eqn:E.
    + apply String.eqb_eq in E as ->. split; [done|]. by intros [? _].
    + apply String.eqb_neq in E. rewrite IH. tauto.
Qed.

Lemma dict_get_is_Some (k : string) (d : dict) :
  is_Some (dict_get k d) ↔ k ∈ dict_keys d.
Proof.
  destruct (decide (k ∈ dict_keys d)) as [Hin|Hn].
  - split; [done|]. intros _.
    destruct (dict_get k d) eqn:E; [by eauto|].
    by apply dict_get_None in E.
  - split; [|done]. apply dict_get_None in Hn. rewrite Hn. by intros [? ?].
Qed.

Lemma dict_keys_set (key k : string) (v : pyval) (d : dict) :
  key ∈ dict_keys (dict_set k v d) ↔ key = k ∨ key ∈ dict_keys d.
Proof.
  induction d as [|[k' v'] d IH]; simpl.
  - rewrite list_elem_of_singleton. split; [by left|].
    intros [?|Hin]; [done|]. by apply not_elem_of_nil in Hin.
  - destruct (String.eqb k k') eqn:E; simpl.
    + apply String.eqb_eq in E as ->. rewrite elem_of_cons. tauto.
    + rewrite !elem_of_cons, IH. tauto.
Qed.

(** After [d.update(other)] a key of [other] has the value [other] gives
    it, and any other key keeps the value it had in [d]. *)
Lemma dict_get_update (k : string) (d other : dict) :
  NoDup (dict_keys other) →
  dict_get k (dict_update d other) =
    match dict_get k other with
    | Some v => Some v
    | None => dict_get k d
    end.
Proof.
  unfold dict_update. revert d.
  induction other as [|[k1 v1] other IH]; intros d Hnd; [done|].
  simpl in Hnd. apply NoDup_cons in Hnd as [Hk1 Hnd].
  simpl. rewrite IH by done.
  destruct (String.eqb k k1) eqn:E.
  - apply String.eqb_eq in E as ->.
    apply dict_get_None in Hk1. rewrite Hk1. apply dict_get_set_eq.
  - apply String.eqb_neq in E.
    destruct (dict_get k other); [done|]. by apply dict_get_set_ne.
Qed.

End Diccionarios.

(** ** The environment of a formula (consumidor.py) *)

Section Entorno.
Context {rt : Runtime}.
Import Consumidor.

(** C1, as the code has it: the scenario is merged into the environment
    first and the model's constants after it, and the formula is evaluated
    in that environment; so a name bound by both has the value of the
    constant, and the scenario's value is used for the other names. *)
Theorem entorno_constantes_prevalecen (self : consumidor) (formula : string)
  (escenario constantes : dict) :
  NoDup (dict_keys escenario) →
  NoDup (dict_keys constantes) →
  py_getitem (modelo self) "model" = Ok (VStr formula) →
  py_get (modelo self) "constants" (VDict []) = Ok (VDict constantes) →
  ∃ entorno,
    entorno_de (modelo self) (VDict escenario) = Ok entorno
    ∧ (∀ k, dict_get k entorno =
              match dict_get k constantes with
              | Some c => Some c
              | None => dict_get k escenario
              end)
    ∧ ejecutar_modelo self (VDict escenario) =
        match py_eval (strip (replace formula "resultado =" EmptyString))
                entorno with
        | Ok resultado => Ok resultado
        | Raise e => if is_Exception e then Ok VNone else Raise e
        end.
Proof.
  intros Hesc Hcon Hmodel Hget.
  exists (dict_update (dict_update [] escenario) constantes).
  unfold ejecutar_modelo, expresion_de, evaluar, entorno_de.
  rewrite Hmodel. simpl. rewrite Hget. simpl.
  split; [done|]. split; [|done].
  intros k. rewrite !dict_get_update by done.
  destruct (dict_get k constantes); [done|].
  by destruct (dict_get k escenario).
Qed.

End Entorno.

Lemma entorno_constantes_prevalecen_witness :
  ∃ entorno,
    Consumidor.entorno_de modelo_x (VDict [("x", VFloat (flt "2.0"))])
      = Ok entorno
    ∧ (∀ k, dict_get k entorno =
              match dict_get k [("x", VFloat (flt "1.0"))] with
              | Some c => Some c
              | None => dict_get k [("x", VFloat (flt "2.0"))]
              end)
    ∧ Consumidor.ejecutar_modelo (rt:=referencia) (trabajador modelo_x)
        (VDict [("x", VFloat (flt "2.0"))]) =
        match @py_eval referencia
                (strip (replace "resultado = x" "resultado =" EmptyString))
                entorno with
        | Ok resultado => Ok resultado
        | Raise e => if is_Exception e then Ok VNone else Raise e
        end.
Proof.
  apply (entorno_constantes_prevalecen (rt:=referencia) (trabajador modelo_x)
           "resultado = x"
           [("x", VFloat (flt "2.0"))] [("x", VFloat (flt "1.0"))]).
  - apply NoDup_singleton.
  - apply NoDup_singleton.
  - reflexivity.
  - reflexivity.
Defined.

(** C1 as the specification words it fails: with the constant [x = 1] and
    the scenario [x = 2] the formula [x] evaluates to 1, the constant, and
    not to the scenario's 2. *)
Lemma escenario_no_prevalece :
  Consumidor.ejecutar_modelo (rt:=referencia) (trabajador modelo_x)
    (VDict [("x", VFloat (flt "2.0"))]) = Ok (VFloat (flt "1.0"))
  ∧ Consumidor.ejecutar_modelo (rt:=referencia) (trabajador modelo_x)
      (VDict [("x", VFloat (flt "2.0"))]) ≠ Ok (VFloat (flt "2.0")).
Proof. split; [by vm_compute|]. vm_compute. discriminate. Qed.

(** ** Failed evaluations in the worker (consumidor.py) *)

Section Descartes.
Context {rt : Runtime}.
Import Consumidor.

(** Whatever exception the [try] block raises, if it is an [Exception],
    [ejecutar_modelo] returns [None]. *)
Lemma ejecutar_modelo_atrapa (self : consumidor) (escenario : pyval)
  (expresion : string) (e : exn) :
  expresion_de (modelo self) = Ok expresion →
  evaluar (modelo self) expresion escenario = Raise e →
  is_Exception e = true →
  ejecutar_modelo self escenario = Ok VNone.
Proof.
  intros Hexp Hev Hex. unfold ejecutar_modelo.
  rewrite Hexp. simpl. by rewrite Hev, Hex.
Qed.

(** C8: when the evaluation of the formula on a scenario raises
    [NameError], [ZeroDivisionError] or [SyntaxError], the callback returns
    normally, publishes nothing on [result_queue], leaves the counter of
    published results as it was and acknowledges the delivery; the loop
    goes on with the deliveries that follow. *)
Theorem evaluacion_fallida_se_descarta (self : consumidor) (ahora : float64)
  (tag : Z) (cuerpo : string) (escenario : pyval) (expresion : string)
  (e : exn) (resto : list (float64 * Z * string)) :
  json_loads cuerpo = Ok escenario →
  expresion_de (modelo self) = Ok expresion →
  evaluar (modelo self) expresion escenario = Raise e →
  e = NameError ∨ e = ZeroDivisionError ∨ e = SyntaxError →
  ∃ self',
    procesar_escenario ahora tag cuerpo self = (Ok tt, self')
    ∧ result_queue self' = result_queue self
    ∧ resultados_publicados self' = resultados_publicados self
    ∧ acks self' = acks self ++ [tag]
    ∧ consumir ((ahora, tag, cuerpo) :: resto) self = consumir resto self'.
Proof.
  intros Hjson Hexp Hev He.
  assert (Hnone : ejecutar_modelo self escenario = Ok VNone).
  { apply (ejecutar_modelo_atrapa self escenario expresion e); [done..|].
    by destruct He as [->|[->| ->]]. }
  assert (Hproc : procesar_escenario ahora tag cuerpo self
                  = (Ok tt, basic_ack tag self)).
  { unfold procesar_escenario. by rewrite Hjson, Hnone. }
  exists (basic_ack tag self). repeat split; [done|].
  simpl. by rewrite Hproc.
Qed.

End Descartes.

(** The three kinds of failure on the reference runtime: a division by
    zero, a name that is not bound, a formula that does not parse. *)
Lemma evaluacion_fallida_se_descarta_witness :
  (∃ self',
     Consumidor.procesar_escenario (rt:=referencia) (flt "0") 7 cuerpo_ab
       (trabajador modelo_division) = (Ok tt, self')
     ∧ Consumidor.result_queue self' = []
     ∧ Consumidor.resultados_publicados self' = 0
     ∧ Consumidor.acks self' = [] ++ [7]
     ∧ Consumidor.consumir (rt:=referencia) [(flt "0", 7, cuerpo_ab)]
         (trabajador modelo_division)
       = Consumidor.consumir (rt:=referencia) [] self')
  ∧ (∃ self',
     Consumidor.procesar_escenario (rt:=referencia) (flt "0") 8 cuerpo_ab
       (trabajador modelo_sin_ligar) = (Ok tt, self')
     ∧ Consumidor.result_queue self' = []
     ∧ Consumidor.resultados_publicados self' = 0
     ∧ Consumidor.acks self' = [] ++ [8]
     ∧ Consumidor.consumir (rt:=referencia) [(flt "0", 8, cuerpo_ab)]
         (trabajador modelo_sin_ligar)
       = Consumidor.consumir (rt:=referencia) [] self')
  ∧ (∃ self',
     Consumidor.procesar_escenario (rt:=referencia) (flt "0") 9 cuerpo_ab
       (trabajador modelo_truncado) = (Ok tt, self')
     ∧ Consumidor.result_queue self' = []
     ∧ Consumidor.resultados_publicados self' = 0
     ∧ Consumidor.acks self' = [] ++ [9]
     ∧ Consumidor.consumir (rt:=referencia) [(flt "0", 9, cuerpo_ab)]
         (trabajador modelo_truncado)
       = Consumidor.consumir (rt:=referencia) [] self').
Proof.
  split; [|split].
  - apply (evaluacion_fallida_se_descarta (rt:=referencia)
             (trabajador modelo_division) (flt "0") 7 cuerpo_ab escenario_ab
             "a / b" ZeroDivisionError []);
      [by vm_compute | by vm_compute | by vm_compute | tauto].
  - apply (evaluacion_fallida_se_descarta (rt:=referencia)
             (trabajador modelo_sin_ligar) (flt "0") 8 cuerpo_ab escenario_ab
             "a + z" NameError []);
      [by vm_compute | by vm_compute | by vm_compute | tauto].
  - apply (evaluacion_fallida_se_descarta (rt:=referencia)
             (trabajador modelo_truncado) (flt "0") 9 cuerpo_ab escenario_ab
             "a +" SyntaxError []);
      [by vm_compute | by vm_compute | by vm_compute | tauto].
Defined.

(** ** Acknowledgements in the collector (colector.py) *)

Section Acuses.
Context {rt : Runtime}.
Import Colector.

(** A message that cannot be read changes nothing but the list of
    rejected deliveries. *)
Lemma mensaje_ilegible (f : fallos) (ts : string) (tag : Z) (cuerpo : string)
  (st : colector) (e : exn) :
  leer_mensaje ts cuerpo = Raise e →
  is_Exception e = true →
  _procesar_resultado f ts tag cuerpo st = basic_nack f tag st.
Proof.
  intros Hm He. unfold _procesar_resultado, try_except, cuerpo_try.
  unfold mbind, M_bind, lift. by rewrite Hm, He.
Qed.

(** The state after each of the six ways a delivery of a readable message
    can go. *)
Lemma mensaje_legible (f : fallos) (ts : string) (tag : Z) (cuerpo : string)
  (st : colector) (w r : pyval) (l : linea) :
  leer_mensaje ts cuerpo = Ok (w, r, l) →
  _procesar_resultado f ts tag cuerpo st =
    if falla_write f then basic_nack f tag st
    else if falla_flush f then
      basic_nack f tag
        {| buffer := buffer st ++ [l]; archivo := archivo st;
           resultados := resultados st;
           dashboard_queue := dashboard_queue st;
           acks := acks st; nacks := nacks st |}
    else if falla_publish f then
      basic_nack f tag
        {| buffer := []; archivo := archivo st ++ buffer st ++ [l];
           resultados := resultados st ++ [r];
           dashboard_queue := dashboard_queue st;
           acks := acks st; nacks := nacks st |}
    else if falla_ack f then
      basic_nack f tag
        {| buffer := []; archivo := archivo st ++ buffer st ++ [l];
           resultados := resultados st ++ [r];
           dashboard_queue := dashboard_queue st ++ [msg_dashboard w r ts];
           acks := acks st; nacks := nacks st |}
    else
      (Ok tt,
        {| buffer := []; archivo := archivo st ++ buffer st ++ [l];
           resultados := resultados st ++ [r];
           dashboard_queue := dashboard_queue st ++ [msg_dashboard w r ts];
           acks := acks st ++ [tag]; nacks := nacks st |}).
Proof.
  intros Hm. unfold _procesar_resultado, try_except, cuerpo_try.
  unfold mbind, M_bind, lift. rewrite Hm. simpl.
  unfold write, flush, basic_publish, basic_ack, append.
  destruct (falla_write f); simpl; [done|].
  destruct (falla_flush f); simpl; [done|].
  destruct (falla_publish f); simpl; [done|].
  by destruct (falla_ack f).
Qed.

Lemma basic_nack_acks (f : fallos) (tag : Z) (st : colector) :
  acks (snd (basic_nack f tag st)) = acks st
  ∧ archivo (snd (basic_nack f tag st)) = archivo st
  ∧ buffer (snd (basic_nack f tag st)) = buffer st
  ∧ resultados (snd (basic_nack f tag st)) = resultados st
  ∧ dashboard_queue (snd (basic_nack f tag st)) = dashboard_queue st.
Proof. unfold basic_nack. by destruct (falla_nack f). Qed.

Lemma basic_nack_ok (f : fallos) (tag : Z) (st : colector) :
  falla_nack f = false →
  fst (basic_nack f tag st) = Ok tt
  ∧ nacks (snd (basic_nack f tag st)) = nacks st ++ [tag].
Proof. unfold basic_nack. by intros ->. Qed.

(** C2, as the code has it.
    - A delivery is acknowledged only when its message could be read and
      the line has been written and flushed, the result appended to the
      results in memory and the projection published.
    - If the write, the flush, the publication or the acknowledgement
      itself raises, the delivery is not acknowledged, and it is rejected
      (unless the rejection raises too).
    - Nothing is rolled back: once the write and the flush have gone
      through, the line is in the file and the result in memory whatever
      happens to the publication and the acknowledgement. *)
Theorem acuse_tras_los_tres_pasos (f : fallos) (ts : string) (tag : Z)
  (cuerpo : string) (st : colector) :
  let res := _procesar_resultado f ts tag cuerpo st in
  (acks (snd res) ≠ acks st →
     ∃ w r l,
       leer_mensaje ts cuerpo = Ok (w, r, l)
       ∧ fst res = Ok tt
       ∧ acks (snd res) = acks st ++ [tag]
       ∧ nacks (snd res) = nacks st
       ∧ archivo (snd res) = archivo st ++ buffer st ++ [l]
       ∧ buffer (snd res) = []
       ∧ resultados (snd res) = resultados st ++ [r]
       ∧ dashboard_queue (snd res)
         = dashboard_queue st ++ [msg_dashboard w r ts])
  ∧ (∀ w r l,
     leer_mensaje ts cuerpo = Ok (w, r, l) →
     falla_write f || falla_flush f || falla_publish f || falla_ack f = true →
     acks (snd res) = acks st
     ∧ (falla_nack f = false →
        fst res = Ok tt ∧ nacks (snd res) = nacks st ++ [tag]))
  ∧ (∀ w r l,
     leer_mensaje ts cuerpo = Ok (w, r, l) →
     falla_write f = false → falla_flush f = false →
     archivo (snd res) = archivo st ++ buffer st ++ [l]
     ∧ resultados (snd res) = resultados st ++ [r]).
Proof.
  intros res. subst res.
  destruct (leer_mensaje ts cuerpo) as [[[w r] l]|e] eqn:Hm.
  - rewrite (mensaje_legible f ts tag cuerpo st w r l Hm).
    destruct (falla_write f) eqn:Hw; [|destruct (falla_flush f) eqn:Hf;
      [|destruct (falla_publish f) eqn:Hp; [|destruct (falla_ack f) eqn:Ha]]];
      simpl.
    1-4: match goal with
         | |- context [basic_nack ?f ?t ?s] =>
             pose proof (basic_nack_acks f t s)
               as (Hacks & Harch & _ & Hres & _);
             pose proof (basic_nack_ok f t s) as Hok
         end; simpl in *.
    1-4: split; [by intros Hne|split; [by intros ? ? ? [= <- <- <-] _|]].
    1-2: by intros ? ? ? _ ? ?.
    1-2: intros ? ? ? [= <- <- <-] _ _; by rewrite Harch, Hres.
    split; [intros _; by exists w, r, l|].
    split; [by intros ? ? ? _ ?|by intros ? ? ? [= <- <- <-] _ _].
  - split; [|by split].
    intros Hne. exfalso. apply Hne.
    destruct (is_Exception e) eqn:He.
    + rewrite (mensaje_ilegible f ts tag cuerpo st e Hm He).
      by destruct (basic_nack_acks f tag st) as [-> _].
    + unfold _procesar_resultado, try_except, cuerpo_try.
      unfold mbind, M_bind, lift. by rewrite Hm, He.
Qed.

End Acuses.

Lemma acuse_tras_los_tres_pasos_witness :
  let res :=
    Colector._procesar_resultado (rt:=referencia) falla_al_publicar
      "12:00:00" 1 cuerpo_resultado colector_inicial in
  (Colector.acks (snd res) = []
   ∧ fst res = Ok tt ∧ Colector.nacks (snd res) = [] ++ [1])
  ∧ Colector.archivo (snd res) = [] ++ [] ++ [linea_resultado]
  ∧ Colector.resultados (snd res) = [] ++ [VFloat (flt "5.5")].
Proof.
  intros res.
  destruct (acuse_tras_los_tres_pasos (rt:=referencia) falla_al_publicar
              "12:00:00" 1 cuerpo_resultado colector_inicial)
    as (_ & Hfalla & Hqueda).
  destruct (Hfalla (VStr "VM1") (VFloat (flt "5.5")) linea_resultado)
    as (Hacks & Hnack); [by vm_compute|reflexivity|].
  destruct (Hqueda (VStr "VM1") (VFloat (flt "5.5")) linea_resultado)
    as (Harch & Hres); [by vm_compute|reflexivity|reflexivity|].
  split; [|by split].
  split; [exact Hacks|]. apply Hnack. reflexivity.
Defined.

(** C2 as the specification words it fails in its last part: the effects
    of a record are not all-or-nothing. When the publication on
    [dashboard_queue] raises, the delivery is rejected and not
    acknowledged, yet the line stays in the file and the result in
    memory. *)
Lemma registro_fallido_deja_rastro :
  let res :=
    Colector._procesar_resultado (rt:=referencia) falla_al_publicar
      "12:00:00" 1 cuerpo_resultado colector_inicial in
  fst res = Ok tt
  ∧ Colector.acks (snd res) = []
  ∧ Colector.nacks (snd res) = [1]
  ∧ Colector.dashboard_queue (snd res) = []
  ∧ Colector.archivo (snd res) = [linea_resultado]
  ∧ Colector.resultados (snd res) = [VFloat (flt "5.5")]
  ∧ snd res ≠ colector_inicial.
Proof. vm_compute. repeat split. discriminate. Qed.

(** ** The bounded history of the dashboard (dashboard.py) *)

Section Historial.
Import Dashboard.

Lemma valores_de_app (w : string) (rs1 rs2 : list (string * pyval)) :
  valores_de w (rs1 ++ rs2) = valores_de w rs1 ++ valores_de w rs2.
Proof.
  induction rs1 as [|[w' r] rs1 IH]; simpl; [done|].
  destruct (String.eqb w' w); simpl; by rewrite IH.
Qed.

Lemma length_ultimos {A} (n : nat) (l : list A) :
  (length (ultimos n l) ≤ n)%nat.
Proof. unfold ultimos. rewrite length_drop. lia. Qed.

(** Appending to the last 200 and trimming gives the last 200 of the
    longer list. *)
Lemma recortar_ultimos (l : list pyval) (r : pyval) :
  recortar (ultimos 200 l ++ [r]) = ultimos 200 (l ++ [r]).
Proof.
  unfold recortar, ultimos.
  rewrite !length_app, length_drop. simpl.
  destruct (decide (length l < 200)%nat) as [Hlt|Hge].
  - replace (length l - 200)%nat with O by lia.
    replace (length l + 1 - 200)%nat with O by lia.
    rewrite !drop_0.
    destruct (200 <? length l - 0 + 1)%nat eqn:E; [|done].
    apply Nat.ltb_lt in E. lia.
  - destruct (200 <? length l - (length l - 200) + 1)%nat eqn:E.
    + rewrite drop_app_le by (rewrite length_drop; lia).
      rewrite drop_drop.
      rewrite (drop_app_le l) by lia.
      f_equal. f_equal. lia.
    + apply Nat.ltb_ge in E. lia.
Qed.

(** What one call does to the entry of each worker. *)
Lemma agregar_resultado_lookup (w w' : string) (r : pyval)
  (datos : gmap string info) :
  agregar_resultado w r datos !! w' =
    if decide (w = w') then
      Some {| color :=
                match datos !! w with
                | Some d => color d
                | None =>
                    default (0, 0, 0)
                      (COLOR_LINEAS !! (size datos mod length COLOR_LINEAS)%nat)
                end;
              historial :=
                recortar (match datos !! w with
                          | Some d => historial d
                          | None => []
                          end ++ [r]);
              conteo :=
                match datos !! w with
                | Some d => conteo d
                | None => 0
                end + 1;
              ultimo := r |}
    else datos !! w'.
Proof.
  unfold agregar_resultado.
  destruct (datos !! w) as [d|] eqn:E.
  - rewrite E. rewrite lookup_insert. by case_decide.
  - rewrite lookup_insert_eq. rewrite lookup_insert. case_decide; [done|].
    by rewrite lookup_insert_ne.
Qed.

(** The invariant of the store: each entry holds the last 200 results of
    its worker, and a worker without an entry has sent none. *)
Lemma recibir_historial (rs : list (string * pyval)) (w : string) :
  match recibir rs ∅ !! w with
  | Some d => historial d = ultimos 200 (valores_de w rs)
  | None => valores_de w rs = []
  end.
Proof.
  induction rs as [|[w' r] rs IH] using rev_ind.
  - unfold recibir. simpl. by rewrite lookup_empty.
  - unfold recibir in *. rewrite fold_left_app. simpl.
    rewrite agregar_resultado_lookup, valores_de_app. simpl.
    case_decide as Hw.
    + subst w'. rewrite String.eqb_refl. simpl.
      destruct (fold_left _ rs ∅ !! w) as [d|].
      * rewrite IH. apply recortar_ultimos.
      * rewrite IH. by vm_compute.
    + apply String.eqb_neq in Hw. rewrite Hw, app_nil_r. apply IH.
Qed.

(** C9: after any sequence of results the history kept for a worker has
    at most 200 samples; it is made of the last 200 results of that worker
    in the order of arrival; and the next result of that worker is added
    at the end, the oldest sample leaving when the history was full. *)
Theorem historial_acotado (rs : list (string * pyval)) (w : string)
  (d : info) :
  recibir rs ∅ !! w = Some d →
  (length (historial d) ≤ 200)%nat
  ∧ historial d = ultimos 200 (valores_de w rs)
  ∧ ∀ r, ∃ d',
      recibir (rs ++ [(w, r)]) ∅ !! w = Some d'
      ∧ historial d' =
          (if (length (historial d) =? 200)%nat
           then drop 1 (historial d) else historial d) ++ [r].
Proof.
  intros Hd. pose proof (recibir_historial rs w) as Hinv.
  rewrite Hd in Hinv.
  assert (Hlen : (length (historial d) ≤ 200)%nat).
  { rewrite Hinv. apply length_ultimos. }
  split; [done|]. split; [done|].
  intros r. unfold recibir in *. rewrite fold_left_app. simpl.
  rewrite agregar_resultado_lookup, decide_True by done.
  rewrite Hd. eexists. split; [done|]. simpl.
  unfold recortar. rewrite length_app. simpl.
  destruct (length (historial d) =? 200)%nat eqn:E.
  - apply Nat.eqb_eq in E. rewrite E. simpl.
    destruct (historial d); [done|]. simpl. by rewrite drop_0.
  - apply Nat.eqb_neq in E.
    destruct (200 <? length (historial d) + 1)%nat eqn:E'; [|done].
    apply Nat.ltb_lt in E'. lia.
Qed.

End Historial.

Lemma historial_acotado_witness :
  (length (Dashboard.historial info_201) ≤ 200)%nat
  ∧ Dashboard.historial info_201 = ultimos 200 (valores_de "VM1" resultados_201)
  ∧ ∀ r, ∃ d',
      Dashboard.recibir (resultados_201 ++ [("VM1", r)]) ∅ !! "VM1" = Some d'
      ∧ Dashboard.historial d' =
          (if (length (Dashboard.historial info_201) =? 200)%nat
           then drop 1 (Dashboard.historial info_201)
           else Dashboard.historial info_201) ++ [r].
Proof.
  apply (historial_acotado resultados_201 "VM1" info_201).
  by vm_compute.
Defined.

(** ** Loading a model (productor.py) *)

Section Lectura.
Context {rt : Runtime}.
Import Productor.

(** C4, as the code has it: the JSON decoder is tried first on the
    stripped text. When it returns a value, that value is the model; when
    it raises [JSONDecodeError], and only then, the outcome is the outcome
    of the line-oriented parser on the same text; when it raises anything
    else, the load ends with that exception, the line-oriented parser is
    not tried and the object keeps its model; and a model that is
    returned is, whole, the value of one of the two parsers, the one
    stored in the object. *)
Theorem leer_modelo_un_solo_analizador (texto : string) (self : productor) :
  let contenido := strip texto in
  let res := leer_modelo (Some texto) self in
  (∀ m, json_loads contenido = Ok m → res = (Ok m, {| modelo := m |}))
  ∧ (json_loads contenido = Raise JSONDecodeError →
     fst res = _parsear_modelo contenido
     ∧ modelo (snd res) =
         match _parsear_modelo contenido with
         | Ok m => m
         | Raise _ => modelo self
         end)
  ∧ (∀ e, json_loads contenido = Raise e → e ≠ JSONDecodeError →
     res = (Raise e, self))
  ∧ (∀ m, fst res = Ok m →
     modelo (snd res) = m
     ∧ (json_loads contenido = Ok m
        ∨ (json_loads contenido = Raise JSONDecodeError
           ∧ _parsear_modelo contenido = Ok m))).
Proof.
  intros contenido res. subst res. unfold leer_modelo. fold contenido.
  split; [|split; [|split]].
  - by intros m ->.
  - intros ->. simpl. by destruct (_parsear_modelo contenido).
  - intros e -> He. by destruct e.
  - intros m. destruct (json_loads contenido) as [m'|e] eqn:Hj; simpl.
    + intros [= ->]. by auto.
    + destruct e; simpl; try discriminate.
      destruct (_parsear_modelo contenido) as [m'|e'] eqn:Hp; simpl;
        [|discriminate].
      intros [= ->]. by auto.
Qed.

End Lectura.

(** The same model read from its two forms on the reference runtime, and
    a text on which the decoder raises the [ValueError] of [int]. *)
Lemma leer_modelo_un_solo_analizador_witness :
  Productor.leer_modelo (rt:=referencia) (Some texto_json) Productor.nuevo
    = (Ok modelo_abc, {| Productor.modelo := modelo_abc |})
  ∧ fst (Productor.leer_modelo (rt:=referencia) (Some texto_dsl)
           Productor.nuevo)
    = Productor._parsear_modelo (strip texto_dsl)
  ∧ Productor._parsear_modelo (strip texto_dsl) = Ok modelo_abc
  ∧ Productor.leer_modelo (rt:=referencia) (Some texto_entero_largo)
      Productor.nuevo
    = (Raise ValueError, Productor.nuevo).
Proof.
  pose proof (leer_modelo_un_solo_analizador (rt:=referencia) texto_json
                Productor.nuevo) as (Hjson & _ & _).
  pose proof (leer_modelo_un_solo_analizador (rt:=referencia) texto_dsl
                Productor.nuevo) as (_ & Hdsl & _).
  pose proof (leer_modelo_un_solo_analizador (rt:=referencia)
                texto_entero_largo Productor.nuevo) as (_ & _ & Hotro & _).
  split; [|split; [|split]].
  - apply Hjson. by vm_compute.
  - apply Hdsl. by vm_compute.
  - by vm_compute.
  - apply (Hotro ValueError).
    + by vm_compute.
    + discriminate.
Defined.

(** C4 as the specification words it fails: the fallback is not taken
    whenever the structured parse fails. On a text that is one integer of
    4301 digits the decoder raises [ValueError], which is not a
    [JSONDecodeError]; the line-oriented parser would return a model for
    this text, yet the load raises and no model is read. *)
Lemma fallo_sin_respaldo :
  Json.loads (strip texto_entero_largo) = Raise ValueError
  ∧ Productor._parsear_modelo (strip texto_entero_largo)
    = Ok (VDict [("model", VNone); ("constants", VDict []);
                 ("distributions", VDict [])])
  ∧ Productor.leer_modelo (rt:=referencia) (Some texto_entero_largo)
      Productor.nuevo
    = (Raise ValueError, Productor.nuevo)
  ∧ fst (Productor.leer_modelo (rt:=referencia) (Some texto_entero_largo)
           Productor.nuevo)
    ≠ Productor._parsear_modelo (strip texto_entero_largo).
Proof. split_and!; by vm_compute. Qed.

(** ** The line-oriented form of a model (productor.py) *)

Section Lineas.
Import Productor.

Lemma py_float_error (s : string) (e : exn) :
  py_float s = Raise e → e = ValueError.
Proof.
  unfold py_float.
  destruct (sign (strip_num s)) as [neg body].
  destruct (_ || _); [done|]. destruct (String.eqb _ _); [done|].
  destruct (break_at _ body) as [ms es].
  destruct (mantissa ms) as [[m nfrac]|]; [|congruence].
  destruct es as [et|]; [|done].
  destruct (sign et) as [eneg ebody].
  destruct (digitpart 0 0 SeenNothing ebody) as [[? ?]|]; [done|congruence].
Qed.

(** A line that is not a [model:] line leaves the formula as it was. *)
Lemma parsear_linea_model (secs secs' : secciones) (a a' : option seccion)
  (linea : string) :
  startswith (strip linea) "model:" = false →
  parsear_linea (secs, a) linea = Ok (secs', a') →
  model secs' = model secs.
Proof.
  intros Hm. unfold parsear_linea. rewrite Hm.
  destruct (_ || _); [by intros [= <- _]|].
  destruct (startswith _ "constants:"); [by intros [= <- _]|].
  destruct (startswith _ "distributions:"); [by intros [= <- _]|].
  destruct (es_constants a && _).
  { destruct (split "=" _) as [|k [|v [|? ?]]]; try done.
    destruct (py_float (strip v)); simpl; [by intros [= <- _]|done]. }
  destruct (es_distributions a && _); [|by intros [= <- _]].
  destruct (split "~" _) as [|k [|v [|? ?]]]; try done.
  by intros [= <- _].
Qed.

Lemma parsear_lineas_model (lineas : list string) (secs secs' : secciones)
  (a a' : option seccion) :
  existsb (fun l => startswith (strip l) "model:") lineas = false →
  parsear_lineas (secs, a) lineas = Ok (secs', a') →
  model secs' = model secs.
Proof.
  revert secs a. induction lineas as [|l ls IH]; intros secs a; simpl.
  - by intros _ [= <- _].
  - intros [Hl Hls]%orb_false_iff.
    destruct (parsear_linea (secs, a) l) as [[secs1 a1]|] eqn:E; simpl;
      [|done].
    intros H. rewrite (IH _ _ Hls H).
    by apply (parsear_linea_model secs secs1 a a1 l).
Qed.

Lemma parsear_lineas_app (st : secciones * option seccion)
  (l1 l2 : list string) :
  parsear_lineas st (l1 ++ l2) =
    match parsear_lineas st l1 with
    | Ok st' => parsear_lineas st' l2
    | Raise e => Raise e
    end.
Proof.
  revert st. induction l1 as [|l l1 IH]; intros st; simpl; [done|].
  destruct (parsear_linea st l); simpl; [apply IH|done].
Qed.

(** In the section of constants, a line with an equals sign that is not
    of the shape [key=value] raises. *)
Lemma constante_mal_formada (secs : secciones) (linea : string) :
  es_dato linea = true →
  contains "=" (strip linea) = true →
  constante_bien_formada linea = false →
  parsear_linea (secs, Some SecConstants) linea = Raise ValueError.
Proof.
  unfold es_dato, constante_bien_formada, parsear_linea.
  intros Hd Hc Hb. apply negb_true_iff in Hd.
  repeat (apply orb_false_iff in Hd as [Hd ?]).
  rewrite Hd. simpl.
  repeat match goal with H : _ = false |- _ => rewrite H end.
  cbn [es_constants andb]. rewrite Hc.
  destruct (split "=" _) as [|k [|v [|? ?]]]; try done.
  destruct (py_float (strip v)) as [|e] eqn:E; [done|].
  by rewrite (py_float_error _ _ E).
Qed.

(** In the section of constants, a line without an equals sign is passed
    over. *)
Lemma constante_suelta (secs : secciones) (linea : string) :
  es_dato linea = true →
  contains "=" (strip linea) = false →
  parsear_linea (secs, Some SecConstants) linea = Ok (secs, Some SecConstants).
Proof.
  unfold es_dato, parsear_linea.
  intros Hd Hc. apply negb_true_iff in Hd.
  repeat (apply orb_false_iff in Hd as [Hd ?]).
  rewrite Hd. simpl.
  repeat match goal with H : _ = false |- _ => rewrite H end.
  done.
Qed.

(** An admissible line never makes the parser raise. *)
Lemma parsear_linea_admisible (st : secciones * option seccion)
  (linea : string) :
  linea_admisible linea = true →
  ∃ st', parsear_linea st linea = Ok st'.
Proof.
  unfold linea_admisible, constante_bien_formada, parsear_linea.
  intros [Hc Hd]%andb_true_iff. destruct st as [secs a].
  destruct (String.eqb (strip linea) EmptyString || startswith _ "#");
    [by eexists|].
  destruct (startswith _ "model:"); [by eexists|].
  destruct (startswith _ "constants:"); [by eexists|].
  destruct (startswith _ "distributions:"); [by eexists|].
  destruct (es_constants a && contains "=" (strip linea)) eqn:E1.
  { apply andb_true_iff in E1 as [_ E1]. rewrite E1 in Hc. simpl in Hc.
    destruct (split "=" _) as [|k [|v [|? ?]]]; try done.
    destruct (py_float (strip v)); [by eexists|done]. }
  destruct (es_distributions a && contains "~" (strip linea)) eqn:E2;
    [|by eexists].
  apply andb_true_iff in E2 as [_ E2]. rewrite E2 in Hd. simpl in Hd.
  destruct (split "~" _) as [|k [|v [|? ?]]]; try done. by eexists.
Qed.

Lemma parsear_lineas_admisibles (st : secciones * option seccion)
  (lineas : list string) :
  forallb linea_admisible lineas = true →
  ∃ st', parsear_lineas st lineas = Ok st'.
Proof.
  revert st. induction lineas as [|l ls IH]; intros st; simpl; [by eexists|].
  intros [Hl Hls]%andb_true_iff.
  destruct (parsear_linea_admisible st l Hl) as [st1 ->]. simpl.
  by apply IH.
Qed.

(** C5, as the code has it.
    - A text without a [model:] line is not refused for that: whenever the
      parser returns a model, its formula is [None]; and it does return
      one when every line is admissible.
    - A line of the constants section that has an equals sign but is not
      [key=value] with a numeral for value makes the parser raise
      [ValueError].
    - A line of the constants section without an equals sign is passed
      over: the outcome is that of the text without the line. *)
Theorem parsear_modelo_sin_validar :
  (∀ texto m,
     tiene_model texto = false →
     _parsear_modelo texto = Ok m →
     py_getitem m "model" = Ok VNone)
  ∧ (∀ texto,
     tiene_model texto = false →
     forallb linea_admisible (splitlines texto) = true →
     ∃ c d,
       _parsear_modelo texto =
         Ok (VDict [("model", VNone); ("constants", VDict c);
                    ("distributions", VDict d)]))
  ∧ (∀ texto antes linea despues secs,
     splitlines texto = antes ++ linea :: despues →
     parsear_lineas secciones_vacias antes = Ok (secs, Some SecConstants) →
     es_dato linea = true →
     contains "=" (strip linea) = true →
     constante_bien_formada linea = false →
     _parsear_modelo texto = Raise ValueError)
  ∧ (∀ texto texto' antes linea despues secs,
     splitlines texto = antes ++ linea :: despues →
     splitlines texto' = antes ++ despues →
     parsear_lineas secciones_vacias antes = Ok (secs, Some SecConstants) →
     es_dato linea = true →
     contains "=" (strip linea) = false →
     _parsear_modelo texto = _parsear_modelo texto').
Proof.
  split; [|split; [|split]].
  - intros texto m Hm. unfold _parsear_modelo.
    destruct (parsear_lineas _ (splitlines texto)) as [[secs a]|] eqn:E;
      simpl; [|done].
    intros [= <-].
    pose proof (parsear_lineas_model _ _ _ _ _ Hm E) as Hmodel.
    simpl in Hmodel. unfold secciones_dict. by rewrite Hmodel.
  - intros texto Hm Hadm. unfold _parsear_modelo.
    destruct (parsear_lineas_admisibles secciones_vacias _ Hadm)
      as [[secs a] E].
    unfold secciones_vacias in E. rewrite E. simpl.
    pose proof (parsear_lineas_model _ _ _ _ _ Hm E) as Hmodel.
    simpl in Hmodel. unfold secciones_dict. rewrite Hmodel. by eauto.
  - intros texto antes linea despues secs Hs Ha Hd Hc Hb.
    unfold _parsear_modelo. rewrite Hs, parsear_lineas_app.
    fold secciones_vacias. rewrite Ha. simpl.
    by rewrite (constante_mal_formada secs linea Hd Hc Hb).
  - intros texto texto' antes linea despues secs Hs Hs' Ha Hd Hc.
    unfold _parsear_modelo. rewrite Hs, Hs', !parsear_lineas_app.
    fold secciones_vacias. rewrite Ha. simpl.
    by rewrite (constante_suelta secs linea Hd Hc).
Qed.

End Lineas.

Lemma parsear_modelo_sin_validar_witness :
  Py.py_getitem
    (VDict [("model", VNone); ("constants", VDict [("c", VFloat (flt "2"))]);
            ("distributions", VDict [])]) "model" = Ok VNone
  ∧ (∃ c d,
       Productor._parsear_modelo texto_sin_model =
         Ok (VDict [("model", VNone); ("constants", VDict c);
                    ("distributions", VDict d)]))
  ∧ Productor._parsear_modelo texto_constante_mala = Raise ValueError
  ∧ Productor._parsear_modelo texto_constante_doble = Raise ValueError
  ∧ Productor._parsear_modelo texto_constante_suelta
    = Productor._parsear_modelo texto_constante_d.
Proof.
  destruct parsear_modelo_sin_validar as (Hmodel & Htotal & Hmala & Hsuelta).
  split; [|split; [|split; [|split]]].
  - apply (Hmodel texto_sin_model); by vm_compute.
  - apply (Htotal texto_sin_model); by vm_compute.
  - apply (Hmala texto_constante_mala ["constants:"] "c = dos" []
             (fst secciones_vacias)); by vm_compute.
  - apply (Hmala texto_constante_doble ["constants:"] "c = 2 = 3" []
             (fst secciones_vacias)); by vm_compute.
  - apply (Hsuelta texto_constante_suelta texto_constante_d
             ["constants:"] "c 2" ["d = 4"] (fst secciones_vacias));
      by vm_compute.
Defined.

(** C5 as the specification words it fails: a text without a [model:]
    line is parsed into a model, whose formula is [None]; and a constants
    line that is not [key=value] is passed over without an error. *)
Lemma sin_model_no_falla :
  Productor._parsear_modelo texto_sin_model
    = Ok (VDict [("model", VNone);
                 ("constants", VDict [("c", VFloat (flt "2"))]);
                 ("distributions", VDict [])])
  ∧ Productor._parsear_modelo texto_constante_suelta
    = Ok (VDict [("model", VNone);
                 ("constants", VDict [("d", VFloat (flt "4"))]);
                 ("distributions", VDict [])]).
Proof. split; by vm_compute. Qed.

(** ** Generating scenarios (productor.py) *)

Section Generacion.
Context {R : Type} {np : Sampler R}.
Import Productor Re.

Lemma evaluable_cons (var : string) (expr : pyval) (items : dict) :
  evaluable ((var, expr) :: items) →
  (∀ g : R, is_Ok (fst (_evaluar_distribucion expr g)) = true)
  ∧ evaluable items.
Proof.
  intros H. split.
  - intros g. apply (H var expr g). by left.
  - intros var' expr' g Hin. apply (H var' expr' g). by right.
Qed.

(** One scenario: every key of the table gets a value, and no other key
    is added. *)
Lemma un_escenario_ok (items escenario : dict) (g : R) :
  evaluable items →
  ∃ escenario' g',
    un_escenario items escenario g = (Ok escenario', g')
    ∧ ∀ key, key ∈ dict_keys escenario'
             ↔ key ∈ dict_keys escenario ∨ key ∈ dict_keys items.
Proof.
  revert escenario g.
  induction items as [|[var expr] items IH]; intros escenario g Hev.
  - exists escenario, g. split; [done|]. intros key. simpl.
    rewrite elem_of_nil. tauto.
  - apply evaluable_cons in Hev as [Hexpr Hev]. simpl.
    specialize (Hexpr g).
    destruct (_evaluar_distribucion expr g) as [[v|e] g1]; [|done].
    destruct (IH (dict_set var (VFloat v) escenario) g1 Hev)
      as (esc' & g' & Hrun & Hkeys).
    exists esc', g'. split; [done|]. intros key.
    rewrite Hkeys, dict_keys_set. simpl. rewrite elem_of_cons. tauto.
Qed.

Lemma escenarios_desde_ok (n : nat) (items : dict) (acc : list dict) (g : R) :
  evaluable items →
  ∃ nuevos g',
    escenarios_desde n (VDict items) acc g = (Ok (acc ++ nuevos), g')
    ∧ length nuevos = n
    ∧ ∀ esc, esc ∈ nuevos →
        ∀ key, key ∈ dict_keys esc ↔ key ∈ dict_keys items.
Proof.
  intros Hev. revert acc g. induction n as [|n IH]; intros acc g.
  - exists [], g. rewrite app_nil_r. split; [done|]. split; [done|].
    intros esc Hin. by apply elem_of_nil in Hin.
  - simpl. destruct (un_escenario_ok items [] g Hev)
      as (esc & g1 & -> & Hkeys).
    destruct (IH (acc ++ [esc]) g1) as (nuevos & g' & -> & Hlen & Hall).
    exists (esc :: nuevos), g'. rewrite <- app_assoc. simpl.
    split; [done|]. split; [by rewrite Hlen|].
    intros esc' [->|Hin]%elem_of_cons key; [|by apply Hall].
    rewrite Hkeys. simpl. rewrite elem_of_nil. tauto.
Qed.

(** The table that is sampled: the entry [variables] of the model when
    it has one, else its entry [distributions], else an empty table. *)
Lemma distros_de_dict (d : dict) :
  distros_de (VDict d) =
    Ok (match dict_get "variables" d with
        | Some v => v
        | None => default (VDict []) (dict_get "distributions" d)
        end).
Proof. unfold distros_de. simpl. by destruct (dict_get "variables" d). Qed.

(** No turn of the loop is taken for a count that is not positive. *)
Lemma generar_escenarios_no_positivo (d : dict) (k : Z) (g : R) :
  k ≤ 0 →
  generar_escenarios {| modelo := VDict d |} k g = (Ok [], g).
Proof.
  intros Hk. unfold generar_escenarios. simpl modelo.
  rewrite distros_de_dict. by replace (Z.to_nat k) with O by lia.
Qed.

(** C6, as the code has it. When every entry of the table that is
    sampled can be sampled, generation with a count [k ≥ 0] returns
    exactly [k] scenarios, each with a value for every key of that table
    and for no other key. With count 0 it returns the empty list for
    every model that is a dictionary. The table is the entry [variables]
    of the model when there is one, and the entry [distributions]
    otherwise. *)
Theorem generar_escenarios_cantidad :
  (∀ (self : productor) (items : dict) (k : Z) (g : R),
     0 ≤ k →
     distros_de (modelo self) = Ok (VDict items) →
     evaluable items →
     ∃ escenarios g',
       generar_escenarios self k g = (Ok escenarios, g')
       ∧ length escenarios = Z.to_nat k
       ∧ ∀ esc, esc ∈ escenarios →
           ∀ key, is_Some (dict_get key esc) ↔ key ∈ dict_keys items)
  ∧ (∀ (d : dict) (g : R),
     generar_escenarios {| modelo := VDict d |} 0 g = (Ok [], g))
  ∧ (∀ d : dict,
     distros_de (VDict d) =
       Ok (match dict_get "variables" d with
           | Some v => v
           | None => default (VDict []) (dict_get "distributions" d)
           end)).
Proof.
  split; [|split].
  - intros self items k g Hk Hd Hev. unfold generar_escenarios. rewrite Hd.
    destruct (escenarios_desde_ok (Z.to_nat k) items [] g Hev)
      as (nuevos & g' & Hrun & Hlen & Hall).
    exists nuevos, g'. split; [done|]. split; [done|].
    intros esc Hin key. rewrite dict_get_is_Some. by apply Hall.
  - intros d g. by apply generar_escenarios_no_positivo.
  - apply distros_de_dict.
Qed.

(** The producer does not look at the parameters of a distribution. Once
    the text matches a pattern and its arguments read as floats, the
    outcome of the evaluation is the outcome of the sampling library on
    those floats, a sample or the library's own exception. *)
Lemma evaluar_distribucion_de_biblioteca (s : string) (g : R) :
  (∀ ta tb a b,
     re_match p_uniform s = Some [ta; tb] →
     py_float ta = Ok a → py_float tb = Ok b →
     _evaluar_distribucion (VStr s) g = np_uniform a b g)
  ∧ (∀ tmu tsigma mu sigma,
     re_match p_uniform s = None →
     re_match p_normal s = Some [tmu; tsigma] →
     py_float tmu = Ok mu → py_float tsigma = Ok sigma →
     _evaluar_distribucion (VStr s) g = np_normal mu sigma g)
  ∧ (∀ t1 t2 t3 izq pico der,
     re_match p_uniform s = None →
     re_match p_normal s = None →
     re_match p_triangular s = Some [t1; t2; t3] →
     py_float t1 = Ok izq → py_float t2 = Ok pico → py_float t3 = Ok der →
     _evaluar_distribucion (VStr s) g = np_triangular izq pico der g).
Proof.
  unfold _evaluar_distribucion, forma_lista, forma_texto.
  split; [|split].
  - intros ta tb a b -> -> ->. done.
  - intros tmu tsigma mu sigma -> -> -> ->. done.
  - intros t1 t2 t3 izq pico der -> -> -> -> -> ->. done.
Qed.

(** The evaluation of a list raises [TypeError] as soon as its first
    element is not the word for the constant kind. *)
Lemma lista_no_constante (x v : pyval) (g : R) :
  eq_str x "constante" = false →
  _evaluar_distribucion (VList [x; v]) g = (Raise TypeError, g).
Proof.
  intros Hx. unfold _evaluar_distribucion, forma_lista. by rewrite Hx.
Qed.

Lemma un_escenario_app (antes resto : dict) (escenario : dict) (g : R) :
  un_escenario (antes ++ resto) escenario g =
    match un_escenario antes escenario g with
    | (Ok escenario', g') => un_escenario resto escenario' g'
    | (Raise e, g') => (Raise e, g')
    end.
Proof.
  revert escenario g. induction antes as [|[var expr] antes IH];
    intros escenario g; simpl; [done|].
  destruct (_evaluar_distribucion expr g) as [[v|e] g1]; [apply IH|done].
Qed.

(** C10: a distribution given as a two-element list whose first element
    is not the word for the constant kind raises [TypeError], where a text
    that matches none of the four patterns raises [ValueError]; and
    generation of one or more scenarios for a model that has such an entry
    raises that [TypeError] when the entries before it can be sampled. *)
Theorem lista_no_constante_TypeError (x v : pyval) (g : R) :
  eq_str x "constante" = false →
  _evaluar_distribucion (VList [x; v]) g = (Raise TypeError, g)
  ∧ (∀ s,
     re_match p_uniform s = None → re_match p_normal s = None →
     re_match p_triangular s = None → re_match p_constante s = None →
     _evaluar_distribucion (VStr s) g = (Raise ValueError, g))
  ∧ (∀ (self : productor) (antes resto : dict) (var : string) (k : Z)
       (g0 g1 : R) (parcial : dict),
     0 < k →
     distros_de (modelo self)
       = Ok (VDict (antes ++ (var, VList [x; v]) :: resto)) →
     un_escenario antes [] g0 = (Ok parcial, g1) →
     generar_escenarios self k g0 = (Raise TypeError, g1)).
Proof.
  intros Hx. split; [by apply lista_no_constante|]. split.
  - intros s H1 H2 H3 H4.
    unfold _evaluar_distribucion, forma_lista, forma_texto.
    by rewrite H1, H2, H3, H4.
  - intros self antes resto var k g0 g1 parcial Hk Hd Hantes.
    unfold generar_escenarios. rewrite Hd.
    destruct (Z.to_nat k) as [|n] eqn:E; [lia|]. simpl.
    rewrite un_escenario_app, Hantes. simpl.
    by rewrite (lista_no_constante x v g1 Hx).
Qed.

Lemma py_int_error (s : string) (e : exn) :
  py_int s = Raise e → e = ValueError.
Proof.
  unfold py_int. destruct (sign (strip_num s)) as [neg body].
  destruct (digitpart 0 0 SeenNothing body) as [[v n]|]; [|congruence].
  destruct (MAX_STR_DIGITS <? n)%nat; [congruence|done].
Qed.

Lemma digit_cota (c : ascii) (d : Z) : digit c = Some d → 0 ≤ d ≤ 9.
Proof.
  unfold digit. destruct (_ && _) eqn:E; [|done]. intros [= <-].
  apply andb_true_iff in E as [H1 H2]. lia.
Qed.

(** A run of [m] digits reads as a number below [10 ^ m]. *)
Lemma digitpart_cota (s : string) (acc : Z) (n : nat) (p : seen) (v : Z)
  (m : nat) :
  digitpart acc n p s = Some (v, m) →
  0 ≤ acc < 10 ^ Z.of_nat n →
  0 ≤ v < 10 ^ Z.of_nat m.
Proof.
  revert acc n p. induction s as [|c s IH]; intros acc n p; simpl.
  - destruct p; try done. by intros [= <- <-].
  - destruct (digit c) as [d|] eqn:Ed.
    + intros H Hacc. apply (IH _ _ _ H). apply digit_cota in Ed.
      rewrite Nat2Z.inj_succ, Z.pow_succ_r by lia. lia.
    + destruct (Ascii.eqb c "_"); [|done]. destruct p; try done.
      intros H Hacc. by apply (IH _ _ _ H).
Qed.

(** C7, as the code has it: a blank answer and an answer that [int] does
    not accept, because it is not an integer numeral or because it has
    more than 4300 digits, give the count 100; an integer numeral that
    [int] accepts, which has at most 4300 digits, gives its value,
    positive or not; and a count that is not positive generates no
    scenario. *)
Theorem cantidad_por_defecto (entrada : string) :
  (strip entrada = EmptyString → leer_cantidad entrada = Ok 100)
  ∧ (∀ e, py_int entrada = Raise e → leer_cantidad entrada = Ok 100)
  ∧ (∀ n, strip entrada ≠ EmptyString →
     py_int entrada = Ok n → leer_cantidad entrada = Ok n)
  ∧ (∀ n, py_int entrada = Ok n → Z.abs n < 10 ^ Z.of_nat MAX_STR_DIGITS)
  ∧ (∀ n (d : dict) (g : R),
     n ≤ 0 → generar_escenarios {| modelo := VDict d |} n g = (Ok [], g)).
Proof.
  split; [|split; [|split; [|split]]].
  - unfold leer_cantidad. by intros ->.
  - unfold leer_cantidad. intros e He. rewrite He, (py_int_error _ _ He).
    simpl. by destruct (String.eqb _ _).
  - unfold leer_cantidad. intros n Hne ->. apply String.eqb_neq in Hne.
    by rewrite Hne.
  - intros n. unfold py_int.
    destruct (sign (strip_num entrada)) as [neg body].
    destruct (digitpart 0 0 SeenNothing body) as [[v m]|] eqn:E; [|done].
    destruct (MAX_STR_DIGITS <? m)%nat eqn:Em; [done|]. intros [= <-].
    apply Nat.ltb_ge in Em.
    apply digitpart_cota in E; [|simpl; lia].
    assert (10 ^ Z.of_nat m ≤ 10 ^ Z.of_nat MAX_STR_DIGITS)
      by (apply Z.pow_le_mono_r; lia).
    destruct neg; lia.
  - intros n d g Hn. by apply generar_escenarios_no_positivo.
Qed.

End Generacion.

(** ** The parameters of a distribution (productor.py) *)

Section Parametros.
Context {R : Type} {bg : Numpy.BitGen R}.
Import Productor Re.

(** C3, as the code has it: the producer has no check of its own on the
    parameters of a distribution, and what is refused is what the
    sampling library refuses, with its [ValueError] and without a draw.
    - [uniform(a, b)] is not refused whatever the order of [a] and [b]:
      when [b - a] is finite the sample [a + (b - a) * u] is returned.
    - [normal(mu, sigma)] is refused when [sigma] is negative, the
      negative zero included, and only then: with [sigma = 0] the sample
      [mu + sigma * x] is returned.
    - [triangular(low, mode, high)] is refused when [mode < low], when
      [high < mode] and when [low = high], and only then. *)
Theorem evaluar_distribucion_parametros (s : string) (g : R) :
  (∀ ta tb a b,
     re_match p_uniform s = Some [ta; tb] →
     py_float ta = Ok a → py_float tb = Ok b →
     Numpy.isfinite (Numpy.fsub b a) = true →
     _evaluar_distribucion (np:=Numpy.legacy) (VStr s) g
     = (Ok (Numpy.fadd a
              (Numpy.fmul (Numpy.fsub b a) (fst (Numpy.next_double g)))),
        snd (Numpy.next_double g)))
  ∧ (∀ tmu tsigma mu sigma,
     re_match p_uniform s = None →
     re_match p_normal s = Some [tmu; tsigma] →
     py_float tmu = Ok mu → py_float tsigma = Ok sigma →
     _evaluar_distribucion (np:=Numpy.legacy) (VStr s) g
     = if Numpy.negativo sigma then (Raise ValueError, g)
       else (Ok (Numpy.fadd mu
                   (Numpy.fmul sigma (fst (Numpy.legacy_gauss g)))),
             snd (Numpy.legacy_gauss g)))
  ∧ (∀ t1 t2 t3 izq pico der,
     re_match p_uniform s = None →
     re_match p_normal s = None →
     re_match p_triangular s = Some [t1; t2; t3] →
     py_float t1 = Ok izq → py_float t2 = Ok pico → py_float t3 = Ok der →
     if SFltb pico izq || SFltb der pico || SFeqb izq der
     then _evaluar_distribucion (np:=Numpy.legacy) (VStr s) g
          = (Raise ValueError, g)
     else is_Ok (fst (_evaluar_distribucion (np:=Numpy.legacy) (VStr s) g))
          = true).
Proof.
  destruct (evaluar_distribucion_de_biblioteca (np:=Numpy.legacy) s g)
    as (Hu & Hn & Ht).
  split; [|split].
  - intros ta tb a b Hm Ha Hb Hfin. rewrite (Hu ta tb a b Hm Ha Hb).
    cbn [np_uniform Numpy.legacy]. unfold Numpy.uniform. rewrite Hfin.
    by destruct (Numpy.next_double g).
  - intros tmu tsigma mu sigma H1 Hm Hmu Hsigma.
    rewrite (Hn tmu tsigma mu sigma H1 Hm Hmu Hsigma).
    cbn [np_normal Numpy.legacy]. unfold Numpy.normal.
    destruct (Numpy.negativo sigma); [done|].
    by destruct (Numpy.legacy_gauss g).
  - intros t1 t2 t3 izq pico der H1 H2 Hm Hi Hp Hd.
    rewrite (Ht t1 t2 t3 izq pico der H1 H2 Hm Hi Hp Hd).
    cbn [np_triangular Numpy.legacy]. unfold Numpy.triangular.
    destruct (SFltb pico izq); [done|].
    destruct (SFltb der pico); [done|].
    destruct (SFeqb izq der); [done|]. cbn [orb].
    destruct (Numpy.next_double g) as [u g'].
    by destruct (SFleb u _).
Qed.

End Parametros.

Lemma evaluable_abc :
  evaluable (np:=Numpy.legacy (bg:=Numpy.grabado))
    [("a", VStr "uniform(0, 1)"); ("b", VStr "constante(3)")].
Proof.
  intros var expr g [[= -> ->]|[[= -> ->]|Hin]%elem_of_cons]%elem_of_cons.
  - by destruct g.
  - done.
  - by apply elem_of_nil in Hin.
Qed.

Lemma generar_escenarios_cantidad_witness :
  (∃ escenarios g',
     Productor.generar_escenarios (np:=Numpy.legacy)
       {| Productor.modelo := modelo_abc |} 2 [flt "0.5"; flt "0.25"]
     = (Ok escenarios, g')
     ∧ length escenarios = Z.to_nat 2
     ∧ ∀ esc, esc ∈ escenarios →
         ∀ key, is_Some (dict_get key esc) ↔
                key ∈ dict_keys [("a", VStr "uniform(0, 1)");
                                 ("b", VStr "constante(3)")])
  ∧ Productor.generar_escenarios (np:=Numpy.legacy)
      {| Productor.modelo := modelo_abc |} 0 [flt "0.5"]
    = (Ok [], [flt "0.5"]).
Proof.
  destruct (generar_escenarios_cantidad (np:=Numpy.legacy (bg:=Numpy.grabado)))
    as (Hk & H0 & _).
  split.
  - apply Hk; [lia|by vm_compute|apply evaluable_abc].
  - apply H0.
Defined.

(** C6 as the specification words it fails. A model that has an entry
    [variables] is sampled from it: its one scenario has no value for the
    key [y] declared under [distributions]. And a model with a
    distribution of an unknown kind yields no scenario at all for the
    count 1. *)
Lemma escenario_sin_clave_declarada :
  Productor.generar_escenarios (np:=Numpy.legacy)
    {| Productor.modelo := modelo_dos_tablas |} 1 [flt "0.5"]
  = (Ok [[]], [flt "0.5"])
  ∧ Productor.generar_escenarios (np:=Numpy.legacy)
      {| Productor.modelo := modelo_gamma |} 1 [flt "0.5"]
    = (Raise ValueError, [flt "0.5"]).
Proof. split; by vm_compute. Qed.

Lemma cantidad_por_defecto_witness :
  Productor.leer_cantidad "   " = Ok 100
  ∧ Productor.leer_cantidad "muchos" = Ok 100
  ∧ Productor.leer_cantidad texto_entero_largo = Ok 100
  ∧ Productor.leer_cantidad "-5" = Ok (-5)
  ∧ Z.abs (-5) < 10 ^ Z.of_nat MAX_STR_DIGITS
  ∧ Productor.generar_escenarios (np:=Numpy.legacy)
      {| Productor.modelo := VDict [] |} (-5) [flt "0.5"]
    = (Ok [], [flt "0.5"]).
Proof.
  destruct (cantidad_por_defecto (np:=Numpy.legacy (bg:=Numpy.grabado)) "   ")
    as (Hblanco & _).
  destruct (cantidad_por_defecto (np:=Numpy.legacy (bg:=Numpy.grabado))
              "muchos") as (_ & Hmuchos & _).
  destruct (cantidad_por_defecto (np:=Numpy.legacy (bg:=Numpy.grabado))
              texto_entero_largo) as (_ & Hlargo & _).
  destruct (cantidad_por_defecto (np:=Numpy.legacy (bg:=Numpy.grabado)) "-5")
    as (_ & _ & Hmenos & Hcota & Hgen).
  split; [|split; [|split; [|split; [|split]]]].
  - apply Hblanco. by vm_compute.
  - apply (Hmuchos ValueError). by vm_compute.
  - apply (Hlargo ValueError). by vm_compute.
  - apply Hmenos; by vm_compute.
  - apply Hcota. by vm_compute.
  - apply Hgen. lia.
Defined.

(** C7 as the specification words it fails: the answers [-5] and [0] are
    not replaced by 100; they are the counts passed to the generation,
    which then returns no scenario. *)
Lemma cantidad_no_positiva_se_usa :
  Productor.leer_cantidad "-5" = Ok (-5)
  ∧ Productor.leer_cantidad "0" = Ok 0
  ∧ Productor.leer_cantidad "-5" ≠ Ok 100
  ∧ Productor.generar_escenarios (np:=Numpy.legacy)
      {| Productor.modelo := modelo_abc |} (-5) [flt "0.5"]
    = (Ok [], [flt "0.5"]).
Proof. repeat split; by vm_compute. Qed.

Lemma evaluar_distribucion_parametros_witness :
  Productor._evaluar_distribucion (np:=Numpy.legacy (bg:=Numpy.grabado))
    (VStr "uniform(5, 2)") [flt "0.5"]
  = (Ok (Numpy.fadd (flt "5")
           (Numpy.fmul (Numpy.fsub (flt "2") (flt "5"))
              (fst (Numpy.next_double (BitGen:=Numpy.grabado) [flt "0.5"])))),
     snd (Numpy.next_double (BitGen:=Numpy.grabado) [flt "0.5"]))
  ∧ Productor._evaluar_distribucion (np:=Numpy.legacy (bg:=Numpy.grabado))
      (VStr "normal(1, -1)") [flt "0.5"]
    = (if Numpy.negativo (flt "-1") then (Raise ValueError, [flt "0.5"])
       else (Ok (Numpy.fadd (flt "1")
                   (Numpy.fmul (flt "-1")
                      (fst (Numpy.legacy_gauss (BitGen:=Numpy.grabado)
                              [flt "0.5"])))),
             snd (Numpy.legacy_gauss (BitGen:=Numpy.grabado) [flt "0.5"])))
  ∧ Productor._evaluar_distribucion (np:=Numpy.legacy (bg:=Numpy.grabado))
      (VStr "normal(1, 0)") [flt "0.5"]
    = (if Numpy.negativo (flt "0") then (Raise ValueError, [flt "0.5"])
       else (Ok (Numpy.fadd (flt "1")
                   (Numpy.fmul (flt "0")
                      (fst (Numpy.legacy_gauss (BitGen:=Numpy.grabado)
                              [flt "0.5"])))),
             snd (Numpy.legacy_gauss (BitGen:=Numpy.grabado) [flt "0.5"])))
  ∧ Productor._evaluar_distribucion (np:=Numpy.legacy (bg:=Numpy.grabado))
      (VStr "triangular(3, 2, 5)") [flt "0.5"]
    = (Raise ValueError, [flt "0.5"])
  ∧ is_Ok (fst (Productor._evaluar_distribucion
                  (np:=Numpy.legacy (bg:=Numpy.grabado))
                  (VStr "triangular(0, 1, 2)") [flt "0.5"])) = true.
Proof.
  destruct (evaluar_distribucion_parametros (bg:=Numpy.grabado)
              "uniform(5, 2)" [flt "0.5"]) as (Hu & _).
  destruct (evaluar_distribucion_parametros (bg:=Numpy.grabado)
              "normal(1, -1)" [flt "0.5"]) as (_ & Hn & _).
  destruct (evaluar_distribucion_parametros (bg:=Numpy.grabado)
              "normal(1, 0)" [flt "0.5"]) as (_ & Hn0 & _).
  destruct (evaluar_distribucion_parametros (bg:=Numpy.grabado)
              "triangular(3, 2, 5)" [flt "0.5"]) as (_ & _ & Ht).
  destruct (evaluar_distribucion_parametros (bg:=Numpy.grabado)
              "triangular(0, 1, 2)" [flt "0.5"]) as (_ & _ & Ht').
  split; [|split; [|split; [|split]]].
  - apply (Hu "5" "2"); by vm_compute.
  - apply (Hn "1" "-1"); by vm_compute.
  - apply (Hn0 "1" "0"); by vm_compute.
  - apply (Ht "3" "2" "5" (flt "3") (flt "2") (flt "5")); by vm_compute.
  - apply (Ht' "0" "1" "2" (flt "0") (flt "1") (flt "2")); by vm_compute.
Defined.

(** C3 as the specification words it fails: with the legacy generator of
    numpy and the variate 0.5, [uniform(5, 2)] returns the sample 3.5 and
    [normal(1, 0)] returns 1; neither is refused. *)
Lemma parametros_invalidos_dan_muestra :
  Productor._evaluar_distribucion (np:=Numpy.legacy)
    (VStr "uniform(5, 2)") [flt "0.5"] = (Ok (flt "3.5"), [])
  ∧ Productor._evaluar_distribucion (np:=Numpy.legacy)
      (VStr "uniform(2, 2)") [flt "0.5"] = (Ok (flt "2"), [])
  ∧ Productor._evaluar_distribucion (np:=Numpy.legacy)
      (VStr "normal(1, 0)") [flt "0.5"] = (Ok (flt "1"), []).
Proof. repeat split; by vm_compute. Qed.

Lemma lista_no_constante_TypeError_witness :
  Productor._evaluar_distribucion (np:=Numpy.legacy)
    (VList [VStr "uniform"; VInt 3]) [flt "0.5"]
  = (Raise TypeError, [flt "0.5"])
  ∧ Productor._evaluar_distribucion (np:=Numpy.legacy)
      (VStr "gamma(1, 2)") [flt "0.5"]
    = (Raise ValueError, [flt "0.5"])
  ∧ Productor.generar_escenarios (np:=Numpy.legacy)
      {| Productor.modelo := modelo_lista |} 1 [flt "0.5"]
    = (Raise TypeError, [flt "0.5"]).
Proof.
  destruct (lista_no_constante_TypeError
              (np:=Numpy.legacy (bg:=Numpy.grabado))
              (VStr "uniform") (VInt 3) [flt "0.5"])
    as (Hlista & Htexto & Hgen); [by vm_compute|].
  split; [done|]. split.
  - apply Htexto; by vm_compute.
  - apply (Hgen {| Productor.modelo := modelo_lista |}
             [("a", VStr "constante(1)")] [] "b" 1 [flt "0.5"] [flt "0.5"]
             [("a", VFloat (flt "1"))]); [lia|by vm_compute|by vm_compute].
Defined.

(** * Further properties *)

(** ** The counters and the colours of the dashboard (dashboard.py) *)

Section Contadores.
Import Dashboard.

(** The invariant behind the counters: an entry counts every result of
    its worker and remembers the last one. *)
Lemma recibir_conteo (rs : list (string * pyval)) (w : string) :
  match recibir rs ∅ !! w with
  | Some d =>
      conteo d = Z.of_nat (length (valores_de w rs))
      ∧ last (valores_de w rs) = Some (ultimo d)
  | None => valores_de w rs = []
  end.
Proof.
  induction rs as [|[w' r] rs IH] using rev_ind.
  - unfold recibir. simpl. by rewrite lookup_empty.
  - unfold recibir in *. rewrite fold_left_app. simpl.
    rewrite agregar_resultado_lookup, valores_de_app. simpl.
    case_decide as Hw.
    + subst w'. rewrite String.eqb_refl. simpl.
      rewrite length_app, last_snoc. simpl.
      destruct (fold_left _ rs ∅ !! w) as [d|].
      * destruct IH as [-> _]. split; [lia|done].
      * rewrite IH. simpl. by split.
    + apply String.eqb_neq in Hw. rewrite Hw, app_nil_r. apply IH.
Qed.

(** X1: however many results a worker has sent, its entry counts all of
    them, though it keeps only the last 200 in its history, and its last
    value is the latest result of that worker. *)
Theorem conteo_y_ultimo (rs : list (string * pyval)) (w : string) (d : info) :
  recibir rs ∅ !! w = Some d →
  conteo d = Z.of_nat (length (valores_de w rs))
  ∧ last (valores_de w rs) = Some (ultimo d)
  ∧ (length (historial d) = Nat.min 200 (length (valores_de w rs)))%nat.
Proof.
  intros Hd. pose proof (recibir_conteo rs w) as Hc.
  pose proof (recibir_historial rs w) as Hh. rewrite Hd in Hc, Hh.
  destruct Hc as [Hc Hl]. split; [done|]. split; [done|].
  rewrite Hh. unfold ultimos. rewrite length_drop. lia.
Qed.

(** The workers of the store are those that have sent a result. *)
Lemma recibir_dom (rs : list (string * pyval)) :
  dom (recibir rs ∅) = list_to_set (rs.*1).
Proof.
  induction rs as [|[w r] rs IH] using rev_ind.
  - unfold recibir. simpl. by rewrite dom_empty_L.
  - unfold recibir in *. rewrite fold_left_app, fmap_app. simpl.
    rewrite list_to_set_app_L. simpl. rewrite <- IH.
    apply set_eq. intros w'.
    rewrite elem_of_union, !elem_of_dom, agregar_resultado_lookup.
    rewrite elem_of_union, elem_of_singleton, elem_of_empty.
    case_decide as Hw.
    + subst. split; [by auto|]. by eauto.
    + split; [by auto|]. intros [?|[?|[]]]; [done|congruence].
Qed.

Lemma size_list_to_set_remove_dups (l : list string) :
  size (list_to_set (C:=gset string) l) = length (remove_dups l).
Proof.
  rewrite <- (size_list_to_set (C:=gset string) (remove_dups l))
    by apply NoDup_remove_dups.
  f_equal. apply set_eq. intros x.
  by rewrite !elem_of_list_to_set, elem_of_remove_dups.
Qed.

(** The colour of an entry does not change once it is there. *)
Lemma agregar_resultado_color (w w' : string) (r : pyval)
  (datos : gmap string info) (d : info) :
  datos !! w = Some d →
  ∃ d', agregar_resultado w' r datos !! w = Some d' ∧ color d' = color d.
Proof.
  intros Hd. rewrite agregar_resultado_lookup. case_decide as Hw.
  - subst. rewrite Hd. by eexists.
  - by eexists.
Qed.

Lemma recibir_color (rs : list (string * pyval)) (w : string)
  (datos : gmap string info) (d : info) :
  datos !! w = Some d →
  ∃ d', recibir rs datos !! w = Some d' ∧ color d' = color d.
Proof.
  revert datos d. unfold recibir.
  induction rs as [|[w' r] rs IH]; intros datos d Hd; simpl; [by eauto|].
  destruct (agregar_resultado_color w w' r datos d Hd) as (d1 & Hd1 & <-).
  by apply IH.
Qed.

(** X2: the workers of the store are exactly the workers that have sent a
    result; a worker takes its colour when its first result arrives, the
    one of [COLOR_LINEAS] whose index is the number of workers already
    there modulo 6, and keeps it whatever arrives later. *)
Theorem color_por_orden_de_llegada (antes despues : list (string * pyval))
  (w : string) (r : pyval) :
  w ∉ antes.*1 →
  dom (recibir (antes ++ (w, r) :: despues) ∅)
    = list_to_set ((antes ++ (w, r) :: despues).*1)
  ∧ ∃ d,
      recibir (antes ++ (w, r) :: despues) ∅ !! w = Some d
      ∧ COLOR_LINEAS !! (length (remove_dups (antes.*1)) mod 6)%nat
        = Some (color d).
Proof.
  intros Hw. split; [apply recibir_dom|].
  assert (Hnone : recibir antes ∅ !! w = None).
  { apply not_elem_of_dom. rewrite recibir_dom.
    by rewrite elem_of_list_to_set. }
  assert (Hsize : size (recibir antes ∅) = length (remove_dups (antes.*1))).
  { rewrite <- size_dom, recibir_dom. apply size_list_to_set_remove_dups. }
  unfold recibir in *. rewrite fold_left_app. cbn [fold_left fst snd].
  set (datos := fold_left _ antes ∅) in *.
  assert (Hlt : (size datos mod length COLOR_LINEAS < length COLOR_LINEAS)%nat)
    by (apply Nat.mod_upper_bound; simpl; lia).
  destruct (lookup_lt_is_Some_2 COLOR_LINEAS _ Hlt) as [c Hc].
  pose proof (agregar_resultado_lookup w w r datos) as Hl.
  rewrite decide_True, Hnone in Hl by done.
  destruct (recibir_color despues w _ _ Hl) as (d' & Hd' & Hcol).
  exists d'. split; [exact Hd'|]. rewrite Hcol. cbn [color].
  rewrite <- Hsize. change 6%nat with (length COLOR_LINEAS). by rewrite Hc.
Qed.

End Contadores.

Lemma conteo_y_ultimo_witness :
  Dashboard.conteo info_201 = Z.of_nat (length (valores_de "VM1" resultados_201))
  ∧ last (valores_de "VM1" resultados_201) = Some (Dashboard.ultimo info_201)
  ∧ (length (Dashboard.historial info_201)
     = Nat.min 200 (length (valores_de "VM1" resultados_201)))%nat.
Proof.
  apply (conteo_y_ultimo resultados_201 "VM1" info_201). by vm_compute.
Defined.

Lemma color_por_orden_de_llegada_witness :
  dom (Dashboard.recibir (llegadas ++ ("VM3", VInt 4) :: [("VM3", VInt 5)]) ∅)
    = list_to_set ((llegadas ++ ("VM3", VInt 4) :: [("VM3", VInt 5)]).*1)
  ∧ ∃ d,
      Dashboard.recibir (llegadas ++ ("VM3", VInt 4) :: [("VM3", VInt 5)]) ∅
        !! "VM3" = Some d
      ∧ Dashboard.COLOR_LINEAS !! (length (remove_dups (llegadas.*1)) mod 6)%nat
        = Some (Dashboard.color d).
Proof.
  apply (color_por_orden_de_llegada llegadas [("VM3", VInt 5)] "VM3" (VInt 4)).
  vm_compute. intros H. by repeat (apply elem_of_cons in H as [H|H]; [done|]);
    apply elem_of_nil in H.
Defined.

(** ** The snapshot of the dashboard (dashboard.py) *)

Section Instantanea.
Import Dashboard.

Lemma vista_lookup (a : Memoria.almacen) (w : string) :
  Memoria.vista a !! w = Memoria.leer (Memoria.datos a) a w.
Proof. unfold Memoria.vista, Memoria.leer. by rewrite lookup_omap. Qed.

Lemma vista_size (a : Memoria.almacen) :
  Memoria.bien_formado a → size (Memoria.vista a) = size (Memoria.datos a).
Proof.
  intros [Hal _]. rewrite <- !size_dom. f_equal. apply set_eq. intros w.
  rewrite !elem_of_dom, vista_lookup. unfold Memoria.leer.
  destruct (Memoria.datos a !! w) as [l|] eqn:E; simpl.
  - split; [by eauto|]. intros _. by apply (Hal w l).
  - split; by intros [? ?].
Qed.

(** One call on the store with addresses, seen from the worker [w']. *)
Lemma memoria_agregar_lookup (w w' : string) (r : pyval)
  (a : Memoria.almacen) :
  Memoria.bien_formado a →
  Memoria.bien_formado (Memoria.agregar_resultado w r a)
  ∧ (∀ l, Memoria.datos a !! w' = Some l →
          Memoria.datos (Memoria.agregar_resultado w r a) !! w' = Some l)
  ∧ Memoria.vista (Memoria.agregar_resultado w r a) !! w'
    = agregar_resultado w r (Memoria.vista a) !! w'.
Proof.
  intros [Hal Hinj]. rewrite agregar_resultado_lookup, !vista_lookup.
  rewrite (vista_size a) by done.
  unfold Memoria.agregar_resultado, Memoria.leer.
  destruct (Memoria.datos a !! w) as [l|] eqn:Hw.
  - rewrite Hw. simpl. destruct (Hal w l Hw) as [d Hd]. rewrite Hd. simpl.
    split; [|split].
    + split; simpl.
      * intros w1 l1 H1. destruct (decide (l = l1)) as [->|Hne].
        -- rewrite lookup_insert_eq. by eauto.
        -- rewrite lookup_insert_ne by done. by apply (Hal w1).
      * by apply Hinj.
    + done.
    + case_decide as Hww.
      * subst w'. rewrite Hw. simpl. by rewrite lookup_insert_eq.
      * destruct (Memoria.datos a !! w') as [l'|] eqn:Hw'; simpl; [|done].
        rewrite lookup_insert_ne; [done|].
        intros ->. apply Hww. by apply (Hinj w w' l').
  - set (l := fresh (dom (Memoria.objetos a))).
    assert (Hfresh : Memoria.objetos a !! l = None).
    { apply not_elem_of_dom. apply is_fresh. }
    simpl. rewrite lookup_insert_eq. simpl. rewrite lookup_insert_eq. simpl.
    split; [|split].
    + split; simpl.
      * intros w1 l1. rewrite lookup_insert. case_decide as Hw1.
        -- intros [= <-]. rewrite lookup_insert_eq. by eauto.
        -- intros H1. destruct (Hal w1 l1 H1) as [d1 Hd1].
           rewrite !lookup_insert_ne by congruence. by eauto.
      * intros w1 w2 l1. rewrite !lookup_insert.
        repeat case_decide; subst; try done.
        -- intros [= <-] H2. destruct (Hal w2 l H2). congruence.
        -- intros H1 [= <-]. destruct (Hal w1 l H1). congruence.
        -- by apply Hinj.
    + intros l' Hl'. rewrite lookup_insert_ne; [done|congruence].
    + rewrite lookup_insert. case_decide as Hww.
      * subst w'. simpl. by rewrite lookup_insert_eq.
      * destruct (Memoria.datos a !! w') as [l'|] eqn:Hw'; simpl; [|done].
        destruct (Hal w' l' Hw') as [d' Hd'].
        rewrite !lookup_insert_ne by congruence. done.
Qed.

Lemma memoria_recibir (rs : list (string * pyval)) (a : Memoria.almacen) :
  Memoria.bien_formado a →
  Memoria.bien_formado (Memoria.recibir rs a)
  ∧ (∀ w l, Memoria.datos a !! w = Some l →
            Memoria.datos (Memoria.recibir rs a) !! w = Some l)
  ∧ Memoria.vista (Memoria.recibir rs a) = recibir rs (Memoria.vista a).
Proof.
  revert a. unfold Memoria.recibir, recibir.
  induction rs as [|[w r] rs IH]; intros a Hwf; simpl; [done|].
  assert (Hstep : ∀ w', _) by exact (λ w', memoria_agregar_lookup w w' r a Hwf).
  destruct (Hstep w) as [Hwf1 _].
  destruct (IH _ Hwf1) as (Hwf2 & Hkeep & Hvista).
  split; [done|]. split.
  - intros w' l Hl. apply Hkeep. by apply (Hstep w').
  - rewrite Hvista. f_equal. apply map_eq. intros w'. by apply (Hstep w').
Qed.

Lemma bien_formado_vacio : Memoria.bien_formado Memoria.vacio.
Proof. split; simpl; intros *; by rewrite lookup_empty. Qed.

(** X3: the store whose entries are changed in place behaves, for its
    owner, as the store of values: after any sequence of results every
    worker has an entry of its own, and what is read through [datos] is
    what the functional [agregar_resultado] computes. *)
Theorem almacen_con_objetos (rs : list (string * pyval)) :
  Memoria.bien_formado (Memoria.recibir rs Memoria.vacio)
  ∧ Memoria.vista (Memoria.recibir rs Memoria.vacio) = recibir rs ∅.
Proof.
  destruct (memoria_recibir rs Memoria.vacio bien_formado_vacio)
    as (Hwf & _ & Hv).
  split; [done|]. rewrite Hv. f_equal.
Qed.

(** X4: a snapshot is a copy of the outer dictionary only. Through a
    snapshot taken after the results [rs], and once the results [rs']
    have arrived after it, a worker that was in the store when the
    snapshot was taken is read with its present entry, later results
    included, and a worker that came later is not seen at all. *)
Theorem instantanea_comparte_entradas (rs rs' : list (string * pyval))
  (w : string) :
  let a := Memoria.recibir rs Memoria.vacio in
  let a' := Memoria.recibir rs' a in
  Memoria.leer (Memoria.instantanea a) a' w =
    if decide (w ∈ rs.*1) then recibir (rs ++ rs') ∅ !! w else None.
Proof.
  intros a a'.
  destruct (memoria_recibir rs Memoria.vacio bien_formado_vacio)
    as (Hwf & _ & Hv).
  destruct (memoria_recibir rs' a Hwf) as (Hwf' & Hkeep & Hv').
  fold a in Hv. fold a' in Hv', Hkeep.
  assert (Hdom : dom (Memoria.datos a) = list_to_set (rs.*1)).
  { rewrite <- recibir_dom.
    replace (recibir rs ∅) with (Memoria.vista a) by (rewrite Hv; f_equal).
    apply set_eq. intros x. rewrite !elem_of_dom, vista_lookup.
    destruct Hwf as [Hal _]. unfold Memoria.leer.
    destruct (Memoria.datos a !! x) as [l|] eqn:E; simpl.
    - split; [|by eauto]. intros _. by apply (Hal x l).
    - split; by intros [? ?]. }
  unfold Memoria.instantanea, Memoria.leer. case_decide as Hin.
  - assert (Hsome : is_Some (Memoria.datos a !! w)).
    { apply elem_of_dom. rewrite Hdom. by apply elem_of_list_to_set. }
    destruct Hsome as [l Hl]. rewrite Hl. simpl.
    unfold recibir. rewrite fold_left_app.
    change (fold_left _ rs ∅) with (recibir rs ∅).
    replace (recibir rs ∅) with (Memoria.vista a) by (rewrite Hv; f_equal).
    change (fold_left _ rs' (Memoria.vista a))
      with (recibir rs' (Memoria.vista a)).
    rewrite <- Hv', vista_lookup. unfold Memoria.leer.
    by rewrite (Hkeep w l Hl).
  - assert (Hnone : Memoria.datos a !! w = None).
    { apply not_elem_of_dom. rewrite Hdom. by rewrite elem_of_list_to_set. }
    by rewrite Hnone.
Qed.

End Instantanea.

(** ** The loop of the worker (consumidor.py) *)

Section Bucle.
Context {rt : Runtime}.
Import Consumidor.

(** What one call of the callback does to the worker, whatever its
    outcome. *)
Lemma procesar_escenario_paso (ahora : float64) (tag : Z) (cuerpo : string)
  (self : consumidor) :
  worker_id (snd (procesar_escenario ahora tag cuerpo self)) = worker_id self
  ∧ modelo (snd (procesar_escenario ahora tag cuerpo self)) = modelo self
  ∧ ∃ q,
      result_queue (snd (procesar_escenario ahora tag cuerpo self))
        = result_queue self ++ q
      ∧ resultados_publicados (snd (procesar_escenario ahora tag cuerpo self))
        = resultados_publicados self + Z.of_nat (length q)
      ∧ (length q ≤ 1)%nat
      ∧ Forall (λ msg,
                  py_get msg "worker_id" VNone = Ok (VStr (worker_id self))
                  ∧ py_get msg "resultado" VNone ≠ Ok VNone) q
      ∧ acks (snd (procesar_escenario ahora tag cuerpo self))
        = acks self
            ++ (if is_Ok (fst (procesar_escenario ahora tag cuerpo self))
                then [tag] else []).
Proof.
  assert (Hmsg : ∀ escenario r, r ≠ VNone →
            Forall (λ msg,
                  py_get msg "worker_id" VNone = Ok (VStr (worker_id self))
                  ∧ py_get msg "resultado" VNone ≠ Ok VNone)
              [mensaje_resultado self escenario r ahora]).
  { intros escenario r Hr. apply Forall_singleton. split; [done|].
    simpl. unfold dict_get. simpl. congruence. }
  unfold procesar_escenario.
  destruct (json_loads cuerpo) as [escenario|e];
    [destruct (ejecutar_modelo self escenario) as [resultado|e];
     [destruct resultado as [|b|z|x|s|l|d]; cbn zeta;
      try (destruct (json_dumps _) as [[]|e];
           [destruct (formato_4f _) as [[]|e]|])|]|];
    simpl; (split; [done|]); (split; [done|]).
  all: try (exists []; simpl; rewrite ?app_nil_r, ?Z.add_0_r;
            split_and!; [done|done|lia|by apply Forall_nil|done]; fail).
  all: eexists [_]; simpl; rewrite ?app_nil_r;
    (split; [done|]); (split; [done|]); (split; [lia|]);
    (split; [by apply Hmsg|done]).
Qed.

(** X5: whatever the deliveries and however the loop ends, the worker's
    name and model stay as they were; the counter of published results
    goes up by the number of messages added to [result_queue], each of
    which carries the worker's name and a result that is not [None]; the
    tags acknowledged are those of the first deliveries, in order, all of
    them when the loop returns and not all when it raises; and at most one
    message was published for a delivery that was not acknowledged. *)
Theorem consumir_invariantes (entregas : list (float64 * Z * string))
  (self : consumidor) :
  worker_id (snd (consumir entregas self)) = worker_id self
  ∧ modelo (snd (consumir entregas self)) = modelo self
  ∧ ∃ (q : list pyval) (n : nat),
      result_queue (snd (consumir entregas self)) = result_queue self ++ q
      ∧ resultados_publicados (snd (consumir entregas self))
        = resultados_publicados self + Z.of_nat (length q)
      ∧ Forall (λ msg,
                  py_get msg "worker_id" VNone = Ok (VStr (worker_id self))
                  ∧ py_get msg "resultado" VNone ≠ Ok VNone) q
      ∧ acks (snd (consumir entregas self))
        = acks self ++ take n (map (λ e, snd (fst e)) entregas)
      ∧ (if is_Ok (fst (consumir entregas self))
         then n = length entregas ∧ (length q ≤ n)%nat
         else (n < length entregas)%nat ∧ (length q ≤ n + 1)%nat).
Proof.
  revert self. induction entregas as [|[[ahora tag] cuerpo] resto IH];
    intros self.
  - simpl. split; [done|]. split; [done|]. exists [], O. simpl.
    rewrite !app_nil_r, Z.add_0_r. by repeat split.
  - cbn [consumir].
    destruct (procesar_escenario_paso ahora tag cuerpo self)
      as (Hw & Hm & q1 & Hq & Hc & Hlen & Hall & Ha).
    destruct (procesar_escenario ahora tag cuerpo self) as [[[]|e] self1];
      simpl in *.
    + destruct (IH self1) as (Hw2 & Hm2 & q2 & n2 & Hq2 & Hc2 & Hall2 & Ha2 & Hn).
      split; [congruence|]. split; [congruence|].
      exists (q1 ++ q2), (S n2).
      rewrite Hq2, Hq, Hc2, Hc, Ha2, Ha, length_app, <- !app_assoc. simpl.
      split; [done|]. split; [lia|]. split.
      { apply Forall_app. split; [done|]. by rewrite <- Hw. }
      split; [done|].
      destruct (is_Ok (fst (consumir resto self1))); lia.
    + split; [done|]. split; [done|]. exists q1, O.
      rewrite Ha. simpl. rewrite app_nil_r.
      split; [done|]. split; [done|]. split; [done|]. split; [done|]. lia.
Qed.

(** X6: a result that the worker cannot write ends its loop, the
    delivery not acknowledged and the deliveries that follow left alone.
    - When the formula evaluates to a text, or to a list or a dictionary
      of JSON values, and [json.dumps] can write the result message, the
      message is published and counted, and then the callback raises
      while it formats the result for the log, [ValueError] for a text
      and [TypeError] otherwise.
    - When [json.dumps] cannot write the result message, an integer in it
      having more than 4300 digits, its exception is raised before
      anything is published or counted. *)
Theorem resultado_sin_formato (self : consumidor) (ahora : float64) (tag : Z)
  (cuerpo : string) (escenario resultado : pyval)
  (resto : list (float64 * Z * string)) :
  json_loads cuerpo = Ok escenario →
  ejecutar_modelo self escenario = Ok resultado →
  resultado ≠ VNone →
  ((∃ s, resultado = VStr s) ∨ (∃ l, resultado = VList l)
     ∨ (∃ d, resultado = VDict d) →
   json_dumps (mensaje_resultado self escenario resultado ahora) = Ok tt →
   ∃ e self',
     consumir ((ahora, tag, cuerpo) :: resto) self = (Raise e, self')
     ∧ e = (if resultado is VStr _ then ValueError else TypeError)
     ∧ result_queue self'
       = result_queue self
           ++ [mensaje_resultado self escenario resultado ahora]
     ∧ resultados_publicados self' = resultados_publicados self + 1
     ∧ acks self' = acks self)
  ∧ (∀ e,
     json_dumps (mensaje_resultado self escenario resultado ahora) = Raise e →
     consumir ((ahora, tag, cuerpo) :: resto) self = (Raise e, self)).
Proof.
  intros Hjson Hev Hno. cbn [consumir]. unfold procesar_escenario.
  rewrite Hjson, Hev. split.
  - intros Hr Hd.
    destruct Hr as [[s ->]|[[l ->]|[d ->]]]; cbn zeta; rewrite Hd; simpl;
      by eexists _, _.
  - intros e Hd. destruct resultado; [done|..]; cbn zeta; by rewrite Hd.
Qed.

(** X7: a model that the line parser returned for a text without a
    [model:] line stops every worker that loads it: on the first delivery
    that can be decoded the callback raises [AttributeError] before the
    [try], so nothing is published or acknowledged and the loop ends. *)
Theorem modelo_sin_formula_detiene (texto cuerpo_modelo : string) (m : pyval)
  (ahora : float64) (tag : Z) (cuerpo : string) (escenario : pyval)
  (resto : list (float64 * Z * string)) (self : consumidor) :
  tiene_model texto = false →
  Productor._parsear_modelo texto = Ok m →
  cuerpo_modelo ≠ EmptyString →
  json_loads cuerpo_modelo = Ok m →
  json_loads cuerpo = Ok escenario →
  ∃ self',
    iniciar (Some cuerpo_modelo) ((ahora, tag, cuerpo) :: resto) self
      = (Raise AttributeError, self')
    ∧ modelo self' = m
    ∧ result_queue self' = result_queue self
    ∧ resultados_publicados self' = resultados_publicados self
    ∧ acks self' = acks self.
Proof.
  intros Hm Hparse Hne Hmodelo Hjson.
  assert (Hformula : py_getitem m "model" = Ok VNone).
  { unfold Productor._parsear_modelo in Hparse.
    destruct (Productor.parsear_lineas _ (splitlines texto))
      as [[secs a]|] eqn:E; simpl in Hparse; [|done].
    injection Hparse as <-.
    pose proof (parsear_lineas_model _ _ _ _ _ Hm E) as Hmodel.
    simpl in Hmodel. unfold Productor.secciones_dict. by rewrite Hmodel. }
  unfold iniciar, obtener_modelo.
  destruct cuerpo_modelo as [|c t]; [done|]. rewrite Hmodelo.
  cbn [consumir]. unfold procesar_escenario. rewrite Hjson.
  unfold ejecutar_modelo, expresion_de. cbn [modelo]. rewrite Hformula.
  simpl. by eexists.
Qed.

End Bucle.

Lemma resultado_sin_formato_witness :
  (∃ e self',
     Consumidor.consumir (rt:=referencia)
       [(flt "0", 7, cuerpo_hola); (flt "1", 8, cuerpo_suma)]
       (trabajador modelo_a) = (Raise e, self')
     ∧ e = ValueError
     ∧ Consumidor.result_queue self'
       = [] ++ [Consumidor.mensaje_resultado (trabajador modelo_a)
                  (VDict [("a", VStr "hola")]) (VStr "hola") (flt "0")]
     ∧ Consumidor.resultados_publicados self' = 0 + 1
     ∧ Consumidor.acks self' = [])
  ∧ Consumidor.consumir (rt:=referencia)
      [(flt "0", 7, cuerpo_grande); (flt "1", 8, cuerpo_suma)]
      (trabajador modelo_cuadrado)
    = (Raise ValueError, trabajador modelo_cuadrado).
Proof.
  split.
  - apply (resultado_sin_formato (rt:=referencia) (trabajador modelo_a)
             (flt "0") 7 cuerpo_hola (VDict [("a", VStr "hola")])
             (VStr "hola") [(flt "1", 8, cuerpo_suma)]).
    + by vm_compute.
    + by vm_compute.
    + discriminate.
    + left. by eexists.
    + by vm_compute.
  - apply (resultado_sin_formato (rt:=referencia) (trabajador modelo_cuadrado)
             (flt "0") 7 cuerpo_grande (VDict [("a", VInt (10 ^ 2200))])
             (VInt (10 ^ 4400)) [(flt "1", 8, cuerpo_suma)]).
    + by vm_compute.
    + by vm_compute.
    + discriminate.
    + by vm_compute.
Defined.

Lemma modelo_sin_formula_detiene_witness :
  ∃ self',
    Consumidor.iniciar (rt:=referencia) (Some cuerpo_modelo_sin_formula)
      [(flt "0", 7, cuerpo_suma)] (trabajador VNone)
      = (Raise AttributeError, self')
    ∧ Consumidor.modelo self'
      = VDict [("model", VNone);
               ("constants", VDict [("c", VFloat (flt "2"))]);
               ("distributions", VDict [])]
    ∧ Consumidor.result_queue self' = []
    ∧ Consumidor.resultados_publicados self' = 0
    ∧ Consumidor.acks self' = [].
Proof.
  apply (modelo_sin_formula_detiene (rt:=referencia) texto_sin_model
           cuerpo_modelo_sin_formula _ (flt "0") 7 cuerpo_suma
           (VDict [("a", VFloat (flt "2.0")); ("b", VFloat (flt "3.5"))])
           [] (trabajador VNone)).
  - by vm_compute.
  - by vm_compute.
  - discriminate.
  - by vm_compute.
  - by vm_compute.
Defined.

(** ** The loop of the collector (colector.py) *)

Section Recolector.
Context {rt : Runtime}.
Import Colector.

(** What one call of the callback adds to the collector, whatever the
    message and whichever calls raise. *)
Lemma procesar_resultado_paso (f : fallos) (ts : string) (tag : Z)
  (cuerpo : string) (st : colector) :
  ∃ (a n : list Z) (d r : list pyval) (l : list linea),
    acks (snd (_procesar_resultado f ts tag cuerpo st)) = acks st ++ a
    ∧ nacks (snd (_procesar_resultado f ts tag cuerpo st)) = nacks st ++ n
    ∧ dashboard_queue (snd (_procesar_resultado f ts tag cuerpo st))
      = dashboard_queue st ++ d
    ∧ resultados (snd (_procesar_resultado f ts tag cuerpo st))
      = resultados st ++ r
    ∧ archivo (snd (_procesar_resultado f ts tag cuerpo st))
        ++ buffer (snd (_procesar_resultado f ts tag cuerpo st))
      = (archivo st ++ buffer st) ++ l
    ∧ (length a ≤ length d ∧ length d ≤ length r ∧ length r ≤ length l
       ∧ length l ≤ 1)%nat
    ∧ (if is_Ok (fst (_procesar_resultado f ts tag cuerpo st))
       then a ++ n = [tag] else a = [] ∧ n = []).
Proof.
  assert (Hnack : ∀ st1 (d r : list pyval) (l : list linea),
    dashboard_queue st1 = dashboard_queue st ++ d →
    resultados st1 = resultados st ++ r →
    archivo st1 ++ buffer st1 = (archivo st ++ buffer st) ++ l →
    acks st1 = acks st → nacks st1 = nacks st →
    (length d ≤ length r ∧ length r ≤ length l ∧ length l ≤ 1)%nat →
    ∃ (a n : list Z) (d r : list pyval) (l : list linea),
      acks (snd (basic_nack f tag st1)) = acks st ++ a
      ∧ nacks (snd (basic_nack f tag st1)) = nacks st ++ n
      ∧ dashboard_queue (snd (basic_nack f tag st1)) = dashboard_queue st ++ d
      ∧ resultados (snd (basic_nack f tag st1)) = resultados st ++ r
      ∧ archivo (snd (basic_nack f tag st1))
          ++ buffer (snd (basic_nack f tag st1))
        = (archivo st ++ buffer st) ++ l
      ∧ (length a ≤ length d ∧ length d ≤ length r ∧ length r ≤ length l
         ∧ length l ≤ 1)%nat
      ∧ (if is_Ok (fst (basic_nack f tag st1))
         then a ++ n = [tag] else a = [] ∧ n = [])).
  { intros st1 d r l Hd Hr Hl Ha Hn Hlen. unfold basic_nack.
    destruct (falla_nack f); simpl.
    - exists [], [], d, r, l. rewrite Ha, Hn, !app_nil_r.
      split_and!; try done; simpl; lia.
    - exists [], [tag], d, r, l. rewrite Ha, Hn, !app_nil_r.
      split_and!; try done; simpl; lia. }
  destruct (leer_mensaje ts cuerpo) as [[[w r] l]|e] eqn:Hm.
  - rewrite (mensaje_legible f ts tag cuerpo st w r l Hm).
    destruct (falla_write f).
    { apply (Hnack st [] [] []); rewrite ?app_nil_r; try done. simpl. lia. }
    destruct (falla_flush f).
    { apply (Hnack _ [] [] [l]); simpl; rewrite ?app_nil_r, ?app_assoc;
        try done; lia. }
    destruct (falla_publish f).
    { apply (Hnack _ [] [r] [l]); simpl; rewrite ?app_nil_r, ?app_assoc;
        try done; lia. }
    destruct (falla_ack f).
    { apply (Hnack _ [msg_dashboard w r ts] [r] [l]); simpl;
        rewrite ?app_nil_r, ?app_assoc; try done; lia. }
    exists [tag], [], [msg_dashboard w r ts], [r], [l]. simpl.
    rewrite !app_nil_r, !app_assoc. split_and!; try done; lia.
  - destruct (is_Exception e) eqn:He.
    + rewrite (mensaje_ilegible f ts tag cuerpo st e Hm He).
      apply (Hnack st [] [] []); rewrite ?app_nil_r; try done. simpl. lia.
    + unfold _procesar_resultado, try_except, cuerpo_try.
      unfold mbind, M_bind, lift. rewrite Hm, He. simpl.
      exists [], [], [], [], []. rewrite !app_nil_r.
      split_and!; try done; simpl; lia.
Qed.

(** X8: whatever the deliveries, the faults of the file and of the broker
    and the way the loop ends, the collector only adds to what it keeps:
    there are never more acknowledgements than projections published,
    more projections than results in memory, more results than lines
    handed to the file, or more lines than deliveries; and the tags
    acknowledged and rejected are together those of the first deliveries,
    each once, all of them when the loop returns. *)
Theorem recolectar_invariantes (entregas : list entrega) (st : colector) :
  ∃ (a n : list Z) (d r : list pyval) (l : list linea),
    acks (snd (recolectar entregas st)) = acks st ++ a
    ∧ nacks (snd (recolectar entregas st)) = nacks st ++ n
    ∧ dashboard_queue (snd (recolectar entregas st)) = dashboard_queue st ++ d
    ∧ resultados (snd (recolectar entregas st)) = resultados st ++ r
    ∧ archivo (snd (recolectar entregas st))
        ++ buffer (snd (recolectar entregas st))
      = (archivo st ++ buffer st) ++ l
    ∧ (length a ≤ length d ∧ length d ≤ length r ∧ length r ≤ length l
       ∧ length l ≤ length entregas)%nat
    ∧ a ++ n ≡ₚ take (length a + length n) (map e_tag entregas)
    ∧ (if is_Ok (fst (recolectar entregas st))
       then (length a + length n = length entregas)%nat
       else (length a + length n < length entregas)%nat).
Proof.
  revert st. induction entregas as [|e resto IH]; intros st.
  - exists [], [], [], [], []. simpl. rewrite !app_nil_r.
    split_and!; try done; lia.
  - cbn [recolectar].
    destruct (procesar_resultado_paso (e_fallos e) (e_timestamp e) (e_tag e)
                (e_cuerpo e) st)
      as (a1 & n1 & d1 & r1 & l1 & Ha & Hn & Hd & Hr & Hl & Hlen & Hok).
    destruct (_procesar_resultado (e_fallos e) (e_timestamp e) (e_tag e)
                (e_cuerpo e) st) as [[[]|x] st1]; simpl in *.
    + destruct (IH st1)
        as (a2 & n2 & d2 & r2 & l2 & Ha2 & Hn2 & Hd2 & Hr2 & Hl2 & Hlen2
            & Hperm & Hfin).
      exists (a1 ++ a2), (n1 ++ n2), (d1 ++ d2), (r1 ++ r2), (l1 ++ l2).
      rewrite Ha2, Hn2, Hd2, Hr2, Hl2, Ha, Hn, Hd, Hr, Hl, !length_app,
        <- !app_assoc.
      split_and!; try done; try lia.
      * assert (Hone : (length a1 + length n1 = 1)%nat).
        { rewrite <- length_app, Hok. done. }
        replace (length a1 + length a2 + (length n1 + length n2))%nat
          with (S (length a2 + length n2)) by lia.
        simpl. rewrite <- Hperm.
        destruct a1 as [|t1 a1]; simpl in Hok.
        -- subst n1. simpl. by rewrite <- Permutation_middle.
        -- injection Hok as -> Hrest.
           apply app_eq_nil in Hrest as [-> ->]. simpl.
           by rewrite ?app_nil_r.
      * destruct (is_Ok (fst (recolectar resto st1)));
          apply (f_equal length) in Hok; rewrite length_app in Hok;
          simpl in Hok; lia.
    + destruct Hok as [-> ->].
      exists [], [], d1, r1, l1. simpl.
      split_and!; try done; lia.
Qed.

(** X9: in a run where no call on the file or the broker raises and
    every message can either be read or raises an [Exception], the loop
    returns; the deliveries that can be read are acknowledged, in order,
    and each adds one line, one result and one projection, a message
    delivered twice being recorded twice; the others are rejected and add
    nothing. *)
Theorem recolectar_sin_fallos (entregas : list entrega) (st : colector) :
  Forall (λ e, e_fallos e = sin_fallos
               ∧ ∀ x, lectura e = Raise x → is_Exception x = true)
    entregas →
  fst (recolectar entregas st) = Ok tt
  ∧ acks (snd (recolectar entregas st))
    = acks st ++ map (λ p, e_tag (fst p)) (legibles entregas)
  ∧ nacks (snd (recolectar entregas st))
    = nacks st ++ map e_tag (ilegibles entregas)
  ∧ resultados (snd (recolectar entregas st))
    = resultados st ++ map (λ p, snd (fst (snd p))) (legibles entregas)
  ∧ dashboard_queue (snd (recolectar entregas st))
    = dashboard_queue st
        ++ map (λ p, msg_dashboard (fst (fst (snd p))) (snd (fst (snd p)))
                       (e_timestamp (fst p)))
             (legibles entregas)
  ∧ archivo (snd (recolectar entregas st))
      ++ buffer (snd (recolectar entregas st))
    = (archivo st ++ buffer st)
        ++ map (λ p, snd (snd p)) (legibles entregas).
Proof.
  intros Hall. revert st.
  induction Hall as [|e resto [Hf Hex] _ IH]; intros st.
  - simpl. rewrite !app_nil_r. by split_and!.
  - cbn [recolectar]. unfold legibles, ilegibles in *.
    rewrite filter_cons. cbn [omap list_omap]. fold (lectura e).
    unfold lectura in Hex |- *. rewrite Hf.
    destruct (leer_mensaje (e_timestamp e) (e_cuerpo e))
      as [[[w r] l]|x] eqn:Hm.
    + rewrite (mensaje_legible sin_fallos _ _ _ st w r l Hm). simpl.
      destruct (IH {| buffer := [];
                      archivo := archivo st ++ buffer st ++ [l];
                      resultados := resultados st ++ [r];
                      dashboard_queue :=
                        dashboard_queue st
                          ++ [msg_dashboard w r (e_timestamp e)];
                      acks := acks st ++ [e_tag e];
                      nacks := nacks st |})
        as (H1 & H2 & H3 & H4 & H5 & H6).
      rewrite H1, H2, H3, H4, H5, H6. simpl.
      rewrite !app_nil_r, <- !app_assoc. by split_and!.
    + rewrite (mensaje_ilegible sin_fallos _ _ _ st x Hm (Hex x eq_refl)).
      simpl.
      destruct (IH {| buffer := buffer st; archivo := archivo st;
                      resultados := resultados st;
                      dashboard_queue := dashboard_queue st;
                      acks := acks st; nacks := nacks st ++ [e_tag e] |})
        as (H1 & H2 & H3 & H4 & H5 & H6).
      rewrite H1, H2, H3, H4, H5, H6. simpl.
      rewrite <- !app_assoc. by split_and!.
Qed.

(** X10: a message that was decoded is recorded only if it is an object
    whose [resultado] is a number. Any other message, one that is not an
    object, one without [resultado], one whose [resultado] is [None], a
    text, a list or an object, is rejected and leaves no trace: no line,
    no result in memory, no projection, no acknowledgement. *)
Theorem mensaje_no_registrable (f : fallos) (ts : string) (tag : Z)
  (cuerpo : string) (msg : pyval) (st : colector) :
  json_loads cuerpo = Ok msg →
  (∀ d r, msg = VDict d → dict_get "resultado" d = Some r →
          formato_4f r ≠ Ok tt) →
  _procesar_resultado f ts tag cuerpo st = basic_nack f tag st
  ∧ acks (snd (_procesar_resultado f ts tag cuerpo st)) = acks st
  ∧ archivo (snd (_procesar_resultado f ts tag cuerpo st)) = archivo st
  ∧ buffer (snd (_procesar_resultado f ts tag cuerpo st)) = buffer st
  ∧ resultados (snd (_procesar_resultado f ts tag cuerpo st)) = resultados st
  ∧ dashboard_queue (snd (_procesar_resultado f ts tag cuerpo st))
    = dashboard_queue st.
Proof.
  intros Hjson Hno.
  assert (Hm : ∃ e, leer_mensaje ts cuerpo = Raise e
                    ∧ is_Exception e = true).
  { unfold leer_mensaje. rewrite Hjson. simpl.
    destruct msg as [| | | | | |d]; simpl; try by eexists.
    specialize (Hno d).
    destruct (dict_get "resultado" d) as [r|]; simpl.
    - specialize (Hno r eq_refl eq_refl).
      destruct (formato_4f r) as [[]|e] eqn:E; [done|]. simpl.
      exists e. split; [done|].
      destruct r as [|b|z|x|s|l|d']; unfold formato_4f in E;
        try done; try by injection E as <-.
      unfold float_of_int in E.
      destruct (binary_normalize prec emax z 0 false); simpl in E;
        by simplify_eq.
    - by eexists. }
  destruct Hm as (e & Hm & He).
  rewrite (mensaje_ilegible f ts tag cuerpo st e Hm He).
  split; [done|]. by destruct (basic_nack_acks f tag st) as (-> & -> & -> & -> & ->).
Qed.

End Recolector.

Lemma recolectar_sin_fallos_witness :
  fst (Colector.recolectar (rt:=referencia) dos_entregas colector_inicial)
    = Ok tt
  ∧ Colector.acks
      (snd (Colector.recolectar (rt:=referencia) dos_entregas
              colector_inicial))
    = [] ++ map (λ p, Colector.e_tag (fst p))
              (legibles (rt:=referencia) dos_entregas)
  ∧ Colector.nacks
      (snd (Colector.recolectar (rt:=referencia) dos_entregas
              colector_inicial))
    = [] ++ map Colector.e_tag (ilegibles (rt:=referencia) dos_entregas).
Proof.
  destruct (recolectar_sin_fallos (rt:=referencia) dos_entregas
              colector_inicial) as (H1 & H2 & H3 & _).
  - apply Forall_cons. split.
    { split; [reflexivity|]. intros x Hx. vm_compute in Hx. discriminate. }
    apply Forall_cons. split; [|by apply Forall_nil].
    split; [reflexivity|]. intros x Hx. vm_compute in Hx.
    injection Hx as <-. reflexivity.
  - by split_and!.
Defined.

Lemma mensaje_no_registrable_witness :
  Colector._procesar_resultado (rt:=referencia) Colector.sin_fallos
    "12:00:01" 2 cuerpo_sin_resultado colector_inicial
  = Colector.basic_nack Colector.sin_fallos 2 colector_inicial
  ∧ Colector.acks
      (snd (Colector._procesar_resultado (rt:=referencia) Colector.sin_fallos
              "12:00:01" 2 cuerpo_sin_resultado colector_inicial)) = []
  ∧ Colector.archivo
      (snd (Colector._procesar_resultado (rt:=referencia) Colector.sin_fallos
              "12:00:01" 2 cuerpo_sin_resultado colector_inicial)) = [].
Proof.
  destruct (mensaje_no_registrable (rt:=referencia) Colector.sin_fallos
              "12:00:01" 2 cuerpo_sin_resultado
              (VDict [("worker_id", VStr "VM2")]) colector_inicial)
    as (H1 & H2 & H3 & _).
  - by vm_compute.
  - intros d r [= <-]. by vm_compute.
  - by split_and!.
Defined.

(** ** The patterns of the distributions (productor.py) *)

Section Patrones.
Import Productor Re.

Lemma prefix_app (l s : string) : String.prefix l (l +:+ s) = true.
Proof.
  induction l as [|c l IH]; simpl; [by destruct s|].
  by destruct (ascii_dec c c).
Qed.

Lemma drop_chars_app (t s : string) :
  drop_chars (String.length t) (t +:+ s) = s.
Proof. induction t as [|c t IH]; simpl; [by destruct s|done]. Qed.

Lemma take_chars_app (t s : string) :
  take_chars (String.length t) (t +:+ s) = t.
Proof.
  induction t as [|c t IH]; simpl; [by destruct s|by rewrite IH].
Qed.

(** A run of characters of a class ends at the first character outside
    it. *)
Lemma span_app (k : cls) (t : string) (c : ascii) (s : string) :
  span k t = String.length t →
  cls_matches k c = false →
  span k (t +:+ String c s) = String.length t.
Proof.
  intros Ht Hc. induction t as [|c' t IH]; simpl in *; [by rewrite Hc|].
  destruct (cls_matches k c'); [|done]. injection Ht as Ht. by rewrite IH.
Qed.

Lemma span_sin (c : ascii) (t : string) :
  contains c t = false → span (Not c) t = String.length t.
Proof.
  induction t as [|c' t IH]; simpl; [done|].
  intros [H1 H2]%orb_false_iff. rewrite Ascii.eqb_sym, H1. simpl.
  by rewrite IH.
Qed.

(** The longest repetition is tried first. *)
Lemma first_down_primero {A} (f : nat → option A) (lo n : nat) (r : A) :
  (lo ≤ n)%nat → f n = Some r → first_down f lo n = Some r.
Proof.
  intros Hle Hf.
  destruct n; simpl; rewrite (proj2 (Nat.ltb_ge _ _)) by lia; by rewrite Hf.
Qed.

Lemma first_down_Some {A} (f : nat → option A) (lo n : nat) (r : A) :
  first_down f lo n = Some r → ∃ k, f k = Some r.
Proof.
  induction n as [|n IH]; simpl; destruct (_ <? lo)%nat; try done.
  - destruct (f O) eqn:E; [|done]. intros [= <-]. by eauto.
  - destruct (f (S n)) eqn:E; [intros [= <-]; by eauto|]. apply IH.
Qed.

Lemma match_lit (l s : string) (p : pattern) (groups : list string) :
  match_items (Lit l :: p) (l +:+ s) groups = match_items p s groups.
Proof. cbn [match_items]. by rewrite prefix_app, drop_chars_app. Qed.

Lemma match_group (k : cls) (t : string) (c : ascii) (s : string)
  (p : pattern) (groups r : list string) :
  t ≠ EmptyString →
  span k t = String.length t →
  cls_matches k c = false →
  match_items p (String c s) (t :: groups) = Some r →
  match_items (Group k :: p) (t +:+ String c s) groups = Some r.
Proof.
  intros Hne Ht Hc Hp. cbn [match_items]. rewrite span_app by done.
  apply first_down_primero.
  - destruct t; simpl; [done|lia].
  - by rewrite drop_chars_app, take_chars_app.
Qed.

Lemma match_star (k : cls) (t : string) (c : ascii) (s : string)
  (p : pattern) (groups r : list string) :
  span k t = String.length t →
  cls_matches k c = false →
  match_items p (String c s) groups = Some r →
  match_items (Star k :: p) (t +:+ String c s) groups = Some r.
Proof.
  intros Ht Hc Hp. cbn [match_items]. rewrite span_app by done.
  apply first_down_primero; [lia|]. by rewrite drop_chars_app.
Qed.

(** The end of the patterns: white space and the last argument. *)
Lemma ultimo_argumento (ws tb resto : string) (groups : list string) :
  blancos ws = true →
  empieza_sin_blanco tb = true →
  contains ")" tb = false →
  match_items [Star Space; Group (Not ")"); Lit ")"]
    (ws +:+ tb +:+ ")" +:+ resto) groups
  = Some (rev (tb :: groups)).
Proof.
  intros Hws Htb Hsin. apply Nat.eqb_eq in Hws.
  destruct tb as [|c tb]; [done|]. simpl in Htb.
  apply negb_true_iff in Htb.
  apply (match_star Space ws c (tb +:+ ")" +:+ resto)); [done..|].
  apply (match_group (Not ")") (String c tb) ")" resto); [done| |done|].
  { by apply span_sin. }
  by rewrite (match_lit ")" resto).
Qed.

(** An argument that is followed by a comma. *)
Lemma argumento_con_coma (t s : string) (p : pattern)
  (groups r : list string) :
  t ≠ EmptyString →
  contains "," t = false →
  match_items p s (t :: groups) = Some r →
  match_items (Group (Not ",") :: Lit "," :: p) (t +:+ "," +:+ s) groups
  = Some r.
Proof.
  intros Hne Hsin Hp.
  apply (match_group (Not ",") t "," s); [done|by apply span_sin|done|].
  by rewrite (match_lit "," s).
Qed.

Lemma argumento_medio (ws t s : string) (p : pattern)
  (groups r : list string) :
  blancos ws = true →
  empieza_sin_blanco t = true →
  contains "," t = false →
  match_items p s (t :: groups) = Some r →
  match_items (Star Space :: Group (Not ",") :: Lit "," :: p)
    (ws +:+ t +:+ "," +:+ s) groups
  = Some r.
Proof.
  intros Hws Ht Hsin Hp. apply Nat.eqb_eq in Hws.
  destruct t as [|c t]; [done|]. simpl in Ht. apply negb_true_iff in Ht.
  apply (match_star Space ws c (t +:+ "," +:+ s)); [done..|].
  by apply (argumento_con_coma (String c t) s).
Qed.

(** Every match of a pattern has as many groups as the pattern. *)
Lemma match_items_grupos (p : pattern) (s : string) (groups r : list string) :
  match_items p s groups = Some r →
  length r = (length groups + grupos p)%nat.
Proof.
  revert s groups. induction p as [|[l|k|k] p IH]; intros s groups; simpl.
  - intros [= <-]. rewrite length_rev. lia.
  - destruct (String.prefix l s); [apply IH|done].
  - intros [n Hn]%first_down_Some. by apply IH in Hn.
  - intros [n Hn]%first_down_Some. apply IH in Hn. simpl in Hn. lia.
Qed.

Section Muestras.
Context {R : Type} {np : Sampler R}.

(** X11: a text of the form [uniform(ta,tb)], [normal(ta,tb)],
    [triangular(ta,tb,tc)] or [constante(t)], with or without white space
    after the commas and whatever follows the closing parenthesis, is
    read as that distribution with exactly those arguments: the sampling
    function is called on their values as floats, and an argument that
    does not read as a float raises [ValueError] and leaves the generator
    as it was. A constant is its argument as a float and draws nothing. *)
Theorem patrones_capturan (ta tb tc ws ws' resto : string) (g : R) :
  ta ≠ EmptyString → contains "," ta = false →
  blancos ws = true → blancos ws' = true →
  empieza_sin_blanco tb = true →
  empieza_sin_blanco tc = true → contains ")" tc = false →
  (contains ")" tb = false →
   _evaluar_distribucion
     (VStr ("uniform(" +:+ ta +:+ "," +:+ ws +:+ tb +:+ ")" +:+ resto)) g
   = match py_float ta, py_float tb with
     | Ok a, Ok b => np_uniform a b g
     | _, _ => (Raise ValueError, g)
     end)
  ∧ (contains ")" tb = false →
     _evaluar_distribucion
       (VStr ("normal(" +:+ ta +:+ "," +:+ ws +:+ tb +:+ ")" +:+ resto)) g
     = match py_float ta, py_float tb with
       | Ok mu, Ok sigma => np_normal mu sigma g
       | _, _ => (Raise ValueError, g)
       end)
  ∧ (contains "," tb = false →
     _evaluar_distribucion
       (VStr ("triangular(" +:+ ta +:+ "," +:+ ws +:+ tb +:+ ","
                +:+ ws' +:+ tc +:+ ")" +:+ resto)) g
     = match py_float ta, py_float tb, py_float tc with
       | Ok izq, Ok pico, Ok der => np_triangular izq pico der g
       | _, _, _ => (Raise ValueError, g)
       end)
  ∧ _evaluar_distribucion (VStr ("constante(" +:+ tc +:+ ")" +:+ resto)) g
    = (match py_float tc with
       | Ok v => Ok v
       | Raise _ => Raise ValueError
       end, g).
Proof.
  intros Hta Hsa Hws Hws' Htb Htc Hsc.
  assert (Hdos : contains ")" tb = false → ∀ groups,
            match_items [Group (Not ","); Lit ","; Star Space;
                         Group (Not ")"); Lit ")"]
              (ta +:+ "," +:+ ws +:+ tb +:+ ")" +:+ resto) groups
            = Some (rev (tb :: ta :: groups))).
  { intros Hsb groups. apply argumento_con_coma; [done..|].
    by apply ultimo_argumento. }
  unfold _evaluar_distribucion, forma_lista, forma_texto, re_match.
  split; [|split; [|split]].
  - intros Hsb. unfold p_uniform.
    rewrite (match_lit "uniform("), (Hdos Hsb). simpl.
    destruct (py_float ta) as [a|e] eqn:Ea; simpl.
    + destruct (py_float tb) as [b|e] eqn:Eb; simpl; [done|].
      by rewrite (py_float_error _ _ Eb).
    + by rewrite (py_float_error _ _ Ea).
  - intros Hsb. unfold p_normal.
    rewrite (match_lit "normal("), (Hdos Hsb). simpl.
    destruct (py_float ta) as [a|e] eqn:Ea; simpl.
    + destruct (py_float tb) as [b|e] eqn:Eb; simpl; [done|].
      by rewrite (py_float_error _ _ Eb).
    + by rewrite (py_float_error _ _ Ea).
  - intros Hsb. unfold p_triangular.
    rewrite (match_lit "triangular(").
    rewrite (argumento_con_coma ta _ _ [] [ta; tb; tc]); [|done..|].
    2: { apply argumento_medio; [done..|]. by apply ultimo_argumento. }
    simpl.
    destruct (py_float ta) as [a|e] eqn:Ea; simpl.
    + destruct (py_float tb) as [b|e] eqn:Eb; simpl.
      * destruct (py_float tc) as [c|e] eqn:Ec; simpl; [done|].
        by rewrite (py_float_error _ _ Ec).
      * by rewrite (py_float_error _ _ Eb).
    + by rewrite (py_float_error _ _ Ea).
  - unfold p_constante. rewrite (match_lit "constante(").
    assert (Hc : match_items [Group (Not ")"); Lit ")"]
                   (tc +:+ ")" +:+ resto) [] = Some [tc]).
    { apply (match_group (Not ")") tc ")" resto).
      - by destruct tc.
      - by apply span_sin.
      - done.
      - by rewrite (match_lit ")" resto). }
    rewrite Hc. destruct (py_float tc) as [v|e] eqn:E; [done|].
    by rewrite (py_float_error _ _ E).
Qed.

(** X12: on a text, the function either calls one sampling function
    once, or returns a constant, or raises [ValueError] with the
    generator as it was; of its own it raises nothing else, whatever the
    text. *)
Theorem texto_solo_ValueError (s : string) (g : R) :
  (∃ a b, _evaluar_distribucion (VStr s) g = np_uniform a b g)
  ∨ (∃ mu sigma, _evaluar_distribucion (VStr s) g = np_normal mu sigma g)
  ∨ (∃ izq pico der,
       _evaluar_distribucion (VStr s) g = np_triangular izq pico der g)
  ∨ (∃ v, _evaluar_distribucion (VStr s) g = (Ok v, g))
  ∨ _evaluar_distribucion (VStr s) g = (Raise ValueError, g).
Proof.
  unfold _evaluar_distribucion, forma_lista, forma_texto, re_match.
  destruct (match_items p_uniform s []) as [gs|] eqn:E1.
  { apply match_items_grupos in E1. simpl in E1.
    destruct gs as [|ta [|tb [|? ?]]]; try done.
    destruct (py_float ta) as [a|e] eqn:Ea; simpl.
    - destruct (py_float tb) as [b|e] eqn:Eb; simpl; [by eauto|].
      rewrite (py_float_error _ _ Eb). tauto.
    - rewrite (py_float_error _ _ Ea). tauto. }
  destruct (match_items p_normal s []) as [gs|] eqn:E2.
  { apply match_items_grupos in E2. simpl in E2.
    destruct gs as [|ta [|tb [|? ?]]]; try done.
    destruct (py_float ta) as [a|e] eqn:Ea; simpl.
    - destruct (py_float tb) as [b|e] eqn:Eb; simpl; [by eauto 6|].
      rewrite (py_float_error _ _ Eb). tauto.
    - rewrite (py_float_error _ _ Ea). tauto. }
  destruct (match_items p_triangular s []) as [gs|] eqn:E3.
  { apply match_items_grupos in E3. simpl in E3.
    destruct gs as [|ta [|tb [|tc [|? ?]]]]; try done.
    destruct (py_float ta) as [a|e] eqn:Ea; simpl.
    - destruct (py_float tb) as [b|e] eqn:Eb; simpl.
      + destruct (py_float tc) as [c|e] eqn:Ec; simpl; [by eauto 8|].
        rewrite (py_float_error _ _ Ec). tauto.
      + rewrite (py_float_error _ _ Eb). tauto.
    - rewrite (py_float_error _ _ Ea). tauto. }
  destruct (match_items p_constante s []) as [gs|] eqn:E4; [|tauto].
  apply match_items_grupos in E4. simpl in E4.
  destruct gs as [|t [|? ?]]; try done.
  destruct (py_float t) as [v|e] eqn:E; [by eauto 8|].
  rewrite (py_float_error _ _ E). tauto.
Qed.

End Muestras.
End Patrones.

Lemma patrones_capturan_witness :
  Productor._evaluar_distribucion (np:=Numpy.legacy (bg:=Numpy.grabado))
    (VStr ("uniform(" +:+ "0" +:+ "," +:+ " " +:+ "1" +:+ ")" +:+ " # nota"))
    [flt "0.5"]
  = match py_float "0", py_float "1" with
    | Ok a, Ok b =>
        np_uniform (Sampler:=Numpy.legacy (bg:=Numpy.grabado)) a b [flt "0.5"]
    | _, _ => (Raise ValueError, [flt "0.5"])
    end
  ∧ Productor._evaluar_distribucion (np:=Numpy.legacy (bg:=Numpy.grabado))
      (VStr ("constante(" +:+ "2" +:+ ")" +:+ " # nota")) [flt "0.5"]
    = (match py_float "2" with
       | Ok v => Ok v
       | Raise _ => Raise ValueError
       end, [flt "0.5"]).
Proof.
  destruct (patrones_capturan (np:=Numpy.legacy (bg:=Numpy.grabado))
              "0" "1" "2" " " EmptyString " # nota" [flt "0.5"])
    as (Hu & _ & _ & Hc); try reflexivity; try discriminate.
  split; [apply Hu; reflexivity|exact Hc].
Defined.

(** ** Batches of scenarios (productor.py) *)

Section Lotes.
Context {R : Type} {np : Sampler R}.
Import Productor.

Lemma escenarios_desde_acc (n : nat) (distros : pyval) (acc : list dict)
  (g : R) :
  escenarios_desde n distros acc g =
    match escenarios_desde n distros [] g with
    | (Ok l, g') => (Ok (acc ++ l), g')
    | (Raise e, g') => (Raise e, g')
    end.
Proof.
  revert acc g. induction n as [|n IH]; intros acc g; simpl.
  - by rewrite app_nil_r.
  - destruct distros as [| | | | | |items]; try done.
    destruct (un_escenario items [] g) as [[esc|e] g1]; [|done].
    rewrite (IH (acc ++ [esc]) g1), (IH [esc] g1).
    destruct (escenarios_desde n (VDict items) [] g1) as [[l|e] g2]; [|done].
    by rewrite <- app_assoc.
Qed.

Lemma escenarios_desde_suma (n1 n2 : nat) (distros : pyval) (g : R) :
  escenarios_desde (n1 + n2) distros [] g =
    match escenarios_desde n1 distros [] g with
    | (Ok l1, g1) =>
        match escenarios_desde n2 distros [] g1 with
        | (Ok l2, g2) => (Ok (l1 ++ l2), g2)
        | (Raise e, g2) => (Raise e, g2)
        end
    | (Raise e, g1) => (Raise e, g1)
    end.
Proof.
  revert g. induction n1 as [|n1 IH]; intros g; simpl.
  - by destruct (escenarios_desde n2 distros [] g) as [[?|?] ?].
  - destruct distros as [| | | | | |items]; try done.
    destruct (un_escenario items [] g) as [[esc|e] g1]; [|done].
    rewrite (escenarios_desde_acc (n1 + n2) _ [esc] g1),
      (escenarios_desde_acc n1 _ [esc] g1), IH.
    destruct (escenarios_desde n1 (VDict items) [] g1) as [[l1|e] g2];
      [|done].
    by destruct (escenarios_desde n2 (VDict items) [] g2) as [[l2|e] g3].
Qed.

Lemma escenarios_desde_length (n : nat) (distros : pyval) (acc l : list dict)
  (g g' : R) :
  escenarios_desde n distros acc g = (Ok l, g') →
  length l = (length acc + n)%nat.
Proof.
  revert acc g. induction n as [|n IH]; intros acc g; simpl.
  - intros [= <- _]. lia.
  - destruct distros as [| | | | | |items]; try done.
    destruct (un_escenario items [] g) as [[esc|e] g1]; [|done].
    intros H%IH. rewrite length_app in H. simpl in H. lia.
Qed.

(** X13: generating [k1 + k2] scenarios is generating [k1] and then
    [k2] from the state in which the generator was left, and joining the
    two lists: the scenarios of a run do not depend on how many are asked
    for after them. If either batch raises, so does the whole, with the
    generator where that batch left it. *)
Theorem generar_escenarios_suma (self : productor) (k1 k2 : Z) (g : R) :
  0 ≤ k1 → 0 ≤ k2 →
  generar_escenarios self (k1 + k2) g =
    match generar_escenarios self k1 g with
    | (Ok l1, g1) =>
        match generar_escenarios self k2 g1 with
        | (Ok l2, g2) => (Ok (l1 ++ l2), g2)
        | (Raise e, g2) => (Raise e, g2)
        end
    | (Raise e, g1) => (Raise e, g1)
    end.
Proof.
  intros H1 H2. unfold generar_escenarios.
  destruct (distros_de (modelo self)) as [distros|e]; [|done].
  rewrite Z2Nat.inj_add by done. apply escenarios_desde_suma.
Qed.

End Lotes.

Lemma generar_escenarios_suma_witness :
  Productor.generar_escenarios (np:=Numpy.legacy (bg:=Numpy.grabado))
    {| Productor.modelo := modelo_abc |} (1 + 1) [flt "0.5"; flt "0.25"]
  = match Productor.generar_escenarios (np:=Numpy.legacy (bg:=Numpy.grabado))
            {| Productor.modelo := modelo_abc |} 1 [flt "0.5"; flt "0.25"] with
    | (Ok l1, g1) =>
        match Productor.generar_escenarios
                (np:=Numpy.legacy (bg:=Numpy.grabado))
                {| Productor.modelo := modelo_abc |} 1 g1 with
        | (Ok l2, g2) => (Ok (l1 ++ l2), g2)
        | (Raise e, g2) => (Raise e, g2)
        end
    | (Raise e, g1) => (Raise e, g1)
    end.
Proof.
  apply (generar_escenarios_suma (np:=Numpy.legacy (bg:=Numpy.grabado))
           {| Productor.modelo := modelo_abc |} 1 1 [flt "0.5"; flt "0.25"]);
    lia.
Defined.

(** ** The shape of a parsed model (productor.py) *)

Section Forma.
Import Productor.

Lemma dict_set_Forall (Q : pyval → Prop) (k : string) (v : pyval) (d : dict) :
  Q v →
  Forall (λ kv, Q (snd kv)) d →
  Forall (λ kv, Q (snd kv)) (dict_set k v d).
Proof.
  intros Hv. induction d as [|[k' v'] d IH]; simpl.
  - intros _. by apply Forall_singleton.
  - intros [Hk Hd]%Forall_cons. destruct (String.eqb k k').
    + by apply Forall_cons.
    + apply Forall_cons. split; [done|by apply IH].
Qed.

Lemma dict_set_NoDup (k : string) (v : pyval) (d : dict) :
  NoDup (dict_keys d) → NoDup (dict_keys (dict_set k v d)).
Proof.
  induction d as [|[k' v'] d IH]; simpl.
  - intros _. apply NoDup_singleton.
  - intros [Hk Hd]%NoDup_cons. destruct (String.eqb k k') eqn:E; simpl.
    + by apply NoDup_cons.
    + apply NoDup_cons. split; [|by apply IH].
      fold (dict_keys (dict_set k v d)). rewrite dict_keys_set.
      intros [->|Hin]; [|done]. by rewrite String.eqb_refl in E.
Qed.

Lemma model_no_es_comentario (s : string) :
  startswith s "model:" = true →
  String.eqb s EmptyString || startswith s "#" = false.
Proof.
  unfold startswith. destruct s as [|c s]; [done|]. cbn [String.prefix].
  destruct (ascii_dec "m" c) as [<-|]; [|done]. intros _. reflexivity.
Qed.

(** What every line keeps: constants are floats, distributions are
    texts, no key stands twice, and a formula once read stays. *)
Lemma parsear_linea_forma (secs secs' : secciones) (a a' : option seccion)
  (linea : string) :
  parsear_linea (secs, a) linea = Ok (secs', a') →
  (Forall (λ kv, ∃ x, snd kv = VFloat x) (constants secs) →
   Forall (λ kv, ∃ x, snd kv = VFloat x) (constants secs'))
  ∧ (Forall (λ kv, ∃ s, snd kv = VStr s) (distributions secs) →
     Forall (λ kv, ∃ s, snd kv = VStr s) (distributions secs'))
  ∧ (NoDup (dict_keys (constants secs)) →
     NoDup (dict_keys (constants secs')))
  ∧ (NoDup (dict_keys (distributions secs)) →
     NoDup (dict_keys (distributions secs')))
  ∧ (is_Some (model secs) ∨ startswith (strip linea) "model:" = true →
     is_Some (model secs')).
Proof.
  unfold parsear_linea.
  destruct (String.eqb (strip linea) EmptyString
            || startswith (strip linea) "#") eqn:E0.
  { intros [= <- _]. split_and!; try done. intros [H|H]; [done|].
    by rewrite (model_no_es_comentario _ H) in E0. }
  destruct (startswith (strip linea) "model:") eqn:E1.
  { intros [= <- _]. simpl. split_and!; try done; by eauto. }
  destruct (startswith _ "constants:");
    [intros [= <- _]; split_and!; try done; by intros [?|?]|].
  destruct (startswith _ "distributions:");
    [intros [= <- _]; split_and!; try done; by intros [?|?]|].
  destruct (es_constants a && _).
  { destruct (split "=" _) as [|k [|v [|? ?]]]; try done.
    destruct (py_float (strip v)) as [x|]; simpl; [|done].
    intros [= <- _]. simpl. split_and!; try done; try by intros [?|?].
    - intros H. apply (dict_set_Forall (λ v, ∃ x, v = VFloat x));
        [by eauto|done].
    - apply dict_set_NoDup. }
  destruct (es_distributions a && _);
    [|intros [= <- _]; split_and!; try done; by intros [?|?]].
  destruct (split "~" _) as [|k [|v [|? ?]]]; try done.
  intros [= <- _]. simpl. split_and!; try done; try by intros [?|?].
  - intros H. apply (dict_set_Forall (λ v, ∃ s, v = VStr s));
      [by eauto|done].
  - apply dict_set_NoDup.
Qed.

Lemma parsear_lineas_forma (lineas : list string) (secs secs' : secciones)
  (a a' : option seccion) :
  parsear_lineas (secs, a) lineas = Ok (secs', a') →
  Forall (λ kv, ∃ x, snd kv = VFloat x) (constants secs) →
  Forall (λ kv, ∃ s, snd kv = VStr s) (distributions secs) →
  NoDup (dict_keys (constants secs)) →
  NoDup (dict_keys (distributions secs)) →
  Forall (λ kv, ∃ x, snd kv = VFloat x) (constants secs')
  ∧ Forall (λ kv, ∃ s, snd kv = VStr s) (distributions secs')
  ∧ NoDup (dict_keys (constants secs'))
  ∧ NoDup (dict_keys (distributions secs'))
  ∧ (is_Some (model secs)
     ∨ existsb (λ l, startswith (strip l) "model:") lineas = true →
     is_Some (model secs')).
Proof.
  revert secs a. induction lineas as [|l ls IH]; intros secs a; simpl.
  - intros [= <- _] ? ? ? ?. split_and!; try done. by intros [?|?].
  - destruct (parsear_linea (secs, a) l) as [[secs1 a1]|] eqn:E; simpl;
      [|done].
    destruct (parsear_linea_forma _ _ _ _ _ E) as (H1 & H2 & H3 & H4 & H5).
    intros Hrest Hc Hd Hnc Hnd.
    destruct (IH _ _ Hrest (H1 Hc) (H2 Hd) (H3 Hnc) (H4 Hnd))
      as (G1 & G2 & G3 & G4 & G5).
    split_and!; try done.
    intros [Hs|[Hl|Hls]%orb_true_iff]; apply G5; auto.
Qed.

(** X14: whatever the text, a model that the line parser returns is a
    dictionary with exactly the keys [model], [constants] and
    [distributions], in that order; its formula is a text when the text
    has a [model:] line and [None] otherwise; its constants are floats
    and its distributions texts, no name standing twice in either table;
    and the table that is sampled for it is [distributions]. *)
Theorem parsear_modelo_forma (texto : string) (m : pyval) :
  _parsear_modelo texto = Ok m →
  ∃ (f : pyval) (c d : dict),
    m = VDict [("model", f); ("constants", VDict c);
               ("distributions", VDict d)]
    ∧ (if tiene_model texto then ∃ s, f = VStr s else f = VNone)
    ∧ Forall (λ kv, ∃ x, snd kv = VFloat x) c
    ∧ Forall (λ kv, ∃ s, snd kv = VStr s) d
    ∧ NoDup (dict_keys c)
    ∧ NoDup (dict_keys d)
    ∧ distros_de m = Ok (VDict d).
Proof.
  unfold _parsear_modelo.
  destruct (parsear_lineas _ (splitlines texto)) as [[secs a]|] eqn:E;
    simpl; [|done].
  intros [= <-].
  destruct (parsear_lineas_forma _ _ _ _ _ E)
    as (Hc & Hd & Hnc & Hnd & Hm); simpl;
    [by apply Forall_nil|by apply Forall_nil|apply NoDup_nil_2..|].
  eexists _, (constants secs), (distributions secs).
  split; [done|]. split_and!; try done.
  unfold tiene_model. destruct (existsb _ _) eqn:Ex.
  - destruct Hm as [s Hs]; [by right|]. rewrite Hs. by eauto.
  - by rewrite (parsear_lineas_model _ _ _ _ _ Ex E).
Qed.

(** A line without effect leaves the parser where it was. *)
Lemma parsear_linea_sin_efecto (secs : secciones) (a : option seccion)
  (linea : string) :
  sin_efecto a linea = true →
  parsear_linea (secs, a) linea = Ok (secs, a).
Proof.
  unfold sin_efecto, es_dato, parsear_linea.
  destruct (String.eqb (strip linea) EmptyString
            || startswith (strip linea) "#"); [done|].
  simpl.
  destruct (startswith _ "model:"); [done|].
  destruct (startswith _ "constants:"); [done|].
  destruct (startswith _ "distributions:"); [done|]. simpl.
  destruct a as [[]|]; simpl; try done.
  - by intros ->%negb_true_iff.
  - by intros ->%negb_true_iff.
Qed.

(** X15: the lines the parser passes over. A blank line or a comment
    anywhere, a line before the first header, a line under the [model:]
    line, a line of the constants section without an equals sign and a
    line of the distributions section without a tilde change nothing: the
    outcome is that of the text without the line. In particular a formula
    cannot be continued on the line after [model:]. *)
Theorem lineas_sin_efecto (texto texto' : string) (antes despues : list string)
  (linea : string) (secs : secciones) (a : option seccion) :
  splitlines texto = antes ++ linea :: despues →
  splitlines texto' = antes ++ despues →
  parsear_lineas secciones_vacias antes = Ok (secs, a) →
  sin_efecto a linea = true →
  _parsear_modelo texto = _parsear_modelo texto'.
Proof.
  intros Hs Hs' Ha Hl. unfold _parsear_modelo.
  rewrite Hs, Hs', !parsear_lineas_app. fold secciones_vacias.
  rewrite Ha. simpl. by rewrite (parsear_linea_sin_efecto secs a linea Hl).
Qed.

End Forma.

Lemma parsear_modelo_forma_witness :
  ∃ (f : pyval) (c d : dict),
    modelo_abc = VDict [("model", f); ("constants", VDict c);
                        ("distributions", VDict d)]
    ∧ (if tiene_model texto_dsl then ∃ s, f = VStr s else f = VNone)
    ∧ Forall (λ kv, ∃ x, snd kv = VFloat x) c
    ∧ Forall (λ kv, ∃ s, snd kv = VStr s) d
    ∧ NoDup (dict_keys c)
    ∧ NoDup (dict_keys d)
    ∧ Productor.distros_de modelo_abc = Ok (VDict d).
Proof.
  apply (parsear_modelo_forma texto_dsl modelo_abc). by vm_compute.
Defined.

Lemma lineas_sin_efecto_witness :
  Productor._parsear_modelo texto_con_sobras
  = Productor._parsear_modelo texto_sin_sobras
  ∧ Productor._parsear_modelo
      ("model: resultado = a" +:+ nl +:+ "  + 1" +:+ nl +:+ "a ~ x")
    = Productor._parsear_modelo ("model: resultado = a" +:+ nl +:+ "a ~ x").
Proof.
  split.
  - apply (lineas_sin_efecto texto_con_sobras texto_sin_sobras []
             ["model: resultado = a"; "  + 1"; "distributions:";
              "a ~ constante(3)"]
             "a ~ uniform(0, 1)" (fst secciones_vacias) None);
      by vm_compute.
  - apply (lineas_sin_efecto _ _ ["model: resultado = a"] ["a ~ x"] "  + 1"
             {| Productor.model := Some "resultado = a";
                Productor.constants := [];
                Productor.distributions := [] |}
             (Some Productor.SecModel));
      by vm_compute.
Defined.

(** ** The main program of the producer (productor.py) *)

Section Principal.
Import Productor.

Lemma publicar_desde_spec (i total : Z) (escenarios : list dict) (c : canal) :
  model_queue (publicar_desde i total escenarios c) = model_queue c
  ∧ scenario_queue (publicar_desde i total escenarios c)
    = scenario_queue c ++ escenarios
  ∧ avances (publicar_desde i total escenarios c)
    = avances c
        ++ map (λ j, (j, total))
             (List.filter (con_avance total)
                (seqZ i (Z.of_nat (length escenarios)))).
Proof.
  revert i c. induction escenarios as [|esc resto IH]; intros i c.
  - simpl. by rewrite !app_nil_r.
  - cbn [publicar_desde length].
    match goal with
    | |- context [publicar_desde (i + 1) total resto ?c1] =>
        destruct (IH (i + 1) c1) as (H1 & H2 & H3)
    end.
    rewrite H1, H2, H3. cbn [model_queue scenario_queue avances].
    rewrite <- app_assoc. split; [done|]. split; [done|].
    rewrite (seqZ_cons i) by lia.
    replace (Z.pred (Z.of_nat (S (length resto))))
      with (Z.of_nat (length resto)) by lia.
    replace (Z.succ i) with (i + 1) by lia.
    cbn [List.filter]. unfold con_avance at 2.
    destruct ((i mod 10 =? 0) || (i =? total)); [|done].
    by rewrite <- app_assoc.
Qed.

(** The multiples of ten up to [m]. *)
Lemma decenas (m : nat) :
  length (List.filter (λ j, j mod 10 =? 0) (seqZ 1 (Z.of_nat m)))
  = Z.to_nat (Z.of_nat m / 10).
Proof.
  induction m as [|m IH]; [done|].
  replace (Z.of_nat (S m)) with (Z.of_nat m + 1) by lia.
  rewrite seqZ_app by lia. rewrite List.filter_app, length_app, IH.
  change (seqZ (1 + Z.of_nat m) 1) with [1 + Z.of_nat m].
  cbn [List.filter].
  destruct ((1 + Z.of_nat m) mod 10 =? 0) eqn:E; simpl.
  - apply Z.eqb_eq in E. apply Nat2Z.inj. rewrite Nat2Z.inj_add.
    rewrite !Z2Nat.id by (apply Z.div_pos; lia).
    pose proof (Z.div_mod (Z.of_nat m) 10).
    pose proof (Z.div_mod (Z.of_nat m + 1) 10).
    pose proof (Z.mod_pos_bound (Z.of_nat m) 10).
    replace (1 + Z.of_nat m) with (Z.of_nat m + 1) in E by lia. lia.
  - apply Z.eqb_neq in E. rewrite Nat.add_0_r. f_equal.
    pose proof (Z.div_mod (Z.of_nat m) 10).
    pose proof (Z.div_mod (Z.of_nat m + 1) 10).
    pose proof (Z.mod_pos_bound (Z.of_nat m) 10).
    pose proof (Z.mod_pos_bound (Z.of_nat m + 1) 10).
    replace (1 + Z.of_nat m) with (Z.of_nat m + 1) in E by lia. lia.
Qed.

(** X16: [publicar_escenarios] puts the scenarios on [scenario_queue] in
    the order of the list and publishes no model; it reports its progress
    at every tenth scenario and at the last one, so that for [n]
    scenarios there are [(n + 9) / 10] reports, none for an empty list,
    and the last report is [n/n]. *)
Theorem publicar_escenarios_avances (escenarios : list dict) (c : canal) :
  model_queue (publicar_escenarios escenarios c) = model_queue c
  ∧ scenario_queue (publicar_escenarios escenarios c)
    = scenario_queue c ++ escenarios
  ∧ ∃ nuevos,
      avances (publicar_escenarios escenarios c) = avances c ++ nuevos
      ∧ nuevos
        = map (λ j, (j, Z.of_nat (length escenarios)))
            (List.filter (con_avance (Z.of_nat (length escenarios)))
               (seqZ 1 (Z.of_nat (length escenarios))))
      ∧ Z.of_nat (length nuevos) = (Z.of_nat (length escenarios) + 9) / 10
      ∧ last nuevos
        = match escenarios with
          | [] => None
          | _ => Some (Z.of_nat (length escenarios),
                       Z.of_nat (length escenarios))
          end.
Proof.
  unfold publicar_escenarios.
  destruct (publicar_desde_spec 1 (Z.of_nat (length escenarios)) escenarios c)
    as (H1 & H2 & H3).
  split; [done|]. split; [done|]. eexists. split; [exact H3|].
  split; [done|].
  destruct escenarios as [|esc resto]; [done|].
  set (m := length resto). cbn [length]. fold m.
  replace (Z.of_nat (S m)) with (Z.of_nat m + 1) by lia.
  rewrite seqZ_app by lia. rewrite List.filter_app.
  change (seqZ (1 + Z.of_nat m) 1) with [1 + Z.of_nat m].
  cbn [List.filter].
  assert (Hult : con_avance (Z.of_nat m + 1) (1 + Z.of_nat m) = true).
  { unfold con_avance. apply orb_true_iff. right. apply Z.eqb_eq. lia. }
  rewrite Hult, map_app, length_app, length_map. cbn [map length].
  rewrite last_snoc. split; [|f_equal; f_equal; lia].
  rewrite Nat2Z.inj_add.
  rewrite (List.filter_ext_in (con_avance (Z.of_nat m + 1))
             (λ j, j mod 10 =? 0)).
  - rewrite decenas.
    pose proof (Z.div_mod (Z.of_nat m) 10).
    pose proof (Z.div_mod (Z.of_nat m + 1 + 9) 10).
    pose proof (Z.mod_pos_bound (Z.of_nat m) 10).
    pose proof (Z.mod_pos_bound (Z.of_nat m + 1 + 9) 10).
    assert (0 ≤ Z.of_nat m / 10) by (apply Z.div_pos; lia).
    lia.
  - intros j Hj. apply list_elem_of_In, elem_of_seqZ in Hj.
    unfold con_avance.
    replace (j =? Z.of_nat m + 1) with false
      by (symmetry; apply Z.eqb_neq; lia).
    by rewrite orb_false_r.
Qed.

Section Programa.
Context {rt : Runtime} {R : Type} {np : Sampler R}.

Lemma leer_modelo_asigna (archivo : option string) (self self' : productor)
  (m : pyval) :
  leer_modelo archivo self = (Ok m, self') → modelo self' = m.
Proof.
  unfold leer_modelo. destruct archivo as [texto|]; [|done].
  destruct (json_loads (strip texto)) as [m'|e]; [by intros [= <- <-]|].
  destruct (is_JSONDecodeError e); [|done].
  destruct (_parsear_modelo (strip texto)); [by intros [= <- <-]|done].
Qed.

(** The answer to the prompt never ends the program. *)
Lemma leer_cantidad_total (entrada : string) :
  ∃ n, leer_cantidad entrada = Ok n.
Proof.
  unfold leer_cantidad. destruct (String.eqb _ _); [by eauto|].
  destruct (py_int entrada) as [n|e] eqn:E; [by eauto|].
  rewrite (py_int_error _ _ E). by eauto.
Qed.

(** X17: the main program publishes the model as soon as it is read,
    before the scenarios are generated, and publishes the scenarios only
    once all of them are generated. So when the model cannot be read,
    nothing is published; when it is read, it is on [model_queue] whatever
    happens afterwards; when the generation raises, at whatever scenario,
    no scenario at all is published; and when the program ends normally,
    [scenario_queue] holds as many scenarios as the count that was read,
    none for a count that is not positive. The answer to the prompt never
    makes the program raise: an exception that ends the program is that
    of the reading of the model, or that of the generation for the count
    that was read. *)
Theorem principal_publica (archivo : option string) (entrada : string)
  (g : R) :
  (∀ e, fst (leer_modelo archivo nuevo) = Raise e →
        principal archivo entrada g = (Raise e, canal_vacio, g))
  ∧ (∀ m, fst (leer_modelo archivo nuevo) = Ok m →
          model_queue (snd (fst (principal archivo entrada g))) = [m])
  ∧ (∀ e, fst (fst (principal archivo entrada g)) = Raise e →
          scenario_queue (snd (fst (principal archivo entrada g))) = []
          ∧ avances (snd (fst (principal archivo entrada g))) = [])
  ∧ (fst (fst (principal archivo entrada g)) = Ok tt →
     ∃ m n escenarios g',
       fst (leer_modelo archivo nuevo) = Ok m
       ∧ leer_cantidad entrada = Ok n
       ∧ generar_escenarios {| modelo := m |} n g = (Ok escenarios, g')
       ∧ principal archivo entrada g
         = (Ok tt,
            publicar_escenarios escenarios
              {| model_queue := [m]; scenario_queue := []; avances := [] |},
            g')
       ∧ scenario_queue (snd (fst (principal archivo entrada g)))
         = escenarios
       ∧ length escenarios = Z.to_nat n)
  ∧ (∀ e, fst (fst (principal archivo entrada g)) = Raise e →
     fst (leer_modelo archivo nuevo) = Raise e
     ∨ ∃ m n,
         fst (leer_modelo archivo nuevo) = Ok m
         ∧ leer_cantidad entrada = Ok n
         ∧ fst (generar_escenarios {| modelo := m |} n g) = Raise e).
Proof.
  unfold principal.
  destruct (leer_modelo archivo nuevo) as [[m|e] self] eqn:El; simpl.
  2: { split_and!; try done; try by intros e' [= <-].
       intros e' [= <-]. by left. }
  pose proof (leer_modelo_asigna _ _ _ _ El) as Hm.
  destruct (leer_cantidad_total entrada) as [n Hn]. rewrite Hn.
  assert (Hself : self = {| modelo := m |}) by (destruct self; simpl in *; congruence).
  subst self.
  destruct (generar_escenarios {| modelo := m |} n g)
    as [[escenarios|e] g'] eqn:Eg; simpl.
  - unfold publicar_escenarios.
    destruct (publicar_desde_spec 1 (Z.of_nat (length escenarios)) escenarios
                (publicar_modelo {| modelo := m |} canal_vacio))
      as (H1 & H2 & _).
    split_and!; try done.
    + intros m' [= <-]. by rewrite H1.
    + intros _. exists m, n, escenarios, g'. split_and!; try done.
      unfold generar_escenarios in Eg.
      destruct (distros_de _) as [distros|]; [|done].
      by apply escenarios_desde_length in Eg.
  - split_and!; try done; [by intros m' [= <-]|].
    intros e' [= <-]. right. exists m, n. by rewrite Eg.
Qed.

End Programa.
End Principal.

Lemma principal_publica_witness :
  Productor.principal (rt:=referencia) (np:=Numpy.legacy (bg:=Numpy.grabado))
    None "2" [flt "0.5"; flt "0.25"]
  = (Raise FileNotFoundError, Productor.canal_vacio, [flt "0.5"; flt "0.25"])
  ∧ Productor.model_queue
      (snd (fst (Productor.principal (rt:=referencia)
                   (np:=Numpy.legacy (bg:=Numpy.grabado))
                   (Some texto_dsl) "2" [flt "0.5"; flt "0.25"])))
    = [modelo_abc]
  ∧ (Productor.scenario_queue
       (snd (fst (Productor.principal (rt:=referencia)
                    (np:=Numpy.legacy (bg:=Numpy.grabado))
                    (Some texto_gamma) "2" [flt "0.5"])))
     = []
     ∧ Productor.avances
         (snd (fst (Productor.principal (rt:=referencia)
                      (np:=Numpy.legacy (bg:=Numpy.grabado))
                      (Some texto_gamma) "2" [flt "0.5"])))
       = [])
  ∧ (fst (Productor.leer_modelo (rt:=referencia) (Some texto_gamma)
            Productor.nuevo) = Raise ValueError
     ∨ ∃ m n,
         fst (Productor.leer_modelo (rt:=referencia) (Some texto_gamma)
                Productor.nuevo) = Ok m
         ∧ Productor.leer_cantidad texto_entero_largo = Ok n
         ∧ fst (Productor.generar_escenarios
                  (np:=Numpy.legacy (bg:=Numpy.grabado))
                  {| Productor.modelo := m |} n [flt "0.5"])
           = Raise ValueError).
Proof.
  destruct (principal_publica (rt:=referencia)
              (np:=Numpy.legacy (bg:=Numpy.grabado))
              (Some texto_gamma) texto_entero_largo [flt "0.5"])
    as (_ & _ & _ & _ & Horigen).
  destruct (principal_publica (rt:=referencia)
              (np:=Numpy.legacy (bg:=Numpy.grabado))
              None "2" [flt "0.5"; flt "0.25"]) as (Hno & _).
  destruct (principal_publica (rt:=referencia)
              (np:=Numpy.legacy (bg:=Numpy.grabado))
              (Some texto_dsl) "2" [flt "0.5"; flt "0.25"]) as (_ & Hm & _).
  destruct (principal_publica (rt:=referencia)
              (np:=Numpy.legacy (bg:=Numpy.grabado))
              (Some texto_gamma) "2" [flt "0.5"]) as (_ & _ & Hfalla & _).
  split; [|split; [|split]].
  - apply Hno. reflexivity.
  - apply Hm. by vm_compute.
  - apply (Hfalla ValueError). by vm_compute.
  - apply Horigen. by vm_compute.
Defined.

(** ** What a worker publishes, and what becomes of it *)

Section Publicaciones.
Context {rt : Runtime}.
Import Consumidor.

Lemma mensaje_de_ext (self1 self2 : consumidor) (e : float64 * Z * string) :
  worker_id self1 = worker_id self2 →
  modelo self1 = modelo self2 →
  mensaje_de self1 e = mensaje_de self2 e.
Proof.
  intros Hw Hm. unfold mensaje_de, ejecutar_modelo, mensaje_resultado.
  by rewrite Hw, Hm.
Qed.

(** A call of the callback that returns has acknowledged the delivery and
    published the message of the delivery, if there is one. *)
Lemma procesar_escenario_Ok (ahora : float64) (tag : Z) (cuerpo : string)
  (self self' : consumidor) :
  procesar_escenario ahora tag cuerpo self = (Ok tt, self') →
  worker_id self' = worker_id self
  ∧ modelo self' = modelo self
  ∧ acks self' = acks self ++ [tag]
  ∧ result_queue self'
    = result_queue self
        ++ option_list (mensaje_de self (ahora, tag, cuerpo))
  ∧ resultados_publicados self'
    = resultados_publicados self
      + Z.of_nat (length (option_list (mensaje_de self (ahora, tag, cuerpo))))
  ∧ ∀ msg, mensaje_de self (ahora, tag, cuerpo) = Some msg →
      ∃ escenario resultado,
        msg = mensaje_resultado self escenario resultado ahora
        ∧ formato_4f resultado = Ok tt.
Proof.
  unfold procesar_escenario, mensaje_de. simpl.
  destruct (json_loads cuerpo) as [escenario|e]; [|done].
  destruct (ejecutar_modelo self escenario) as [resultado|e]; [|done].
  destruct resultado as [|b|z|x|s|l|d]; cbn zeta;
    try (destruct (json_dumps _) as [[]|e]; [|done]);
    try destruct (formato_4f _) as [[]|e] eqn:Ef; try done.
  - intros [= <-]. simpl. rewrite app_nil_r, Z.add_0_r. by split_and!.
  - intros [= <-]. simpl. split_and!; try done. intros msg [= <-]. by eauto.
  - intros [= <-]. simpl. split_and!; try done. intros msg [= <-]. by eauto.
  - intros [= <-]. simpl. split_and!; try done. intros msg [= <-]. by eauto.
Qed.

Lemma consumir_publica_desde (entregas : list (float64 * Z * string))
  (self0 self : consumidor) :
  worker_id self = worker_id self0 →
  modelo self = modelo self0 →
  fst (consumir entregas self) = Ok tt →
  result_queue (snd (consumir entregas self))
    = result_queue self ++ omap (mensaje_de self0) entregas
  ∧ resultados_publicados (snd (consumir entregas self))
    = resultados_publicados self
      + Z.of_nat (length (omap (mensaje_de self0) entregas))
  ∧ acks (snd (consumir entregas self))
    = acks self ++ map (λ e, snd (fst e)) entregas.
Proof.
  revert self. induction entregas as [|[[ahora tag] cuerpo] resto IH];
    intros self Hw Hm.
  - simpl. intros _. rewrite !app_nil_r, Z.add_0_r. by split_and!.
  - cbn [consumir].
    destruct (procesar_escenario ahora tag cuerpo self)
      as [[[]|e] self1] eqn:E; [|done].
    apply procesar_escenario_Ok in E as (Hw1 & Hm1 & Ha & Hq & Hc & _).
    intros Hok.
    destruct (IH self1) as (G1 & G2 & G3); [congruence..|done|].
    rewrite G1, G2, G3, Ha, Hq, Hc. cbn [omap list_omap map fst snd].
    rewrite (mensaje_de_ext self self0) by done.
    destruct (mensaje_de self0 (ahora, tag, cuerpo)) as [msg|]; simpl;
      rewrite <- ?app_assoc, ?app_nil_r; split_and!; try done; lia.
Qed.

(** X18: when the loop of the worker returns, [result_queue] has
    received, in the order of the deliveries, one message for each
    delivery whose scenario the formula evaluates to a value that is not
    [None], and nothing else; the counter has gone up by their number and
    every delivery is acknowledged, in order. *)
Theorem consumir_publica (entregas : list (float64 * Z * string))
  (self : consumidor) :
  fst (consumir entregas self) = Ok tt →
  result_queue (snd (consumir entregas self))
    = result_queue self ++ omap (mensaje_de self) entregas
  ∧ resultados_publicados (snd (consumir entregas self))
    = resultados_publicados self
      + Z.of_nat (length (omap (mensaje_de self) entregas))
  ∧ acks (snd (consumir entregas self))
    = acks self ++ map (λ e, snd (fst e)) entregas.
Proof. by apply consumir_publica_desde. Qed.

(** X19: the message that a worker publishes in a call of the callback
    that returns is one that the collector records. Once decoded, and
    when no call on the file or the broker raises, the collector writes
    and flushes its line, keeps its result, publishes its projection
    under the worker's name and acknowledges it. *)
Theorem resultado_publicado_se_registra (self self' : consumidor)
  (ahora : float64) (tag : Z) (cuerpo : string) (msg : pyval)
  (ts : string) (tag' : Z) (cuerpo' : string) (st : Colector.colector) :
  procesar_escenario ahora tag cuerpo self = (Ok tt, self') →
  result_queue self' = result_queue self ++ [msg] →
  json_loads cuerpo' = Ok msg →
  ∃ escenario resultado,
    msg = mensaje_resultado self escenario resultado ahora
    ∧ Colector._procesar_resultado Colector.sin_fallos ts tag' cuerpo' st
      = (Ok tt,
         {| Colector.buffer := [];
            Colector.archivo :=
              Colector.archivo st ++ Colector.buffer st
                ++ [{| Colector.l_timestamp := ts;
                       Colector.l_worker := VStr (worker_id self);
                       Colector.l_escenario := escenario;
                       Colector.l_resultado := resultado |}];
            Colector.resultados := Colector.resultados st ++ [resultado];
            Colector.dashboard_queue :=
              Colector.dashboard_queue st
                ++ [Colector.msg_dashboard (VStr (worker_id self)) resultado
                      ts];
            Colector.acks := Colector.acks st ++ [tag'];
            Colector.nacks := Colector.nacks st |}).
Proof.
  intros Hproc Hq Hjson.
  apply procesar_escenario_Ok in Hproc as (_ & _ & _ & Hq' & _ & Hmsg).
  rewrite Hq in Hq'. apply app_inv_head in Hq'.
  destruct (mensaje_de self (ahora, tag, cuerpo)) as [m|]; [|done].
  injection Hq' as <-.
  destruct (Hmsg msg eq_refl) as (escenario & resultado & -> & Hf).
  exists escenario, resultado. split; [done|].
  rewrite (mensaje_legible Colector.sin_fallos ts tag' cuerpo' st
             (VStr (worker_id self)) resultado
             {| Colector.l_timestamp := ts;
                Colector.l_worker := VStr (worker_id self);
                Colector.l_escenario := escenario;
                Colector.l_resultado := resultado |}); [done|].
  unfold Colector.leer_mensaje. rewrite Hjson. simpl.
  unfold dict_get. simpl. by rewrite Hf.
Qed.

End Publicaciones.

Lemma consumir_publica_witness :
  Consumidor.result_queue
    (snd (Consumidor.consumir (rt:=referencia) entregas_division
            (trabajador modelo_division)))
  = [] ++ omap (mensaje_de (rt:=referencia) (trabajador modelo_division))
            entregas_division
  ∧ Consumidor.resultados_publicados
      (snd (Consumidor.consumir (rt:=referencia) entregas_division
              (trabajador modelo_division)))
    = 0 + Z.of_nat
            (length (omap (mensaje_de (rt:=referencia)
                             (trabajador modelo_division))
                       entregas_division))
  ∧ Consumidor.acks
      (snd (Consumidor.consumir (rt:=referencia) entregas_division
              (trabajador modelo_division)))
    = [] ++ map (λ e, snd (fst e)) entregas_division.
Proof.
  apply (consumir_publica (rt:=referencia) entregas_division
           (trabajador modelo_division)).
  by vm_compute.
Defined.

Lemma resultado_publicado_se_registra_witness :
  ∃ escenario resultado,
    VDict [("worker_id", VStr "VM1");
           ("escenario",
            VDict [("a", VFloat (flt "2.0")); ("b", VFloat (flt "3.5"))]);
           ("resultado", VFloat (flt "5.5"));
           ("timestamp", VFloat (flt "1.0"))]
    = Consumidor.mensaje_resultado (trabajador modelo_suma) escenario
        resultado (flt "1.0")
    ∧ Colector._procesar_resultado (rt:=referencia) Colector.sin_fallos
        "12:00:00" 1 cuerpo_resultado colector_inicial
      = (Ok tt,
         {| Colector.buffer := [];
            Colector.archivo :=
              [] ++ []
                ++ [{| Colector.l_timestamp := "12:00:00";
                       Colector.l_worker := VStr "VM1";
                       Colector.l_escenario := escenario;
                       Colector.l_resultado := resultado |}];
            Colector.resultados := [] ++ [resultado];
            Colector.dashboard_queue :=
              [] ++ [Colector.msg_dashboard (VStr "VM1") resultado
                       "12:00:00"];
            Colector.acks := [] ++ [1];
            Colector.nacks := [] |}).
Proof.
  apply (resultado_publicado_se_registra (rt:=referencia)
           (trabajador modelo_suma)
           (snd (Consumidor.procesar_escenario (rt:=referencia) (flt "1.0") 1
                   cuerpo_suma (trabajador modelo_suma)))
           (flt "1.0") 1 cuerpo_suma
           (VDict [("worker_id", VStr "VM1");
                   ("escenario",
                    VDict [("a", VFloat (flt "2.0"));
                           ("b", VFloat (flt "3.5"))]);
                   ("resultado", VFloat (flt "5.5"));
                   ("timestamp", VFloat (flt "1.0"))])
           "12:00:00" 1 cuerpo_resultado colector_inicial).
  - by vm_compute.
  - by vm_compute.
  - by vm_compute.
Defined.

(** ** From the text of a model to the environment of its formula *)

Section DelTextoAlEntorno.
Context {rt : Runtime} {R : Type} {np : Sampler R}.
Import Productor.

(** A scenario that was generated binds the names of the table it was
    sampled from, each once, to floats. *)
Lemma un_escenario_forma (items escenario escenario' : dict) (g g' : R) :
  un_escenario items escenario g = (Ok escenario', g') →
  (Forall (λ kv, ∃ x, snd kv = VFloat x) escenario →
   Forall (λ kv, ∃ x, snd kv = VFloat x) escenario')
  ∧ (NoDup (dict_keys escenario) → NoDup (dict_keys escenario'))
  ∧ ∀ key, key ∈ dict_keys escenario'
           ↔ key ∈ dict_keys escenario ∨ key ∈ dict_keys items.
Proof.
  revert escenario g. induction items as [|[var expr] items IH];
    intros escenario g; simpl.
  - intros [= <- _]. split_and!; try done. intros key.
    rewrite elem_of_nil. tauto.
  - destruct (_evaluar_distribucion expr g) as [[v|e] g1]; [|done].
    intros (H1 & H2 & H3)%IH. split_and!.
    + intros H. apply H1.
      apply (dict_set_Forall (λ v, ∃ x, v = VFloat x)); [by eauto|done].
    + intros H. by apply H2, dict_set_NoDup.
    + intros key. rewrite H3, dict_keys_set, elem_of_cons. tauto.
Qed.

Lemma escenarios_desde_forma (n : nat) (items : dict) (acc l : list dict)
  (g g' : R) (esc : dict) :
  escenarios_desde n (VDict items) acc g = (Ok l, g') →
  esc ∈ l →
  esc ∈ acc
  ∨ (Forall (λ kv, ∃ x, snd kv = VFloat x) esc
     ∧ NoDup (dict_keys esc)
     ∧ ∀ key, key ∈ dict_keys esc ↔ key ∈ dict_keys items).
Proof.
  revert acc g. induction n as [|n IH]; intros acc g; simpl.
  - intros [= <- _]. by left.
  - destruct (un_escenario items [] g) as [[nuevo|e] g1] eqn:E; [|done].
    intros Hrun Hin.
    destruct (IH _ _ Hrun Hin) as [[Hacc|Hnuevo]%elem_of_app|Hforma];
      [by left| |by right].
    apply list_elem_of_singleton in Hnuevo as ->. right.
    apply un_escenario_forma in E as (H1 & H2 & H3).
    split_and!.
    + apply H1. by apply Forall_nil.
    + apply H2. apply NoDup_nil_2.
    + intros key. rewrite H3. simpl. rewrite elem_of_nil. tauto.
Qed.

Lemma dict_update_Forall (Q : pyval → Prop) (d other : dict) :
  Forall (λ kv, Q (snd kv)) d →
  Forall (λ kv, Q (snd kv)) other →
  Forall (λ kv, Q (snd kv)) (dict_update d other).
Proof.
  unfold dict_update. revert d.
  induction other as [|[k v] other IH]; intros d Hd Ho; simpl; [done|].
  apply Forall_cons in Ho as [Hv Ho]. apply IH; [|done].
  by apply dict_set_Forall.
Qed.

(** X20: for a model that the line parser returned and a scenario that
    was generated for it, the environment in which the worker evaluates
    the formula binds exactly the names declared under [distributions]
    and under [constants], every one of them to a float; a name declared
    in both has the value of the constant. *)
Theorem entorno_de_un_modelo_de_texto (texto : string) (m : pyval) (k : Z)
  (g g' : R) (escenarios : list dict) (esc : dict) :
  _parsear_modelo texto = Ok m →
  generar_escenarios {| modelo := m |} k g = (Ok escenarios, g') →
  esc ∈ escenarios →
  ∃ (c d entorno : dict),
    py_get m "constants" (VDict []) = Ok (VDict c)
    ∧ distros_de m = Ok (VDict d)
    ∧ Consumidor.entorno_de m (VDict esc) = Ok entorno
    ∧ (∀ key, is_Some (dict_get key entorno)
              ↔ key ∈ dict_keys d ∨ key ∈ dict_keys c)
    ∧ (∀ key, dict_get key entorno =
                match dict_get key c with
                | Some v => Some v
                | None => dict_get key esc
                end)
    ∧ Forall (λ kv, ∃ x, snd kv = VFloat x) entorno.
Proof.
  intros Hparse Hgen Hin.
  unfold _parsear_modelo in Hparse.
  destruct (parsear_lineas _ (splitlines texto)) as [[secs a]|] eqn:E;
    simpl in Hparse; [|done].
  injection Hparse as <-.
  destruct (parsear_lineas_forma _ _ _ _ _ E)
    as (Hc & _ & Hnc & _ & _); simpl;
    [by apply Forall_nil|by apply Forall_nil|apply NoDup_nil_2..|].
  unfold generar_escenarios in Hgen. simpl in Hgen.
  destruct (escenarios_desde_forma _ _ _ _ _ _ _ Hgen Hin)
    as [Hnil|(Hf & Hnd & Hkeys)]; [by apply elem_of_nil in Hnil|].
  exists (constants secs), (distributions secs),
    (dict_update (dict_update [] esc) (constants secs)).
  split; [done|]. split; [done|]. split; [done|].
  assert (Hget : ∀ key,
            dict_get key (dict_update (dict_update [] esc) (constants secs))
            = match dict_get key (constants secs) with
              | Some v => Some v
              | None => dict_get key esc
              end).
  { intros key. rewrite !dict_get_update by done.
    destruct (dict_get key (constants secs)); [done|].
    by destruct (dict_get key esc). }
  split_and!; [|done|].
  - intros key. rewrite Hget, <- Hkeys, <- !dict_get_is_Some.
    destruct (dict_get key (constants secs)); [|by intuition].
    split; [by eauto|by eauto].
  - apply (dict_update_Forall (λ v, ∃ x, v = VFloat x)); [|done].
    apply (dict_update_Forall (λ v, ∃ x, v = VFloat x));
      [by apply Forall_nil|done].
Qed.

End DelTextoAlEntorno.

Lemma entorno_de_un_modelo_de_texto_witness :
  ∃ (c d entorno : dict),
    py_get modelo_abc "constants" (VDict []) = Ok (VDict c)
    ∧ Productor.distros_de modelo_abc = Ok (VDict d)
    ∧ Consumidor.entorno_de modelo_abc
        (VDict [("a", VFloat (flt "0.5")); ("b", VFloat (flt "3"))])
      = Ok entorno
    ∧ (∀ key, is_Some (dict_get key entorno)
              ↔ key ∈ dict_keys d ∨ key ∈ dict_keys c)
    ∧ (∀ key, dict_get key entorno =
                match dict_get key c with
                | Some v => Some v
                | None =>
                    dict_get key
                      [("a", VFloat (flt "0.5")); ("b", VFloat (flt "3"))]
                end)
    ∧ Forall (λ kv, ∃ x, snd kv = VFloat x) entorno.
Proof.
  apply (entorno_de_un_modelo_de_texto
           (np:=Numpy.legacy (bg:=Numpy.grabado)) texto_dsl modelo_abc 2
           [flt "0.5"; flt "0.25"] []
           [[("a", VFloat (flt "0.5")); ("b", VFloat (flt "3"))];
            [("a", VFloat (flt "0.25")); ("b", VFloat (flt "3"))]]).
  - by vm_compute.
  - by vm_compute.
  - by left.
Defined.
